(** * Analizador de Datos Excel: the loader, the aggregator and the script

    A shallow embedding of [app.py].  The program is a Streamlit script
    over pandas: the definitions below give the pandas and Streamlit calls
    the script makes their documented meaning, one definition per call, and
    follow the script line by line.

    Frames are column-major lists of cells.  Exceptions are values of
    [result]; the files on disk and the cache of [st.cache_data] are passed
    along as a [state].  A number is held as its exact value; the
    arithmetic on numbers is that of their column: binary64, every
    operation rounded, or [int64] with wrap-around; what Python computes on
    a column of objects is taken from the platform. *)

From Stdlib Require Import ZArith QArith Qcanon Qabs Lqa String Ascii List Lia.
From stdpp Require Import base decidable option list strings pretty gmap sorting.

Local Open Scope string_scope.
Local Open Scope list_scope.
Local Open Scope Z_scope.

(** ** Cells and frames *)

(** A calendar date: what a [datetime64] cell at midnight holds. *)
Record date := mkDate { d_year : Z; d_month : Z; d_day : Z }.

(** One cell of a pandas column: missing (NaN, NaT, None), text, a number
    (its exact value), or a timestamp. *)
Inductive cell :=
| Null
| Str (s : string)
| Num (q : Qc)
| Date (d : date).

#[global] Instance date_eq_dec : EqDecision date.
Proof. solve_decision. Defined.

#[global] Instance cell_eq_dec : EqDecision cell.
Proof. solve_decision. Defined.

Definition notna (c : cell) : bool :=
  match c with Null => false | _ => true end.

(** A frame is column-major, as in pandas: an index length and the named
    columns.  Reading a column past its end yields a missing value. *)
Record DataFrame := mkDF { nrows : nat; cols : list (string * list cell) }.

Definition cell_at (c : list cell) (i : nat) : cell := nth i c Null.

Definition names (df : DataFrame) : list string := map fst (cols df).

(** The exceptions the script can meet. *)
Inductive exn :=
| FileNotFoundError (path : string)
| BadZipFile
| WorksheetNotFound (sheet : string)
| KeyError (key : string)
| DateValueError (value : cell)
| MergeError
| TypeError
| PlotValueError (column : string)
| OSError.

Inductive result (A : Type) :=
| Ok (a : A)
| Err (e : exn).
Arguments Ok {A} a.
Arguments Err {A} e.

#[global] Instance result_ret : MRet result := fun A a => Ok a.
#[global] Instance result_bind : MBind result := fun A B k r =>
  match r with Ok a => k a | Err e => Err e end.

Fixpoint mapM {A B} (f : A -> result B) (l : list A) : result (list B) :=
  match l with
  | [] => Ok []
  | x :: l' => y ← f x; ys ← mapM f l'; Ok (y :: ys)
  end.

(** [df[name]]: the first column of that name, or [KeyError]. *)
Fixpoint lookup_col (name : string) (cs : list (string * list cell))
  : option (list cell) :=
  match cs with
  | [] => None
  | (n, c) :: cs' => if String.eqb n name then Some c else lookup_col name cs'
  end.

Definition getcol (name : string) (df : DataFrame) : result (list cell) :=
  match lookup_col name (cols df) with
  | Some c => Ok c
  | None => Err (KeyError name)
  end.

(** [df[name] = values]: replaces the column in place, or appends it. *)
Fixpoint assign_col (name : string) (v : list cell)
  (cs : list (string * list cell)) : list (string * list cell) :=
  match cs with
  | [] => [(name, v)]
  | (n, c) :: cs' =>
      if String.eqb n name then (n, v) :: cs' else (n, c) :: assign_col name v cs'
  end.

Definition setcol (name : string) (v : list cell) (df : DataFrame) : DataFrame :=
  mkDF (nrows df) (assign_col name v (cols df)).

(** ** What the script takes from its platform

    [fl] is binary64 rounding to nearest, with the relative error bound that
    holds away from overflow and underflow; [str_exn] is the text Python's
    [str] gives for an exception; [repr_float] is the text Python writes for
    a binary64 value; [unicode_decimal] is the table of the decimal digits
    beyond ASCII (the characters [\d] matches besides 0-9), by code point,
    with the value of each; [object_sum] and [object_mean] are the sum and
    the mean of the numbers of a group in a column pandas holds as Python
    objects, where the arithmetic is Python's and numpy's; [mergeable] is
    pandas' check that two key columns have dtypes it accepts to join
    on. *)
Definition eps : Q := 1 # (2 ^ 53).

Class Platform := {
  fl : Q -> Q;
  fl_error : forall x : Q, (Qabs (fl x - x) <= eps * Qabs x)%Q;
  str_exn : exn -> string;
  repr_float : Qc -> string;
  unicode_decimal : Z -> option Z;
  object_sum : list Qc -> Qc;
  object_mean : list Qc -> Q;
  mergeable : list cell -> list cell -> bool
}.

(** ** Dates: [pd.to_datetime(..., format='%d/%m/%y')] *)

Definition byte (a : ascii) : Z := Z.of_nat (nat_of_ascii a).

(** The characters of a text: its UTF-8 bytes read as code points. *)
Fixpoint code_points (s : string) : list Z :=
  match s with
  | EmptyString => []
  | String a s1 =>
      let x := byte a in
      if x <? 192 then x :: code_points s1
      else
        match s1 with
        | EmptyString => [x]
        | String b s2 =>
            if x <? 224 then ((x - 192) * 64 + (byte b - 128)) :: code_points s2
            else
              match s2 with
              | EmptyString => [x; byte b]
              | String c s3 =>
                  if x <? 240
                  then ((x - 224) * 4096 + (byte b - 128) * 64 + (byte c - 128))
                       :: code_points s3
                  else
                    match s3 with
                    | EmptyString => [x; byte b; byte c]
                    | String d s4 =>
                        ((x - 240) * 262144 + (byte b - 128) * 4096
                         + (byte c - 128) * 64 + (byte d - 128))
                        :: code_points s4
                    end
              end
        end
  end.

(** The class [[0-9]] of a regular expression: the ten ASCII digits. *)
Definition ascii_digit (x : Z) : option Z :=
  if (48 <=? x) && (x <=? 57) then Some (x - 48) else None.

(** The class [\d] on text: any decimal digit, of any script. *)
Definition digit_of `{Platform} (x : Z) : option Z :=
  if x <? 128 then ascii_digit x
  else match unicode_decimal x with
       | Some v => if (0 <=? v) && (v <=? 9) then Some v else None
       | None => None
       end.

(** The directive [%d]: [3[0-1]|[1-2]\d|0[1-9]|[1-9]| [1-9]]. *)
Definition match_d `{Platform} (s : string) : option Z :=
  match code_points s with
  | [a; b] =>
      match ascii_digit a, ascii_digit b, digit_of b with
      | Some 3, Some y, _ => if y <=? 1 then Some (30 + y) else None
      | Some 1, _, Some y => Some (10 + y)
      | Some 2, _, Some y => Some (20 + y)
      | Some 0, Some y, _ => if 1 <=? y then Some y else None
      | None, Some y, _ => if (a =? 32) && (1 <=? y) then Some y else None
      | _, _, _ => None
      end
  | [a] =>
      match ascii_digit a with
      | Some x => if 1 <=? x then Some x else None
      | None => None
      end
  | _ => None
  end.

(** The directive [%m]: [1[0-2]|0[1-9]|[1-9]]. *)
Definition match_m (s : string) : option Z :=
  match code_points s with
  | [a; b] =>
      match ascii_digit a, ascii_digit b with
      | Some x, Some y =>
          if ((x =? 1) && (y <=? 2)) || ((x =? 0) && (1 <=? y))
          then Some (10 * x + y) else None
      | _, _ => None
      end
  | [a] =>
      match ascii_digit a with
      | Some x => if 1 <=? x then Some x else None
      | None => None
      end
  | _ => None
  end.

(** The directive [%y]: [\d\d], 00-68 in the 2000s and 69-99 in the
    1900s. *)
Definition match_y `{Platform} (s : string) : option Z :=
  match code_points s with
  | [a; b] =>
      match digit_of a, digit_of b with
      | Some x, Some y =>
          let yy := 10 * x + y in
          Some (if yy <=? 68 then 2000 + yy else 1900 + yy)
      | _, _ => None
      end
  | _ => None
  end.

(** The fields between the literal slashes of the format. *)
Fixpoint split_slash (s : string) : list string :=
  match s with
  | EmptyString => [EmptyString]
  | String a s' =>
      if Ascii.eqb a "/" then EmptyString :: split_slash s'
      else match split_slash s' with
           | f :: fs => String a f :: fs
           | [] => [String a EmptyString]
           end
  end.

Definition is_leap (y : Z) : bool :=
  ((y mod 4 =? 0) && negb (y mod 100 =? 0)) || (y mod 400 =? 0).

Definition days_in_month (y m : Z) : Z :=
  if m =? 2 then (if is_leap y then 29 else 28)
  else if (m =? 4) || (m =? 6) || (m =? 9) || (m =? 11) then 30
  else 31.

(** The whole text must match [%d/%m/%y] and name a day that exists. *)
Definition strptime `{Platform} (s : string) : option date :=
  match split_slash s with
  | [ds; ms; ys] =>
      match match_d ds, match_m ms, match_y ys with
      | Some d, Some m, Some y =>
          if d <=? days_in_month y m then Some (mkDate y m d) else None
      | _, _, _ => None
      end
  | _ => None
  end.

(** Text that pandas reads as a missing timestamp without looking at the
    format. *)
Definition nat_strings : list string :=
  ["NaT"; "nat"; "NAT"; "nan"; "NaN"; "NAN"].

Definition is_nat_string (s : string) : bool :=
  String.eqb s "" || existsb (String.eqb s) nat_strings.

(** One element of [pd.to_datetime(column, format='%d/%m/%y')]: missing
    values become NaT, timestamps stay, text goes through the format and
    anything that does not match raises. *)
Definition to_datetime_cell `{Platform} (c : cell) : result cell :=
  match c with
  | Null => Ok Null
  | Date d => Ok (Date d)
  | Str s =>
      if is_nat_string s then Ok Null
      else match strptime s with
           | Some d => Ok (Date d)
           | None => Err (DateValueError c)
           end
  | Num _ => Err (DateValueError c)
  end.

Definition to_datetime `{Platform} (c : list cell) : result (list cell) :=
  mapM to_datetime_cell c.

(** ** The join: [pd.merge(left, right, left_on, right_on, how='left')] *)

(** The right rows whose key equals [k], in the order of the right frame.
    Missing keys match each other, as pandas has it. *)
Definition key_matches (rk : list cell) (nR : nat) (k : cell) : list nat :=
  filter (fun j => cell_at rk j = k) (seq 0 nR).

(** The row pairs of a left join: the left rows in their order, each with
    every right row it matches, or with no right row at all. *)
Definition expand_left (rk : list cell) (nR : nat) (k : cell) (i : nat)
  : list (nat * option nat) :=
  match key_matches rk nR k with
  | [] => [(i, None)]
  | js => map (fun j => (i, Some j)) js
  end.

Definition join_indexers (lk : list cell) (nL : nat) (rk : list cell) (nR : nat)
  : list (nat * option nat) :=
  flat_map (fun i => expand_left rk nR (cell_at lk i) i) (seq 0 nL).

Definition take_left (idx : list (nat * option nat)) (c : list cell) : list cell :=
  map (fun p => cell_at c (fst p)) idx.

Definition take_right (idx : list (nat * option nat)) (c : list cell) : list cell :=
  map (fun p => match snd p with Some j => cell_at c j | None => Null end) idx.

(** A column name found on both sides gets the side's suffix. *)
Definition rename_overlap (suffix : string) (other : list string) (n : string)
  : string :=
  if bool_decide (n ∈ other) then n +:+ suffix else n.

Fixpoint dup_flags (seen l : list string) : list bool :=
  match l with
  | [] => []
  | x :: l' => bool_decide (x ∈ seen) :: dup_flags (x :: seen) l'
  end.

(** pandas refuses suffixes that create a duplicate column name, among the
    renamed columns of one side or with a column the other side keeps. *)
Definition suffix_clash (orig renamed : list string) : bool :=
  existsb (fun p => fst p && negb (snd p))
          (combine (dup_flags [] renamed) (dup_flags [] orig)).

Definition cross_clash (renamed own other : list string) : bool :=
  existsb (fun n => bool_decide (n ∈ other) && negb (bool_decide (n ∈ own)))
          renamed.

Definition merge_left `{Platform} (L R : DataFrame) (left_on right_on : string)
  : result DataFrame :=
  rk ← getcol right_on R;
  lk ← getcol left_on L;
  if negb (mergeable lk rk) then Err MergeError else
  let idx := join_indexers lk (nrows L) rk (nrows R) in
  let ln := map (rename_overlap "_x" (names R)) (names L) in
  let rn := map (rename_overlap "_y" (names L)) (names R) in
  if suffix_clash (names L) ln || suffix_clash (names R) rn
     || cross_clash ln (names L) (names R) || cross_clash rn (names R) (names L)
  then Err MergeError
  else Ok (mkDF (length idx)
             (map (fun p => (rename_overlap "_x" (names R) (fst p),
                             take_left idx (snd p))) (cols L)
              ++ map (fun p => (rename_overlap "_y" (names L) (fst p),
                                take_right idx (snd p))) (cols R))).

(** ** Files and the loader *)

(** What [pd.read_excel] finds at a path: something that is not a
    workbook, or the sheets of a workbook. *)
Inductive file :=
| Malformed
| Workbook (sheets : list (string * DataFrame)).

Inductive path :=
| DataFile                       (* data/data.xlsx *)
| UploadedFile (name : string).  (* uploaded_files/<name> *)

#[global] Instance path_eq_dec : EqDecision path.
Proof. solve_decision. Defined.

#[global] Instance path_countable : Countable path.
Proof.
  refine (inj_countable'
            (fun p => match p with DataFile => None | UploadedFile n => Some n end)
            (fun o => match o with None => DataFile | Some n => UploadedFile n end)
            _).
  intros []; reflexivity.
Defined.

(** Where a path leads on the disk.  [UPLOAD_DIR / name] is the file of that
    name in the upload directory when the name is a plain file name; a name
    with a separator, or [..], leaves the directory and leads wherever the
    operating system resolves it: to the default workbook (as
    [../data/data.xlsx] does), to a file of the upload directory, or to
    another place. *)
Inductive location :=
| AtData
| AtUpload (name : string)
| AtOther (place : string).

(** The files of one run: the default workbook, the files [os.listdir]
    names in the upload directory, the files elsewhere, and where the
    operating system takes a name that is not a plain file name. *)
Record filesystem := mkFS {
  data_xlsx : option file;
  uploaded_files : gmap string file;
  other_files : gmap string file;
  resolve : string -> location
}.

Fixpoint has_separator (s : string) : bool :=
  match s with
  | EmptyString => false
  | String a s' => Ascii.eqb a "/" || has_separator s'
  end.

Definition plain_name (n : string) : bool :=
  negb (has_separator n) && negb (bool_decide (n ∈ [""; "."; ".."])).

(** A plain name, and any name the directory lists, is the file of that
    name in the directory. *)
Definition locate (fs : filesystem) (p : path) : location :=
  match p with
  | DataFile => AtData
  | UploadedFile n =>
      if plain_name n || bool_decide (is_Some (uploaded_files fs !! n))
      then AtUpload n
      else resolve fs n
  end.

Definition read_at (fs : filesystem) (l : location) : option file :=
  match l with
  | AtData => data_xlsx fs
  | AtUpload n => uploaded_files fs !! n
  | AtOther s => other_files fs !! s
  end.

Definition write_at (fs : filesystem) (l : location) (f : file) : filesystem :=
  match l with
  | AtData => mkFS (Some f) (uploaded_files fs) (other_files fs) (resolve fs)
  | AtUpload n =>
      mkFS (data_xlsx fs) (<[n := f]> (uploaded_files fs)) (other_files fs)
           (resolve fs)
  | AtOther s =>
      mkFS (data_xlsx fs) (uploaded_files fs) (<[s := f]> (other_files fs))
           (resolve fs)
  end.

Definition read_path (fs : filesystem) (p : path) : option file :=
  read_at fs (locate fs p).

(** A disk with nothing outside the two folders of the script. *)
Definition disk (data : option file) (uploads : gmap string file) : filesystem :=
  mkFS data uploads ∅ AtOther.

Definition path_str (p : path) : string :=
  match p with
  | DataFile => "data/data.xlsx"
  | UploadedFile n => "uploaded_files/" +:+ n
  end.

Fixpoint find_sheet (name : string) (sheets : list (string * DataFrame))
  : option DataFrame :=
  match sheets with
  | [] => None
  | (n, df) :: rest => if String.eqb n name then Some df else find_sheet name rest
  end.

Definition read_excel (fs : filesystem) (p : path) (sheet_name : string)
  : result DataFrame :=
  match read_path fs p with
  | None => Err (FileNotFoundError (path_str p))
  | Some Malformed => Err BadZipFile
  | Some (Workbook sheets) =>
      match find_sheet sheet_name sheets with
      | Some df => Ok df
      | None => Err (WorksheetNotFound sheet_name)
      end
  end.

Definition date_columns : list string :=
  ["fecha_entrada_caja"; "fecha_preparación_caja"].

(** The loop over [date_columns]. *)
Fixpoint convert_dates `{Platform} (cs : list string) (df : DataFrame)
  : result DataFrame :=
  match cs with
  | [] => Ok df
  | col :: cs' =>
      c ← getcol col df;
      c' ← to_datetime c;
      convert_dates cs' (setcol col c' df)
  end.

(** The [try] block of [load_excel]. *)
Definition load_excel_try `{Platform} (fs : filesystem) (p : path)
  : result (DataFrame * DataFrame * DataFrame) :=
  entradas_df ← read_excel fs p "Entradas";
  familias_df ← read_excel fs p "Familias";
  entradas_df ← convert_dates date_columns entradas_df;
  merged_df ← merge_left entradas_df familias_df "codigo" "CODIGO";
  Ok (entradas_df, familias_df, merged_df).

(** Streamlit calls that reach the page. *)
Inductive ui :=
| StError (msg : string)
| StInfo (msg : string)
| SidebarInfo (msg : string)
| SidebarWarning (msg : string)
| StDataframe (df : DataFrame).

Definition loaded : Type :=
  option DataFrame * option DataFrame * option DataFrame.

(** [load_excel] without its decorator: the [try] block and the handler of
    [except Exception]. *)
Definition load_excel_body `{Platform} (fs : filesystem) (p : path)
  : loaded * list ui :=
  match load_excel_try fs p with
  | Ok (e, f, m) => ((Some e, Some f, Some m), [])
  | Err e =>
      ((None, None, None),
       [StError ("Error al cargar el archivo Excel: " +:+ str_exn e)])
  end.

(** ** Derived columns: [.dt.strftime('%Y-%m')] and [.dt.year] *)

Definition pad_left (width : nat) (s : string) : string :=
  String.concat "" (repeat "0" (width - String.length s)) +:+ s.

Definition strftime_ym (d : date) : string :=
  pad_left 4 (pretty (d_year d)) +:+ "-" +:+ pad_left 2 (pretty (d_month d)).

(** The [.dt] accessor exists on timestamp columns only. *)
Definition dt_strftime_cell (c : cell) : result cell :=
  match c with
  | Null => Ok Null
  | Date d => Ok (Str (strftime_ym d))
  | _ => Err TypeError
  end.

Definition dt_year_cell (c : cell) : result cell :=
  match c with
  | Null => Ok Null
  | Date d => Ok (Num (Q2Qc (inject_Z (d_year d))))
  | _ => Err TypeError
  end.

(** Lines 112-113: [merged_df['mes']] and [merged_df['año']]. *)
Definition add_month_year (merged_df : DataFrame) : result DataFrame :=
  c ← getcol "fecha_entrada_caja" merged_df;
  mes ← mapM dt_strftime_cell c;
  let merged_df := setcol "mes" mes merged_df in
  c ← getcol "fecha_entrada_caja" merged_df;
  anio ← mapM dt_year_cell c;
  Ok (setcol "año" anio merged_df).

(** ** Grouping *)

(** The order [groupby] sorts its keys in: numbers before text, each kind
    in its own order. *)
Definition date_leb (a b : date) : bool :=
  (d_year a <? d_year b)
  || ((d_year a =? d_year b)
      && ((d_month a <? d_month b)
          || ((d_month a =? d_month b) && (d_day a <=? d_day b)))).

Definition cell_rank (c : cell) : Z :=
  match c with Num _ => 0 | Date _ => 1 | Str _ => 2 | Null => 3 end.

Definition cell_leb (a b : cell) : bool :=
  match a, b with
  | Num p, Num q => Qle_bool (this p) (this q)
  | Date d, Date e => date_leb d e
  | Str s, Str t => String.leb s t
  | _, _ => cell_rank a <=? cell_rank b
  end.

Definition pair_leb (a b : cell * cell) : bool :=
  if decide (fst a = fst b) then cell_leb (snd a) (snd b)
  else cell_leb (fst a) (fst b).

Definition sort_labels (l : list cell) : list cell :=
  merge_sort (fun a b => cell_leb a b) (remove_dups l).

Definition sort_pairs (l : list (cell * cell)) : list (cell * cell) :=
  merge_sort (fun a b => pair_leb a b) (remove_dups l).

(** [groupby] drops a row when one of its keys is missing. *)
Definition group_rows1 (n : nat) (k : list cell) : list nat :=
  filter (fun i => notna (cell_at k i) = true) (seq 0 n).

Definition group_rows (n : nat) (ka kb : list cell) : list nat :=
  filter (fun i => notna (cell_at ka i) && notna (cell_at kb i) = true) (seq 0 n).

Definition group_keys (n : nat) (ka kb : list cell) : list (cell * cell) :=
  map (fun i => (cell_at ka i, cell_at kb i)) (group_rows n ka kb).

(** A table with one row per label of the first key and one column per
    label of the second. *)
Record pivot (A : Type) := mkPivot {
  pv_columns : list cell;
  pv_rows : list (cell * list A)
}.
Arguments mkPivot {A} _ _.
Arguments pv_columns {A} _.
Arguments pv_rows {A} _.

Definition group_size (keys : list (cell * cell)) (r c : cell) : nat :=
  length (filter (fun k => k = (r, c)) keys).

(** [.size().unstack(fill_value=0)]: the count of every observed pair, and
    0 where a row label and a column label never occur together. *)
Definition size_unstack (keys : list (cell * cell)) : pivot nat :=
  let columns := sort_labels (map snd keys) in
  mkPivot columns
    (map (fun r => (r, map (fun c => group_size keys r c) columns))
         (sort_labels (map fst keys))).

(** A binary64 value. *)
Inductive fval :=
| NaN
| Inf
| Fin (q : Q).

Definition sum_nat (l : list nat) : nat := fold_right Nat.add 0%nat l.

Definition true_div `{Platform} (v s : nat) : fval :=
  if (s =? 0)%nat then (if (v =? 0)%nat then NaN else Inf)
  else Fin (fl (inject_Z (Z.of_nat v) / inject_Z (Z.of_nat s))).

(** [pv.div(pv.sum(axis=1), axis=0)]. *)
Definition div_row_sums `{Platform} (pv : pivot nat) : pivot fval :=
  mkPivot (pv_columns pv)
    (map (fun row => (fst row, map (fun v => true_div v (sum_nat (snd row))) (snd row)))
         (pv_rows pv)).

(** [df.groupby([key, 'CALIDAD']).size().unstack(fill_value=0)] divided by
    its row sums: the three proportion charts. *)
Definition quality_proportions `{Platform} (key : string) (df : DataFrame)
  : result (pivot fval) :=
  ka ← getcol key df;
  kb ← getcol "CALIDAD" df;
  Ok (div_row_sums (size_unstack (group_keys (nrows df) ka kb))).

(** The numbers of a group; anything else cannot be averaged. *)
Definition numeric_cell (c : cell) : result (list Qc) :=
  match c with
  | Null => Ok []
  | Num q => Ok [q]
  | _ => Err TypeError
  end.

Definition numeric_values (v : list cell) (rows : list nat) : result (list Qc) :=
  vs ← mapM (fun i => numeric_cell (cell_at v i)) rows; Ok (concat vs).

(** The dtype pandas gives a column: [int64] when every cell is a whole
    number, [float64] when every cell is a number or missing,
    [datetime64] when every cell is a timestamp or missing, and [object]
    otherwise. *)
Inductive dtype :=
| Int64
| Float64
| Datetime64
| Object.

Definition integral (q : Qc) : bool := (Qden (this q) =? 1)%positive.

Definition is_int_cell (c : cell) : bool :=
  match c with Num q => integral q | _ => false end.

Definition is_float_cell (c : cell) : bool :=
  match c with Num _ | Null => true | _ => false end.

Definition is_datetime_cell (c : cell) : bool :=
  match c with Date _ | Null => true | _ => false end.

Definition column_dtype (c : list cell) : dtype :=
  if forallb is_int_cell c then Int64
  else if forallb is_float_cell c then Float64
  else if forallb is_datetime_cell c then Datetime64
  else Object.

(** [int64] addition wraps around. *)
Definition wrap64 (z : Z) : Z := (z + 2 ^ 63) mod 2 ^ 64 - 2 ^ 63.

Definition int64_sum (vs : list Qc) : Z :=
  fold_left (fun acc q => wrap64 (acc + Qnum (this q))) vs 0.

(** One step of the compensated summation of [group_sum] and
    [group_mean]: the running sum and its compensation, every operation
    rounded. *)
Definition kahan_step `{Platform} (s : Q * Q) (val : Q) : Q * Q :=
  let y := fl (val - snd s) in
  let t := fl (fst s + y) in
  (t, fl (fl (t - fst s) - y)).

Definition kahan_sum `{Platform} (vals : list Q) : Q :=
  fst (fold_left kahan_step vals (0%Q, 0%Q)).

(** The binary64 value [mean] works on: a cell of an [int64] column is
    converted first. *)
Definition float_value `{Platform} (dt : dtype) (q : Qc) : Q :=
  match dt with
  | Int64 => fl (this q)
  | _ => this q
  end.

(** The sum of a group, in the arithmetic of the column: [int64] with
    wrap-around, binary64, or Python objects; an empty group sums to 0. *)
Definition group_sum `{Platform} (dt : dtype) (vs : list Qc) : Qc :=
  match dt with
  | Int64 => Q2Qc (inject_Z (int64_sum vs))
  | Object => match vs with [] => Q2Qc 0 | _ => object_sum vs end
  | _ => Q2Qc (kahan_sum (map this vs))
  end.

(** The mean of a numeric column is taken in binary64; it skips missing
    values and is NaN when nothing is left. *)
Definition group_mean `{Platform} (dt : dtype) (vs : list Qc) : fval :=
  match vs with
  | [] => NaN
  | _ =>
      match dt with
      | Object => Fin (object_mean vs)
      | _ => Fin (fl (kahan_sum (map (float_value dt) vs)
                      / inject_Z (Z.of_nat (length vs))))
      end
  end.

(** [df.groupby('mes')['valor'].agg(['mean', 'sum']).reset_index()]. *)
Definition value_by_month `{Platform} (df : DataFrame)
  : result (list (cell * fval * Qc)) :=
  km ← getcol "mes" df;
  v ← getcol "valor" df;
  let rows := group_rows1 (nrows df) km in
  mapM (fun m =>
          vs ← numeric_values v (filter (fun i => cell_at km i = m) rows);
          Ok (m, group_mean (column_dtype v) vs, group_sum (column_dtype v) vs))
       (sort_labels (map (cell_at km) rows)).

(** [df.groupby(['ORIGEN', 'CALIDAD'])['valor'].mean().reset_index()]. *)
Definition avg_value `{Platform} (df : DataFrame)
  : result (list (cell * cell * fval)) :=
  ka ← getcol "ORIGEN" df;
  kb ← getcol "CALIDAD" df;
  v ← getcol "valor" df;
  let rows := group_rows (nrows df) ka kb in
  mapM (fun k =>
          vs ← numeric_values v
                 (filter (fun i => (cell_at ka i, cell_at kb i) = k) rows);
          Ok (fst k, snd k, group_mean (column_dtype v) vs))
       (sort_pairs (group_keys (nrows df) ka kb)).

(** [px.box(df, x='CALIDAD', y='valor')]: plotly draws the distribution
    from the two columns and refuses a column name the frame lacks. *)
Definition box_data (df : DataFrame) : result (list cell * list cell) :=
  match lookup_col "CALIDAD" (cols df), lookup_col "valor" (cols df) with
  | None, _ => Err (PlotValueError "CALIDAD")
  | Some _, None => Err (PlotValueError "valor")
  | Some x, Some y => Ok (x, y)
  end.

(** The six entries of the chart selector. *)
Inductive mode :=
| QualityByMonth            (* Distribución de Calidad por Mes *)
| QualityByOrigin           (* Distribución de Calidad por Origen *)
| ValuesByQuality           (* Distribución de Valores por Calidad *)
| ValueByMonth              (* Valor por Mes *)
| QualityByFamily           (* Distribución de Calidad por Familia *)
| AvgValueByOriginQuality.  (* Valor Promedio por Origen y Calidad *)

Inductive chart :=
| BarProportions (pv : pivot fval)
| BoxPlot (x y : list cell)
| LineAndBars (rows : list (cell * fval * Qc))
| BarMeans (rows : list (cell * cell * fval)).

(** The [if]/[elif] chain on [plot_type]: what each branch computes and
    hands to [st.plotly_chart]. *)
Definition aggregate `{Platform} (merged_df : DataFrame) (plot_type : mode)
  : result chart :=
  match plot_type with
  | QualityByMonth => pv ← quality_proportions "mes" merged_df; Ok (BarProportions pv)
  | QualityByOrigin => pv ← quality_proportions "ORIGEN" merged_df; Ok (BarProportions pv)
  | ValuesByQuality => xy ← box_data merged_df; Ok (BoxPlot (fst xy) (snd xy))
  | ValueByMonth => r ← value_by_month merged_df; Ok (LineAndBars r)
  | QualityByFamily => pv ← quality_proportions "FAMILIA" merged_df; Ok (BarProportions pv)
  | AvgValueByOriginQuality => r ← avg_value merged_df; Ok (BarMeans r)
  end.

(** ** The export: [merged_df.to_csv(index=False)] *)

Definition dquote : ascii := ascii_of_nat 34.

Fixpoint contains_special (s : string) : bool :=
  match s with
  | EmptyString => false
  | String a s' =>
      Ascii.eqb a "," || Ascii.eqb a dquote || Ascii.eqb a (ascii_of_nat 10)
      || Ascii.eqb a (ascii_of_nat 13) || contains_special s'
  end.

Fixpoint double_quotes (s : string) : string :=
  match s with
  | EmptyString => EmptyString
  | String a s' =>
      if Ascii.eqb a dquote then String a (String a (double_quotes s'))
      else String a (double_quotes s')
  end.

(** Minimal quoting, as the [csv] module does it. *)
Definition csv_quote (s : string) : string :=
  if contains_special s
  then String dquote (double_quotes s +:+ String dquote EmptyString)
  else s.

Definition iso_date (d : date) : string :=
  pad_left 4 (pretty (d_year d)) +:+ "-" +:+ pad_left 2 (pretty (d_month d))
  +:+ "-" +:+ pad_left 2 (pretty (d_day d)).

(** A number of a [float64] column is written as a float; elsewhere a
    whole number is written as an integer. *)
Definition csv_number `{Platform} (dt : dtype) (q : Qc) : string :=
  match dt with
  | Float64 => repr_float q
  | _ => if integral q then pretty (Qnum (this q)) else repr_float q
  end.

(** A timestamp of a [datetime64] column whose times are all midnight is
    written as its date; elsewhere with its time. *)
Definition csv_date (dt : dtype) (d : date) : string :=
  match dt with
  | Datetime64 => iso_date d
  | _ => iso_date d +:+ " 00:00:00"
  end.

(** One field: the text of a cell in a column of dtype [dt].  A missing
    value is written as the empty field. *)
Definition csv_field `{Platform} (dt : dtype) (c : cell) : string :=
  match c with
  | Null => ""
  | Str s => csv_quote s
  | Num q => csv_number dt q
  | Date d => csv_date dt d
  end.

(** A record of one empty field is written quoted, so that it is not an
    empty line. *)
Definition csv_line (fields : list string) : string :=
  match fields with
  | [f] => if String.eqb f "" then String dquote (String dquote EmptyString) else f
  | _ => String.concat "," fields
  end.

Definition csv_fields `{Platform} (df : DataFrame) (i : nat) : list string :=
  map (fun p => csv_field (column_dtype (snd p)) (cell_at (snd p) i)) (cols df).

Definition csv_row `{Platform} (df : DataFrame) (i : nat) : string :=
  csv_line (csv_fields df i).

(** The header line, then one line per row of the frame. *)
Definition to_csv `{Platform} (df : DataFrame) : list string :=
  csv_line (map csv_quote (names df)) :: map (csv_row df) (seq 0 (nrows df)).

(** ** The cache: [@st.cache_data] *)

(** One run of the script works on the files on disk and on the cache of
    earlier calls; [can_write] says whether [open(path, "wb")] succeeds. *)
Record state := mkState {
  fs : filesystem;
  can_write : string -> bool;
  cache : gmap path (loaded * list ui)
}.

(** The decorated [load_excel]: the key is the argument, the stored value
    is what the body returned together with the messages it showed, which
    are shown again on a hit. *)
Definition load_excel `{Platform} (p : path) (st : state)
  : (loaded * list ui) * state :=
  match cache st !! p with
  | Some r => (r, st)
  | None =>
      let r := load_excel_body (fs st) p in
      (r, mkState (fs st) (can_write st) (<[p := r]> (cache st)))
  end.

(** ** The script *)

Record upload := mkUpload { up_name : string; up_content : file }.

(** The widget values of one run. *)
Record widgets := mkWidgets {
  uploaded_file : option upload;   (* st.sidebar.file_uploader *)
  selection : option string;       (* the choice kept by the select box *)
  plot_type : mode;                (* st.selectbox of the chart *)
  download_clicked : bool          (* st.button *)
}.

(** Lines 45-53: [open(UPLOAD_DIR / uploaded_file.name, "wb")] writes
    where the joined path leads. *)
Definition save_uploaded_file `{Platform} (u : upload) (st : state)
  : (option path * list ui) * state :=
  let file_path := UploadedFile (up_name u) in
  if can_write st (up_name u)
  then ((Some file_path, []),
        mkState (write_at (fs st) (locate (fs st) file_path) (up_content u))
                (can_write st) (cache st))
  else ((None, [StError ("Error al guardar el archivo: " +:+ str_exn OSError)]), st).

Fixpoint ends_with (suffix s : string) : bool :=
  String.eqb s suffix
  || match s with
     | EmptyString => false
     | String _ s' => ends_with suffix s'
     end.

(** [[f for f in os.listdir(UPLOAD_DIR) if f.endswith('.xlsx')]]. *)
Definition previous_files (st : state) : list string :=
  List.filter (ends_with ".xlsx") (map fst (map_to_list (uploaded_files (fs st)))).

(** A select box returns the kept choice when it is still an option, and
    the first option otherwise. *)
Definition selectbox (options : list string) (kept : option string)
  : option string :=
  match kept with
  | Some f => if bool_decide (f ∈ options) then Some f else head options
  | None => head options
  end.

Definition no_tables : loaded := (None, None, None).

(** The variables [entradas_df, familias_df, merged_df] together with what
    the run has shown so far and the [load_excel] calls made so far: the
    argument and the tables returned, in call order. *)
Record vars := mkVars {
  tables : loaded;
  shown : list ui;
  loads : list (path * loaded)
}.

(** Lines 59-65. *)
Definition default_step `{Platform} (st : state) : vars * state :=
  match data_xlsx (fs st) with
  | Some _ =>
      let '((t, msgs), st') := load_excel DataFile st in
      (mkVars t
         (SidebarInfo "Archivo por defecto encontrado en la carpeta data" :: msgs)
         [(DataFile, t)], st')
  | None =>
      (mkVars no_tables
         [SidebarWarning "No se encontró el archivo por defecto en la carpeta data"]
         [], st)
  end.

(** Lines 71-77. *)
Definition previous_step `{Platform} (w : widgets) (v : vars) (st : state)
  : vars * state :=
  match previous_files st with
  | [] => (v, st)
  | options =>
      match selectbox options (selection w) with
      | Some selected_file =>
          if String.eqb selected_file "" then (v, st)
          else
            let '((t, msgs), st') := load_excel (UploadedFile selected_file) st in
            (mkVars t (shown v ++ msgs)
                    (loads v ++ [(UploadedFile selected_file, t)]), st')
      | None => (v, st)
      end
  end.

(** Lines 82-85. *)
Definition upload_step `{Platform} (w : widgets) (v : vars) (st : state)
  : vars * state :=
  match uploaded_file w with
  | None => (v, st)
  | Some u =>
      let '((file_path, msgs), st') := save_uploaded_file u st in
      match file_path with
      | None => (mkVars (tables v) (shown v ++ msgs) (loads v), st')
      | Some p =>
          let '((t, msgs'), st'') := load_excel p st' in
          (mkVars t (shown v ++ msgs ++ msgs') (loads v ++ [(p, t)]), st'')
      end
  end.

(** Lines 59-85: where the tables of this run come from. *)
Definition resolve_sources `{Platform} (w : widgets) (st : state) : vars * state :=
  let '(v, st) := default_step st in
  let '(v, st) := previous_step w v st in
  upload_step w v st.

(** What a run leaves on the page beyond the messages. *)
Inductive output :=
| Shown (u : ui)
| PlotlyChart (c : chart)
| DownloadButton (csv : list string).

(** The outcome of a run: what reached the page, and the exception that
    ended the run if one left the script. *)
Record run := mkRun {
  page : list output;
  raised : option exn;
  final : state
}.

(** Lines 87-223. *)
Definition analysis `{Platform} (w : widgets) (v : vars) (st : state) : run :=
  let messages := map Shown (shown v) in
  match tables v with
  | (Some entradas_df, Some familias_df, Some merged_df) =>
      let previews :=
        [Shown (StDataframe entradas_df); Shown (StDataframe familias_df);
         Shown (StDataframe merged_df)] in
      match add_month_year merged_df with
      | Err e => mkRun (messages ++ previews) (Some e) st
      | Ok merged_df =>
          match aggregate merged_df (plot_type w) with
          | Err e => mkRun (messages ++ previews) (Some e) st
          | Ok fig =>
              mkRun (messages ++ previews ++ [PlotlyChart fig]
                     ++ (if download_clicked w
                         then [DownloadButton (to_csv merged_df)] else []))
                    None st
          end
      end
  | _ =>
      mkRun (messages
             ++ [Shown (StInfo "Por favor, suba un archivo Excel para comenzar el análisis.")])
            None st
  end.

Definition main `{Platform} (w : widgets) (st : state) : run :=
  let '(v, st) := resolve_sources w st in
  analysis w v st.

(** ** A platform and a workbook to run the definitions on *)

Definition exn_name (e : exn) : string :=
  match e with
  | FileNotFoundError p => "No such file or directory: " +:+ p
  | BadZipFile => "File is not a zip file"
  | WorksheetNotFound s => "Worksheet named " +:+ s +:+ " not found"
  | KeyError k => k
  | DateValueError _ => "time data does not match format"
  | MergeError => "merge refused"
  | TypeError => "unsupported operand"
  | PlotValueError c => "not the name of a column: " +:+ c
  | OSError => "cannot write"
  end.

(** The decimal digits of five scripts: Arabic-Indic, Extended
    Arabic-Indic, Devanagari, Bengali and fullwidth. *)
Definition digit_blocks : list Z := [1632; 1776; 2406; 2534; 65296].

Definition block_digit (x : Z) : option Z :=
  match List.filter (fun b => (b <=? x) && (x <? b + 10)) digit_blocks with
  | b :: _ => Some (x - b)
  | [] => None
  end.

Definition rational_sum (l : list Qc) : Qc := fold_right Qcplus (Q2Qc 0) l.

(** Arithmetic without rounding error, floats written with their fraction
    ([.0] for a whole number), the digits of [digit_blocks], and every pair
    of key columns accepted. *)
Definition exact_platform : Platform.
Proof.
  refine {|
    fl := fun x => x;
    str_exn := exn_name;
    repr_float := fun q =>
      if (Qden (this q) =? 1)%positive then pretty (Qnum (this q)) +:+ ".0"
      else pretty (Qnum (this q)) +:+ "/" +:+ pretty (Zpos (Qden (this q)));
    unicode_decimal := block_digit;
    object_sum := rational_sum;
    object_mean := fun vs =>
      this (rational_sum vs / Q2Qc (inject_Z (Z.of_nat (length vs))))%Qc;
    mergeable := fun _ _ => true
  |}.
  intros x. assert (E : (x - x == 0)%Q) by ring.
  rewrite E. apply Qmult_le_0_compat; [discriminate | apply Qabs_nonneg].
Defined.

Definition qc (z : Z) : Qc := Q2Qc (inject_Z z).

(** The workbook of the specification's scenarios: entries A1 and A2 of
    January 2024, and an entry Z9 that no family row matches. *)
Definition example_entradas : DataFrame :=
  mkDF 3 [("codigo", [Str "A1"; Str "A2"; Str "Z9"]);
          ("fecha_entrada_caja", [Str "01/01/24"; Str "01/01/24"; Str "05/03/24"]);
          ("fecha_preparación_caja", [Str "02/01/24"; Str "02/01/24"; Null]);
          ("valor", [Num (qc 100); Num (qc 200); Num (qc 50)])].

Definition example_familias : DataFrame :=
  mkDF 2 [("CODIGO", [Str "A1"; Str "A2"]);
          ("FAMILIA", [Str "F1"; Str "F2"]);
          ("ORIGEN", [Str "Norte"; Str "Sur"]);
          ("CALIDAD", [Str "Alta"; Str "Baja"])].

Definition example_file : file :=
  Workbook [("Entradas", example_entradas); ("Familias", example_familias)].

Definition example_fs : filesystem := disk (Some example_file) ∅.

Definition example_state : state := mkState example_fs (fun _ => true) ∅.

Definition example_merged : DataFrame :=
  match @load_excel_try exact_platform example_fs DataFile with
  | Ok (_, _, m) => match add_month_year m with Ok m' => m' | Err _ => m end
  | Err _ => mkDF 0 []
  end.

(** The scenario of the wrong date format: the first entry is dated in ISO
    style. *)
Definition iso_entradas : DataFrame :=
  mkDF 2 [("codigo", [Str "A1"; Str "A2"]);
          ("fecha_entrada_caja", [Str "2024-03-05"; Str "01/01/24"]);
          ("fecha_preparación_caja", [Str "02/01/24"; Str "02/01/24"]);
          ("valor", [Num (qc 100); Num (qc 200)])].

Definition iso_file : file :=
  Workbook [("Entradas", iso_entradas); ("Familias", example_familias)].

Definition iso_state : state :=
  mkState (disk (Some iso_file) ∅) (fun _ => true) ∅.

(** A date cell that holds a date written as the format wants it. *)
Definition matches_format `{Platform} (c : cell) : Prop :=
  exists s d, c = Str s /\ strptime s = Some d.

(** A date cell the conversion refuses: text that is neither a date of the
    format nor a missing-value marker, or a number. *)
Definition refused `{Platform} (c : cell) : Prop :=
  match c with
  | Str s => is_nat_string s = false /\ strptime s = None
  | Num _ => True
  | Null | Date _ => False
  end.

(** A workbook whose date cells are not text of the format and still
    convert: entry dates typed as dates in Excel, and preparation dates
    with the marker NaT and an empty cell. *)
Definition lenient_entradas : DataFrame :=
  mkDF 3 [("codigo", [Str "A1"; Str "A2"; Str "Z9"]);
          ("fecha_entrada_caja",
           [Date (mkDate 2024 1 1); Date (mkDate 2024 1 1); Date (mkDate 2024 3 5)]);
          ("fecha_preparación_caja", [Str "02/01/24"; Str "NaT"; Null]);
          ("valor", [Num (qc 100); Num (qc 200); Num (qc 50)])].

Definition lenient_state : state :=
  mkState (disk (Some (Workbook [("Entradas", lenient_entradas);
                                 ("Familias", example_familias)])) ∅)
          (fun _ => true) ∅.

(** A workbook with a number in a date cell. *)
Definition serial_entradas : DataFrame :=
  mkDF 2 [("codigo", [Str "A1"; Str "A2"]);
          ("fecha_entrada_caja", [Num (qc 45356); Str "01/01/24"]);
          ("fecha_preparación_caja", [Str "02/01/24"; Str "02/01/24"]);
          ("valor", [Num (qc 100); Num (qc 200)])].

Definition serial_state : state :=
  mkState (disk (Some (Workbook [("Entradas", serial_entradas);
                                 ("Familias", example_familias)])) ∅)
          (fun _ => true) ∅.

Definition load_error_message `{Platform} (e : exn) : ui :=
  StError ("Error al cargar el archivo Excel: " +:+ str_exn e).

(** The tables the variables hold after a sequence of [load_excel] calls
    when every call assigns them, and when only a call that returned tables
    does. *)
Definition is_loaded (t : loaded) : bool :=
  match t with (Some _, Some _, Some _) => true | _ => false end.

Definition last_attempted (l : list (path * loaded)) : loaded :=
  List.last (map snd l) no_tables.

Definition last_successful (l : list (path * loaded)) : loaded :=
  List.last (List.filter is_loaded (map snd l)) no_tables.

(** A run with a sound default workbook and a broken workbook among the
    files uploaded earlier. *)
Definition broken_state : state :=
  mkState (disk (Some example_file) {[ "roto.xlsx" := Malformed ]})
          (fun _ => true) ∅.

Definition idle_widgets : widgets := mkWidgets None None QualityByMonth false.


(** The chart modes that show proportions, each with its grouping column. *)
Definition proportion_modes : list (mode * string) :=
  [(QualityByMonth, "mes"); (QualityByOrigin, "ORIGEN"); (QualityByFamily, "FAMILIA")].


(** The valor numbers of the rows of month [m], in row order: what the
    specification averages and sums for that month. *)
Definition month_values (n : nat) (km v : list cell) (m : cell) : list Qc :=
  flat_map (fun i => if decide (cell_at km i = m)
                     then match cell_at v i with Num q => [q] | _ => [] end
                     else [])
           (seq 0 n).

(** Rounding leaves a whole number up to 2^53 as it is: binary64 holds
    every one of them. *)
Definition exact_on_integers `{Platform} : Prop :=
  forall (x : Q) (z : Z),
    (x == inject_Z z)%Q -> Z.abs z <= 2 ^ 53 -> (fl x == inject_Z z)%Q.

Definition Zsum (l : list Z) : Z := fold_right Z.add 0 l.

(** The whole numbers a list of values holds, and the values being whole
    numbers whose sizes add up to 2^53 at most: no sum of some of them
    leaves the whole numbers binary64 holds. *)
Definition numerators (vs : list Qc) : list Z := map (fun q => Qnum (this q)) vs.

Definition small_integers (vs : list Qc) : Prop :=
  forallb integral vs = true /\ Zsum (map Z.abs (numerators vs)) <= 2 ^ 53.

(** The columns each branch of the chart selector reads. *)
Definition required_columns (m : mode) : list string :=
  match m with
  | QualityByMonth => ["mes"; "CALIDAD"]
  | QualityByOrigin => ["ORIGEN"; "CALIDAD"]
  | ValuesByQuality => ["CALIDAD"; "valor"]
  | ValueByMonth => ["mes"; "valor"]
  | QualityByFamily => ["FAMILIA"; "CALIDAD"]
  | AvgValueByOriginQuality => ["ORIGEN"; "CALIDAD"; "valor"]
  end.

(** A workbook whose Familias sheet has no CALIDAD column. *)
Definition plain_familias : DataFrame :=
  mkDF 2 [("CODIGO", [Str "A1"; Str "A2"]);
          ("FAMILIA", [Str "F1"; Str "F2"]);
          ("ORIGEN", [Str "Norte"; Str "Sur"])].

Definition plain_state : state :=
  mkState (disk (Some (Workbook [("Entradas", example_entradas);
                                 ("Familias", plain_familias)])) ∅)
          (fun _ => true) ∅.

Definition is_st_error (o : output) : bool :=
  match o with Shown (StError _) => true | _ => false end.

(** The previews a run shows before it comes to the charts. *)
Definition previews (entradas_df familias_df merged_df : DataFrame) : list output :=
  [Shown (StDataframe entradas_df); Shown (StDataframe familias_df);
   Shown (StDataframe merged_df)].

(** The entries of the example once their dates are converted. *)
Definition example_dated : DataFrame :=
  match @convert_dates exact_platform date_columns example_entradas with
  | Ok df => df
  | Err _ => example_entradas
  end.

(** The chart modes that read no numbers of valor, or only plot them. *)
Definition counting_modes : list mode :=
  [QualityByMonth; QualityByOrigin; ValuesByQuality; QualityByFamily].

(** The valor numbers of the rows with the key pair [k], in row order. *)
Definition pair_values (n : nat) (ka kb v : list cell) (k : cell * cell) : list Qc :=
  flat_map (fun i => if decide ((cell_at ka i, cell_at kb i) = k)
                     then match cell_at v i with Num q => [q] | _ => [] end
                     else [])
           (seq 0 n).

(** The months from January 1969 to December 2068, the ones a date read
    with the format can fall in. *)
Definition format_months : list (Z * Z) :=
  flat_map (fun y => map (fun m => (y, m)) (seqZ 1 12)) (seqZ 1969 100).

Definition month_leb (a b : Z * Z) : bool :=
  (fst a <? fst b) || ((fst a =? fst b) && (snd a <=? snd b)).

Definition month_label (a : Z * Z) : string :=
  strftime_ym (mkDate (fst a) (snd a) 1).

(** The order of the month labels against the order of the months, over
    every pair of months of [format_months]. *)
Definition month_order_agrees : bool :=
  let labelled := map (fun a => (a, month_label a)) format_months in
  forallb (fun x =>
             forallb (fun y => Bool.eqb (String.leb (snd x) (snd y))
                                        (month_leb (fst x) (fst y)))
                     labelled)
          labelled.

(** Every entry of the cache is what the body of [load_excel] returned for
    its path on some state of the disk, as in a process that started with
    an empty cache. *)
Definition cache_ok `{Platform} (st : state) : Prop :=
  forall p r, cache st !! p = Some r -> exists fs', r = load_excel_body fs' p.

(** The three variables hold three tables, or none at all. *)
Definition all_or_nothing (t : loaded) : Prop :=
  t = no_tables \/ exists e f m, t = (Some e, Some f, Some m).

(** * Properties *)

(** ** The definitions at work *)

Example strptime_two_digits `{Platform} :
  strptime "05/03/24" = Some (mkDate 2024 3 5).
Proof. reflexivity. Qed.

Example strptime_one_digit `{Platform} :
  strptime "5/3/24" = Some (mkDate 2024 3 5).
Proof. reflexivity. Qed.

Example strptime_iso `{Platform} : strptime "2024-03-05" = None.
Proof. reflexivity. Qed.

Example strptime_no_such_day `{Platform} : strptime "30/02/24" = None.
Proof. reflexivity. Qed.

Example strptime_last_century `{Platform} :
  strptime "31/12/99" = Some (mkDate 1999 12 31).
Proof. reflexivity. Qed.

(** [\d] takes the digits of every script, [[0-9]] those of ASCII only:
    an Arabic-Indic five is read after a 1 of the day and in the year, and
    not in the month. *)
Example strptime_other_digits :
  @strptime exact_platform "1٥/03/2٤" = Some (mkDate 2024 3 15)
  /\ @strptime exact_platform "15/0٣/24" = None
  /\ @strptime exact_platform "0٥/03/24" = None.
Proof. repeat split; reflexivity. Qed.

Example quality_by_month_example :
  @aggregate exact_platform example_merged QualityByMonth
  = Ok (BarProportions
          (mkPivot [Str "Alta"; Str "Baja"]
                   [(Str "2024-01", [Fin (1 # 2); Fin (1 # 2)])])).
Proof. reflexivity. Qed.

Example export_example :
  @to_csv exact_platform example_merged
  = ["codigo,fecha_entrada_caja,fecha_preparación_caja,valor,CODIGO,FAMILIA,ORIGEN,CALIDAD,mes,año";
     "A1,2024-01-01,2024-01-02,100,A1,F1,Norte,Alta,2024-01,2024";
     "A2,2024-01-01,2024-01-02,200,A2,F2,Sur,Baja,2024-01,2024";
     "Z9,2024-03-05,,50,,,,,2024-03,2024"].
Proof. reflexivity. Qed.

(** The same number is written by the dtype of its column: a year column
    with a missing value is a float column. *)
Example export_by_dtype :
  @to_csv exact_platform
     (mkDF 2 [("valor", [Num (qc 2024); Num (qc 7)]);
              ("año", [Num (qc 2024); Null])])
  = ["valor,año"; "2024,2024.0"; "7,"].
Proof. reflexivity. Qed.

(** [sum] on an [int64] column wraps around. *)
Example int64_sum_wraps :
  int64_sum [qc (2 ^ 62); qc (2 ^ 62)] = - 2 ^ 63.
Proof. reflexivity. Qed.

(** ** Columns *)

Lemma lookup_col_map_fresh (f : string -> string) (g : list cell -> list cell)
    (cs : list (string * list cell)) (n : string) :
  (forall m, m ∈ map fst cs -> f m = m) ->
  lookup_col n (map (fun p => (f (fst p), g (snd p))) cs)
  = g <$> lookup_col n cs.
Proof.
  induction cs as [|[m c] cs IH]; intros Hf; simpl; [done|].
  rewrite (Hf m) by (simpl; left). destruct (String.eqb m n); [done|].
  apply IH. intros k Hk. apply Hf. simpl. by right.
Qed.

Lemma lookup_col_app (n : string) (xs ys : list (string * list cell)) :
  lookup_col n (xs ++ ys)
  = match lookup_col n xs with Some c => Some c | None => lookup_col n ys end.
Proof.
  induction xs as [|[m c] xs IH]; simpl; [done|].
  by destruct (String.eqb m n).
Qed.

Lemma lookup_col_Some_name (n : string) (cs : list (string * list cell)) c :
  lookup_col n cs = Some c -> n ∈ map fst cs.
Proof.
  induction cs as [|[m c'] cs IH]; simpl; [done|].
  destruct (String.eqb m n) eqn:E.
  - apply String.eqb_eq in E as ->. intros _. left.
  - intros Hc. right. by apply IH.
Qed.

Lemma lookup_col_None_name (n : string) (cs : list (string * list cell)) :
  n ∉ map fst cs -> lookup_col n cs = None.
Proof.
  induction cs as [|[m c'] cs IH]; simpl; [done|].
  intros Hn. destruct (String.eqb m n) eqn:E.
  - apply String.eqb_eq in E as ->. exfalso. apply Hn. left.
  - apply IH. intros Hin. apply Hn. by right.
Qed.

Lemma dup_flags_same (seen l : list string) :
  existsb (fun p => fst p && negb (snd p))
          (combine (dup_flags seen l) (dup_flags seen l)) = false.
Proof.
  revert seen. induction l as [|x l IH]; intros seen; simpl; [done|].
  rewrite IH. by destruct (bool_decide (x ∈ seen)).
Qed.

Lemma cross_clash_own (own other : list string) : cross_clash own own other = false.
Proof.
  unfold cross_clash. apply not_true_is_false. intros Hex.
  apply existsb_exists in Hex as (n & Hn%list_elem_of_In & Hc).
  apply andb_true_iff in Hc as [_ Hc]. by rewrite bool_decide_eq_true_2 in Hc.
Qed.

Lemma rename_overlap_fresh (suffix : string) (other l : list string) :
  (forall n, n ∈ l -> n ∉ other) -> map (rename_overlap suffix other) l = l.
Proof.
  induction l as [|x l IH]; intros Hd; simpl; [done|].
  unfold rename_overlap at 1. rewrite bool_decide_eq_false_2.
  - f_equal. apply IH. intros n Hn. apply Hd. by right.
  - apply Hd. left.
Qed.

(** ** The join indexers *)

Lemma lookup_take_left (idx : list (nat * option nat)) (c : list cell) p i oj :
  idx !! p = Some (i, oj) -> cell_at (take_left idx c) p = cell_at c i.
Proof.
  intros Hp. unfold cell_at at 1, take_left.
  rewrite (nth_lookup_Some _ _ _ (cell_at c i)); [done|].
  by rewrite list_lookup_fmap, Hp.
Qed.

Lemma lookup_take_right (idx : list (nat * option nat)) (c : list cell) p i oj :
  idx !! p = Some (i, oj) ->
  cell_at (take_right idx c) p
  = match oj with Some j => cell_at c j | None => Null end.
Proof.
  intros Hp. unfold cell_at at 1, take_right.
  erewrite nth_lookup_Some; [done|].
  by rewrite list_lookup_fmap, Hp.
Qed.

Lemma expand_left_fst rk nR k i p : p ∈ expand_left rk nR k i -> fst p = i.
Proof.
  unfold expand_left. destruct (key_matches rk nR k) as [|j js].
  - intros ->%list_elem_of_singleton. done.
  - intros (j' & -> & _)%list_elem_of_fmap. done.
Qed.

Lemma expand_left_length rk nR k i :
  length (expand_left rk nR k i) = Nat.max 1 (length (key_matches rk nR k)).
Proof.
  unfold expand_left. destruct (key_matches rk nR k) as [|j js]; [done|].
  rewrite length_map. simpl. lia.
Qed.

Lemma filter_flat_map_row (f : nat -> list (nat * option nat))
    (P : nat * option nat -> Prop) `{!forall p, Decision (P p)} (l : list nat) i :
  (forall i' p, p ∈ f i' -> P p -> i' = i) ->
  NoDup l ->
  filter P (flat_map f l) = if decide (i ∈ l) then filter P (f i) else [].
Proof.
  intros Hf. induction l as [|x l IH]; intros Hnd.
  - case_decide as Hi; [by apply elem_of_nil in Hi | done].
  - apply NoDup_cons in Hnd as [Hx Hnd]. cbn [flat_map].
    rewrite filter_app, (IH Hnd).
    destruct (decide (x = i)) as [->|Hne].
    + rewrite (decide_True (P := i ∈ i :: l)) by left.
      rewrite (decide_False (P := i ∈ l)) by done.
      by rewrite app_nil_r.
    + assert (E : filter P (f x) = []).
      { destruct (filter P (f x)) as [|p ps] eqn:Ef; [done|].
        assert (Hp : p ∈ filter P (f x)) by (rewrite Ef; left).
        apply list_elem_of_filter in Hp as [HP Hp].
        by destruct Hne; eapply Hf. }
      rewrite E. cbn [app].
      destruct (decide (i ∈ l)) as [Hi|Hi].
      * rewrite decide_True; [done | by right].
      * rewrite decide_False; [done|].
        intros [?|?]%elem_of_cons; congruence.
Qed.

Lemma elem_of_key_matches rk nR k j :
  j ∈ key_matches rk nR k <-> (j < nR)%nat /\ cell_at rk j = k.
Proof.
  unfold key_matches. rewrite list_elem_of_filter, elem_of_seq. intuition lia.
Qed.

Lemma NoDup_key_matches rk nR k : NoDup (key_matches rk nR k).
Proof. apply NoDup_filter, NoDup_seq. Qed.

Lemma key_matches_nil rk nR k :
  key_matches rk nR k = [] <-> forall j, (j < nR)%nat -> cell_at rk j ≠ k.
Proof.
  split.
  - intros E j Hj Hk.
    assert (Hin : j ∈ key_matches rk nR k) by by apply elem_of_key_matches.
    rewrite E in Hin. by apply elem_of_nil in Hin.
  - intros Hno. destruct (key_matches rk nR k) as [|j js] eqn:E; [done|].
    assert (Hin : j ∈ key_matches rk nR k) by (rewrite E; left).
    apply elem_of_key_matches in Hin as [Hj Hk]. by destruct (Hno j Hj).
Qed.

Lemma elem_of_expand_left rk nR k i i' oj :
  (i', oj) ∈ expand_left rk nR k i <->
  i' = i /\ match oj with
            | Some j => j ∈ key_matches rk nR k
            | None => key_matches rk nR k = []
            end.
Proof.
  unfold expand_left. destruct (key_matches rk nR k) as [|j js] eqn:E.
  - rewrite list_elem_of_singleton. split.
    + intros [= -> ->]. done.
    + intros [-> Hoj]. destruct oj; [by apply elem_of_nil in Hoj | done].
  - rewrite list_elem_of_fmap. split.
    + intros (j' & [= -> ->] & Hj'). done.
    + intros [-> Hoj]. destruct oj as [j'|]; [eauto | done].
Qed.

Lemma elem_of_join_indexers lk nL rk nR i oj :
  (i, oj) ∈ join_indexers lk nL rk nR <->
  (i < nL)%nat /\ match oj with
                  | Some j => (j < nR)%nat /\ cell_at rk j = cell_at lk i
                  | None => forall j, (j < nR)%nat -> cell_at rk j ≠ cell_at lk i
                  end.
Proof.
  unfold join_indexers. rewrite list_elem_of_In, in_flat_map. split.
  - intros (i' & Hi' & Hp). apply list_elem_of_In in Hi', Hp.
    apply elem_of_expand_left in Hp as [-> Hoj]. apply elem_of_seq in Hi'.
    split; [lia|]. destruct oj.
    + by apply elem_of_key_matches.
    + by apply key_matches_nil.
  - intros [Hi Hoj]. exists i. split.
    + apply list_elem_of_In, elem_of_seq. lia.
    + apply list_elem_of_In, elem_of_expand_left. split; [done|]. destruct oj.
      * by apply elem_of_key_matches.
      * by apply key_matches_nil.
Qed.

Lemma filter_all {A} (P : A -> Prop) `{!forall x, Decision (P x)} (l : list A) :
  (forall x, x ∈ l -> P x) -> filter P l = l.
Proof.
  induction l as [|x l IH]; intros Hall; [done|].
  rewrite filter_cons_True by (apply Hall; left).
  f_equal. apply IH. intros y Hy. apply Hall. by right.
Qed.

Lemma filter_none {A} (P : A -> Prop) `{!forall x, Decision (P x)} (l : list A) :
  (forall x, x ∈ l -> ~ P x) -> filter P l = [].
Proof.
  induction l as [|x l IH]; intros Hall; [done|].
  rewrite filter_cons_False by (apply Hall; left).
  apply IH. intros y Hy. apply Hall. by right.
Qed.

Lemma filter_eq_NoDup {A} `{EqDecision A} (l : list A) (x : A) :
  NoDup l -> x ∈ l -> filter (fun y => y = x) l = [x].
Proof.
  induction l as [|y l IH]; intros Hnd Hx; [by apply elem_of_nil in Hx|].
  apply NoDup_cons in Hnd as [Hy Hnd].
  destruct (decide (y = x)) as [->|Hne].
  - rewrite filter_cons_True by done. f_equal.
    apply filter_none. intros z Hz ->. done.
  - rewrite filter_cons_False by done. apply IH; [done|].
    apply elem_of_cons in Hx as [->|Hx]; done.
Qed.

Lemma join_indexers_rows lk nL rk nR i :
  (i < nL)%nat ->
  length (filter (fun p => fst p = i) (join_indexers lk nL rk nR))
  = Nat.max 1 (length (key_matches rk nR (cell_at lk i))).
Proof.
  intros Hi. unfold join_indexers.
  rewrite (filter_flat_map_row _ _ _ i).
  - rewrite decide_True by (apply elem_of_seq; lia).
    rewrite <- (expand_left_length rk nR (cell_at lk i) i). f_equal.
    apply filter_all. intros p Hp. by eapply expand_left_fst.
  - intros i' p Hp <-. symmetry. by eapply expand_left_fst.
  - apply NoDup_seq.
Qed.

Lemma join_indexers_fan_out lk nL rk nR i j :
  (i < nL)%nat -> (j < nR)%nat -> cell_at rk j = cell_at lk i ->
  filter (fun p => p = (i, Some j)) (join_indexers lk nL rk nR) = [(i, Some j)].
Proof.
  intros Hi Hj Hk. unfold join_indexers.
  rewrite (filter_flat_map_row _ _ _ i).
  - rewrite decide_True by (apply elem_of_seq; lia).
    assert (Hin : j ∈ key_matches rk nR (cell_at lk i))
      by by apply elem_of_key_matches.
    unfold expand_left.
    destruct (key_matches rk nR (cell_at lk i)) as [|j0 js] eqn:E;
      [by apply elem_of_nil in Hin|].
    apply filter_eq_NoDup.
    + apply (NoDup_fmap_2 _). rewrite <- E. apply NoDup_key_matches.
    + apply list_elem_of_fmap. eauto.
  - intros i' p Hp ->. by apply expand_left_fst in Hp.
  - apply NoDup_seq.
Qed.

Lemma getcol_Ok name df c : getcol name df = Ok c <-> lookup_col name (cols df) = Some c.
Proof.
  unfold getcol. destruct (lookup_col name (cols df)); split; congruence.
Qed.

Lemma merge_left_disjoint `{Platform} (L R : DataFrame) (left_on right_on : string)
    (lk rk : list cell) :
  getcol left_on L = Ok lk ->
  getcol right_on R = Ok rk ->
  mergeable lk rk = true ->
  (forall n, n ∈ names L -> n ∉ names R) ->
  merge_left L R left_on right_on
  = Ok (mkDF (length (join_indexers lk (nrows L) rk (nrows R)))
          (map (fun p => (fst p, take_left (join_indexers lk (nrows L) rk (nrows R)) (snd p)))
               (cols L)
           ++ map (fun p => (fst p, take_right (join_indexers lk (nrows L) rk (nrows R)) (snd p)))
                  (cols R))).
Proof.
  intros HL HR Hm Hd. unfold merge_left. rewrite HR, HL.
  unfold mbind, result_bind. rewrite Hm. cbn [negb].
  assert (Hd' : forall n, n ∈ names R -> n ∉ names L) by (intros n Hn Hn'; by eapply Hd).
  rewrite !rename_overlap_fresh by done. unfold suffix_clash.
  rewrite !dup_flags_same, !cross_clash_own. cbn [orb].
  do 3 f_equal.
  - apply map_ext_in. intros [n c] Hin%list_elem_of_In. cbn.
    unfold rename_overlap. rewrite bool_decide_eq_false_2; [done|].
    apply Hd. apply list_elem_of_fmap. by exists (n, c).
  - apply map_ext_in. intros [n c] Hin%list_elem_of_In. cbn.
    unfold rename_overlap. rewrite bool_decide_eq_false_2; [done|].
    apply Hd'. apply list_elem_of_fmap. by exists (n, c).
Qed.

(** C1. The join of the loader is a left outer join of Entradas to Familias
    on codigo = CODIGO.  When both key columns exist, pandas accepts their
    dtypes and the two sheets share no column name, the merge returns a
    frame whose rows are the pairs of [idx]: every column of Entradas holds
    at joined row [p] the cell of its source row, every column of Familias
    (FAMILIA, ORIGEN, CALIDAD among them) holds the cell of the matched
    Familias row or a missing value when there is none.  Every entry row
    gives as many joined rows as it has matching CODIGO rows and one when
    it has none, so exactly one when it matches at most one; each matching
    CODIGO row, duplicate keys included, gives a joined row of its own; and
    no other row is in the join. *)
Theorem merge_is_left_outer_join `{Platform} (L R : DataFrame) (lk rk : list cell) :
  getcol "codigo" L = Ok lk ->
  getcol "CODIGO" R = Ok rk ->
  mergeable lk rk = true ->
  (forall n, n ∈ names L -> n ∉ names R) ->
  exists (J : DataFrame) (idx : list (nat * option nat)),
    merge_left L R "codigo" "CODIGO" = Ok J
    /\ nrows J = length idx
    /\ (forall n c, lookup_col n (cols L) = Some c ->
        exists c', lookup_col n (cols J) = Some c'
          /\ forall p i oj, idx !! p = Some (i, oj) -> cell_at c' p = cell_at c i)
    /\ (forall n c, lookup_col n (cols R) = Some c ->
        exists c', lookup_col n (cols J) = Some c'
          /\ forall p i oj, idx !! p = Some (i, oj) ->
             cell_at c' p = match oj with Some j => cell_at c j | None => Null end)
    /\ (forall i oj, (i, oj) ∈ idx <->
          (i < nrows L)%nat
          /\ match oj with
             | Some j => (j < nrows R)%nat /\ cell_at rk j = cell_at lk i
             | None => forall j, (j < nrows R)%nat -> cell_at rk j ≠ cell_at lk i
             end)
    /\ (forall i, (i < nrows L)%nat ->
          length (filter (fun p => fst p = i) idx)
          = Nat.max 1 (length (filter (fun j => cell_at rk j = cell_at lk i)
                                      (seq 0 (nrows R)))))
    /\ (forall i j, (i < nrows L)%nat -> (j < nrows R)%nat ->
          cell_at rk j = cell_at lk i ->
          filter (fun p => p = (i, Some j)) idx = [(i, Some j)]).
Proof.
  intros HL HR Hm Hd.
  eexists _, (join_indexers lk (nrows L) rk (nrows R)).
  split; [by apply merge_left_disjoint|]. split; [done|]. cbn [cols].
  split; [|split; [|split; [|split]]].
  - intros n c Hc. exists (take_left (join_indexers lk (nrows L) rk (nrows R)) c).
    split.
    + rewrite lookup_col_app.
      rewrite (lookup_col_map_fresh (fun m => m)) by done. by rewrite Hc.
    + intros p i oj Hp. by eapply lookup_take_left.
  - intros n c Hc. exists (take_right (join_indexers lk (nrows L) rk (nrows R)) c).
    split.
    + rewrite lookup_col_app.
      rewrite (lookup_col_map_fresh (fun m => m)) by done.
      rewrite lookup_col_None_name.
      * cbn. rewrite (lookup_col_map_fresh (fun m => m)) by done. by rewrite Hc.
      * intros Hn. eapply Hd; [exact Hn|]. by eapply lookup_col_Some_name.
    + intros p i oj Hp. by eapply lookup_take_right.
  - intros i oj. apply elem_of_join_indexers.
  - intros i Hi. by apply join_indexers_rows.
  - intros i j Hi Hj Hk. by apply join_indexers_fan_out.
Qed.

(** Two concrete lists of column names have no name in common. *)
Ltac disjoint_names :=
  let n := fresh "n" in
  let Hn := fresh "Hn" in
  let Hx := fresh "Hx" in
  intros n Hn Hx; revert Hx; vm_compute in Hn;
  repeat (apply elem_of_cons in Hn as [->|Hn];
          [vm_compute; intros Hx;
           repeat (apply elem_of_cons in Hx as [Hx|Hx]; [discriminate|]);
           by apply elem_of_nil in Hx|]);
  by apply elem_of_nil in Hn.

Lemma merge_is_left_outer_join_witness :
  exists (J : DataFrame) (idx : list (nat * option nat)),
    @merge_left exact_platform example_entradas example_familias "codigo" "CODIGO" = Ok J
    /\ nrows J = length idx
    /\ (2%nat, @None nat) ∈ idx.
Proof.
  destruct (@merge_is_left_outer_join exact_platform example_entradas example_familias
              [Str "A1"; Str "A2"; Str "Z9"] [Str "A1"; Str "A2"])
    as (J & idx & HJ & Hn & _ & _ & Hidx & _).
  - reflexivity.
  - reflexivity.
  - reflexivity.
  - disjoint_names.
  - exists J, idx. split; [done|]. split; [done|].
    apply Hidx. split; [cbn; lia|].
    intros j Hj. cbn in Hj.
    destruct j as [|[|j]]; [cbn; discriminate | cbn; discriminate | lia].
Defined.

(** ** The loader *)

Lemma lookup_assign_col_ne (n m : string) (v : list cell) cs :
  n ≠ m -> lookup_col n (assign_col m v cs) = lookup_col n cs.
Proof.
  intros Hne. induction cs as [|[k c] cs IH]; simpl.
  - destruct (String.eqb m n) eqn:E; [|done].
    apply String.eqb_eq in E. congruence.
  - destruct (String.eqb k m) eqn:Ekm; simpl.
    + apply String.eqb_eq in Ekm as ->.
      destruct (String.eqb m n) eqn:E; [|done].
      apply String.eqb_eq in E. congruence.
    + by destruct (String.eqb k n).
Qed.

Lemma lookup_assign_col_eq (m : string) (v : list cell) cs :
  lookup_col m (assign_col m v cs) = Some v.
Proof.
  induction cs as [|[k c] cs IH]; simpl.
  - by rewrite String.eqb_refl.
  - destruct (String.eqb k m) eqn:Ekm; simpl; by rewrite ?Ekm.
Qed.

Lemma mapM_Err {A B} (f : A -> result B) (l : list A) x e :
  x ∈ l -> f x = Err e -> exists e', mapM f l = Err e'.
Proof.
  induction l as [|y l IH]; intros Hx Hf; [by apply elem_of_nil in Hx|].
  cbn. destruct (f y) as [b|e0] eqn:Ey; cbn; [|eauto].
  apply elem_of_cons in Hx as [->|Hx]; [congruence|].
  destruct (IH Hx Hf) as [e' ->]. cbn. eauto.
Qed.

Lemma mapM_length {A B} (f : A -> result B) (l : list A) l' :
  mapM f l = Ok l' -> length l' = length l.
Proof.
  revert l'. induction l as [|y l IH]; intros l'; cbn.
  - by intros [= <-].
  - destruct (f y); cbn; [|done]. destruct (mapM f l); cbn; [|done].
    intros [= <-]. cbn. f_equal. by apply IH.
Qed.

Lemma mapM_lookup {A B} (f : A -> result B) (l : list A) l' i x :
  mapM f l = Ok l' -> l !! i = Some x -> exists y, l' !! i = Some y /\ f x = Ok y.
Proof.
  revert l' i. induction l as [|y l IH]; intros l' i; cbn; [done|].
  destruct (f y) as [b|] eqn:Ey; cbn; [|done].
  destruct (mapM f l) as [bs|]; cbn; [|done].
  intros [= <-]. destruct i as [|i]; cbn.
  - intros [= <-]. eauto.
  - by apply IH.
Qed.

Lemma refused_raises `{Platform} (x : cell) :
  refused x -> to_datetime_cell x = Err (DateValueError x).
Proof.
  destruct x as [|s|q|d]; cbn; [done| |done|done].
  intros [Hn Hp]. by rewrite Hn, Hp.
Qed.

(** A cell the conversion refuses stops the conversion of its column. *)
Lemma to_datetime_refused `{Platform} (c : list cell) (x : cell) :
  x ∈ c -> refused x -> exists e, to_datetime c = Err e.
Proof.
  intros Hin Hx. eapply mapM_Err; [exact Hin|]. by apply refused_raises.
Qed.

Lemma convert_dates_lookup_other `{Platform} cs df df' n :
  convert_dates cs df = Ok df' -> n ∉ cs ->
  lookup_col n (cols df') = lookup_col n (cols df).
Proof.
  revert df. induction cs as [|col cs IH]; intros df; cbn.
  - by intros [= <-].
  - destruct (getcol col df); cbn; [|done].
    destruct (to_datetime a); cbn; [|done].
    intros Hc Hn. rewrite (IH _ Hc) by (intros ?; apply Hn; by right).
    cbn. apply lookup_assign_col_ne. intros ->. apply Hn. left.
Qed.

Lemma convert_dates_missing `{Platform} cs df col :
  col ∈ cs -> lookup_col col (cols df) = None ->
  exists e, convert_dates cs df = Err e.
Proof.
  revert df. induction cs as [|x cs IH]; intros df Hin Hc;
    [by apply elem_of_nil in Hin|].
  cbn. destruct (getcol x df) as [cx|] eqn:Ex; cbn; [|eauto].
  destruct (to_datetime cx) as [cx'|]; cbn; [|eauto].
  apply elem_of_cons in Hin as [->|Hin].
  - apply getcol_Ok in Ex. congruence.
  - destruct (decide (col = x)) as [->|Hne].
    + apply getcol_Ok in Ex. congruence.
    + apply IH; [done|]. cbn. by rewrite lookup_assign_col_ne.
Qed.

Lemma convert_dates_refused `{Platform} cs df col c x :
  col ∈ cs -> lookup_col col (cols df) = Some c ->
  x ∈ c -> refused x ->
  exists e, convert_dates cs df = Err e.
Proof.
  intros Hin Hc Hx Hr. revert df Hin Hc.
  induction cs as [|y cs IH]; intros df Hin Hc; [by apply elem_of_nil in Hin|].
  cbn. destruct (getcol y df) as [cy|] eqn:Ey; cbn; [|eauto].
  destruct (to_datetime cy) as [cy'|] eqn:Et; cbn; [|eauto].
  destruct (decide (col = y)) as [->|Hne].
  - apply getcol_Ok in Ey. assert (cy = c) as -> by congruence.
    destruct (to_datetime_refused c x Hx Hr). congruence.
  - apply IH.
    + apply elem_of_cons in Hin as [?|?]; done.
    + cbn. by rewrite lookup_assign_col_ne.
Qed.

#[local] Arguments merge_left : simpl never.
#[local] Arguments getcol : simpl never.
#[local] Arguments convert_dates : simpl never.
#[local] Arguments to_datetime : simpl never.

(** What the four kinds of failure are on a file.  A date that cannot be
    parsed is a cell of a date column that the conversion refuses: text
    that is not a date of the format, or a number. *)
Inductive load_failure `{Platform} (fs : filesystem) (p : path) : Prop :=
| no_such_file :
    read_path fs p = None -> load_failure fs p
| malformed_file :
    read_path fs p = Some Malformed -> load_failure fs p
| missing_sheet sheets name :
    read_path fs p = Some (Workbook sheets) ->
    name ∈ ["Entradas"; "Familias"] ->
    find_sheet name sheets = None -> load_failure fs p
| missing_entry_column sheets E col :
    read_path fs p = Some (Workbook sheets) ->
    find_sheet "Entradas" sheets = Some E ->
    col ∈ "codigo" :: date_columns ->
    lookup_col col (cols E) = None -> load_failure fs p
| missing_family_column sheets F :
    read_path fs p = Some (Workbook sheets) ->
    find_sheet "Familias" sheets = Some F ->
    lookup_col "CODIGO" (cols F) = None -> load_failure fs p
| unparseable_date sheets E col c x :
    read_path fs p = Some (Workbook sheets) ->
    find_sheet "Entradas" sheets = Some E ->
    col ∈ date_columns ->
    lookup_col col (cols E) = Some c ->
    x ∈ c -> refused x ->
    load_failure fs p.

Lemma load_failure_raises `{Platform} fs p :
  load_failure fs p -> exists e, load_excel_try fs p = Err e.
Proof.
  intros Hf. unfold load_excel_try, read_excel.
  destruct Hf as [Hr|Hr|sheets name Hr Hn Hs|sheets E col Hr HE Hcol Hc
                  |sheets F Hr HF Hc|sheets E col c x Hr HE Hcol Hc Hx Hrf];
    rewrite Hr; cbn; eauto.
  - destruct (find_sheet "Entradas" sheets) eqn:HE; cbn; [|eauto].
    destruct (find_sheet "Familias" sheets) eqn:HF; cbn; [|eauto].
    repeat (apply elem_of_cons in Hn as [->|Hn]; [congruence|]).
    by apply elem_of_nil in Hn.
  - rewrite HE. cbn.
    destruct (find_sheet "Familias" sheets) eqn:HF; cbn; [|eauto].
    destruct (convert_dates date_columns E) as [E'|] eqn:Ec; cbn; [|eauto].
    apply elem_of_cons in Hcol as [->|Hcol].
    + assert (Hk : getcol "codigo" E' = Err (KeyError "codigo")).
      { unfold getcol. rewrite (convert_dates_lookup_other _ _ _ _ Ec), Hc; [done|].
        unfold date_columns. intros Hin.
        repeat (apply elem_of_cons in Hin as [Hin|Hin]; [discriminate|]).
        by apply elem_of_nil in Hin. }
      unfold merge_left. rewrite Hk.
      destruct (getcol "CODIGO" d); cbn; eauto.
    + destruct (convert_dates_missing date_columns E col Hcol Hc). congruence.
  - destruct (find_sheet "Entradas" sheets) eqn:HE; cbn; [|eauto].
    rewrite HF. cbn.
    destruct (convert_dates date_columns d) as [E'|] eqn:Ec; cbn; [|eauto].
    assert (Hk : getcol "CODIGO" F = Err (KeyError "CODIGO"))
      by (unfold getcol; by rewrite Hc).
    unfold merge_left. rewrite Hk. cbn. eauto.
  - rewrite HE. cbn.
    destruct (find_sheet "Familias" sheets) eqn:HF; cbn; [|eauto].
    destruct (convert_dates_refused date_columns E col c x Hcol Hc Hx Hrf) as [e ->].
    cbn. eauto.
Qed.

Lemma load_excel_body_Err `{Platform} fs p e :
  load_excel_try fs p = Err e ->
  load_excel_body fs p
  = (no_tables, [StError ("Error al cargar el archivo Excel: " +:+ str_exn e)]).
Proof. intros E. unfold load_excel_body. by rewrite E. Qed.

Lemma load_excel_miss `{Platform} (st : state) (p : path) :
  cache st !! p = None -> fst (load_excel p st) = load_excel_body (fs st) p.
Proof. intros Hc. unfold load_excel. by rewrite Hc. Qed.

(** C3, amended.  The two date columns are read with the one format
    day/month/two-digit year: 05/03/24 is 5 March 2024 and 2024-03-05 is
    refused.  When a cell of a date column of Entradas is refused by the
    conversion, being text that is not a date of that format (and not one
    of the markers pandas reads as a missing value) or a number, a load
    that is not answered from the cache fails as a whole: no table is
    returned and the error is shown.  No second format is tried: the
    refused cell is the exception. *)
Theorem dates_are_day_month_year `{Platform} (st : state) (p : path)
    (sheets : list (string * DataFrame)) (E : DataFrame) (col : string)
    (c : list cell) (x : cell) :
  read_path (fs st) p = Some (Workbook sheets) ->
  find_sheet "Entradas" sheets = Some E ->
  col ∈ date_columns ->
  lookup_col col (cols E) = Some c ->
  x ∈ c ->
  refused x ->
  cache st !! p = None ->
  to_datetime_cell (Str "05/03/24") = Ok (Date (mkDate 2024 3 5))
  /\ to_datetime_cell (Str "2024-03-05") = Err (DateValueError (Str "2024-03-05"))
  /\ (forall q, refused (Num q))
  /\ to_datetime_cell x = Err (DateValueError x)
  /\ exists e, load_excel_try (fs st) p = Err e
       /\ fst (load_excel p st) = (no_tables, [load_error_message e]).
Proof.
  intros Hr HE Hcol Hc Hx Hrf Hmiss.
  split; [done|]. split; [done|]. split; [done|]. split.
  - by apply refused_raises.
  - destruct (load_failure_raises (fs st) p) as [e He].
    + by eapply unparseable_date.
    + exists e. split; [done|].
      rewrite load_excel_miss by done. by apply load_excel_body_Err.
Qed.

Lemma dates_are_day_month_year_witness :
  (exists e, @load_excel_try exact_platform (fs iso_state) DataFile = Err e
     /\ fst (@load_excel exact_platform DataFile iso_state)
        = (no_tables, [@load_error_message exact_platform e]))
  /\ (exists e, @load_excel_try exact_platform (fs serial_state) DataFile = Err e
        /\ fst (@load_excel exact_platform DataFile serial_state)
           = (no_tables, [@load_error_message exact_platform e])).
Proof.
  split.
  - apply (@dates_are_day_month_year exact_platform iso_state DataFile
             [("Entradas", iso_entradas); ("Familias", example_familias)]
             iso_entradas "fecha_entrada_caja"
             [Str "2024-03-05"; Str "01/01/24"] (Str "2024-03-05")).
    + reflexivity.
    + reflexivity.
    + left.
    + reflexivity.
    + left.
    + split; reflexivity.
    + reflexivity.
  - apply (@dates_are_day_month_year exact_platform serial_state DataFile
             [("Entradas", serial_entradas); ("Familias", example_familias)]
             serial_entradas "fecha_entrada_caja"
             [Num (qc 45356); Str "01/01/24"] (Num (qc 45356))).
    + reflexivity.
    + reflexivity.
    + left.
    + reflexivity.
    + left.
    + exact I.
    + reflexivity.
Defined.

(** C3 as stated fails: a date cell that does not hold a date of the
    format does not always fail the load.  The third entry of the example
    workbook has an empty preparation date; in the second workbook the
    preparation dates hold the marker NaT and an empty cell, and the entry
    dates are cells typed as dates, not text.  None of these cells matches
    the format, and both loads return their three tables. *)
Lemma empty_date_cell_loads :
  (read_path example_fs DataFile = Some example_file
   /\ find_sheet "Entradas" [("Entradas", example_entradas); ("Familias", example_familias)]
      = Some example_entradas
   /\ lookup_col "fecha_preparación_caja" (cols example_entradas)
      = Some [Str "02/01/24"; Str "02/01/24"; Null]
   /\ ~ @matches_format exact_platform Null
   /\ exists e f m,
        @load_excel exact_platform DataFile example_state
        = ((Some e, Some f, Some m), [],
           mkState example_fs (can_write example_state)
                   (<[DataFile := ((Some e, Some f, Some m), [])]> ∅)))
  /\ (lookup_col "fecha_preparación_caja" (cols lenient_entradas)
      = Some [Str "02/01/24"; Str "NaT"; Null]
      /\ ~ @matches_format exact_platform (Str "NaT")
      /\ lookup_col "fecha_entrada_caja" (cols lenient_entradas)
         = Some [Date (mkDate 2024 1 1); Date (mkDate 2024 1 1); Date (mkDate 2024 3 5)]
      /\ ~ @matches_format exact_platform (Date (mkDate 2024 1 1))
      /\ exists e f m,
           fst (@load_excel exact_platform DataFile lenient_state)
           = ((Some e, Some f, Some m), [])).
Proof.
  split.
  - split; [done|]. split; [done|]. split; [done|]. split.
    + intros (s & d & Hs & _). discriminate.
    + unfold load_excel, example_state. cbn [cache fs can_write].
      rewrite lookup_empty.
      destruct (@load_excel_body exact_platform example_fs DataFile)
        as [[[e f] m] msgs] eqn:Eb.
      vm_compute in Eb. injection Eb as <- <- <- <-.
      eexists _, _, _. reflexivity.
  - split; [done|]. split.
    { intros (s & d & [= <-] & Hs). vm_compute in Hs. discriminate. }
    split; [done|]. split.
    { intros (s & d & Hs & _). discriminate. }
    unfold load_excel, lenient_state. cbn [cache fs can_write].
    rewrite lookup_empty. cbn [fst].
    destruct (@load_excel_body exact_platform
                (disk (Some (Workbook [("Entradas", lenient_entradas);
                                       ("Familias", example_familias)])) ∅) DataFile)
      as [[[e f] m] msgs] eqn:Eb.
    vm_compute in Eb. injection Eb as <- <- <- <-.
    eexists _, _, _. reflexivity.
Qed.

(** C4.  Whatever makes the loading fail, a missing file or sheet, a
    malformed file, a missing column, a date that cannot be parsed or any
    other exception of the [try] block, the failure stays inside the
    loader: the call returns, its three tables are None, and the one thing
    shown is the error message built from the exception. *)
Theorem load_failure_is_no_data `{Platform} (st : state) (p : path) :
  load_failure (fs st) p \/ (exists e, load_excel_try (fs st) p = Err e) ->
  cache st !! p = None ->
  exists e,
    load_excel_try (fs st) p = Err e
    /\ load_excel_body (fs st) p = ((None, None, None), [load_error_message e])
    /\ load_excel p st
       = (((None, None, None), [load_error_message e]),
          mkState (fs st) (can_write st)
                  (<[p := ((None, None, None), [load_error_message e])]> (cache st))).
Proof.
  intros Hf Hmiss.
  assert (He : exists e, load_excel_try (fs st) p = Err e).
  { destruct Hf as [Hf|He]; [by apply load_failure_raises | done]. }
  destruct He as [e He]. exists e. split; [done|].
  assert (Hb := load_excel_body_Err (fs st) p e He).
  split; [done|]. unfold load_excel. by rewrite Hmiss, Hb.
Qed.

Lemma load_failure_is_no_data_witness :
  exists e,
    @load_excel_try exact_platform
       (disk (Some Malformed) ∅) DataFile = Err e
    /\ @load_excel_body exact_platform (disk (Some Malformed) ∅) DataFile
       = ((None, None, None), [@load_error_message exact_platform e]).
Proof.
  destruct (@load_failure_is_no_data exact_platform
              (mkState (disk (Some Malformed) ∅) (fun _ => true) ∅) DataFile)
    as (e & He & Hb & _).
  - left. apply malformed_file. reflexivity.
  - reflexivity.
  - exists e. split; [exact He | exact Hb].
Defined.

(** ** The cache *)

Lemma load_excel_fs `{Platform} p st : fs (snd (load_excel p st)) = fs st.
Proof. unfold load_excel. by destruct (cache st !! p). Qed.

Lemma load_excel_can_write `{Platform} p st :
  can_write (snd (load_excel p st)) = can_write st.
Proof. unfold load_excel. by destruct (cache st !! p). Qed.

Lemma load_excel_cached `{Platform} p st :
  cache (snd (load_excel p st)) !! p = Some (fst (load_excel p st)).
Proof.
  unfold load_excel. destruct (cache st !! p) eqn:E; cbn; [done|].
  apply lookup_insert_eq.
Qed.

(** C9.  A second call of the loader with the same path is answered from
    the cache: in any later state that still holds the entry of the first
    call, whatever the files on disk have become, the call returns the
    tables and messages of the first call and leaves the state as it is, so
    nothing is parsed again. *)
Theorem load_excel_twice `{Platform} (p : path) (st st' : state) :
  cache st' !! p = cache (snd (load_excel p st)) !! p ->
  load_excel p st' = (fst (load_excel p st), st').
Proof.
  intros Hc. rewrite load_excel_cached in Hc.
  unfold load_excel at 1. by rewrite Hc.
Qed.

Lemma load_excel_twice_witness :
  let st1 := snd (@load_excel exact_platform DataFile example_state) in
  let st' := mkState (disk (Some Malformed) ∅) (fun _ => false) (cache st1) in
  @load_excel exact_platform DataFile st'
  = (fst (@load_excel exact_platform DataFile example_state), st').
Proof.
  intros st1 st'.
  apply (@load_excel_twice exact_platform DataFile example_state st').
  reflexivity.
Defined.

(** ** Where the tables come from *)

Lemma ends_with_xlsx_nonempty s : ends_with ".xlsx" s = true -> s ≠ "".
Proof. intros Hs ->. discriminate. Qed.

Lemma selectbox_elem options kept f :
  selectbox options kept = Some f -> f ∈ options.
Proof.
  unfold selectbox. destruct kept as [k|].
  - case_bool_decide as Hk; [by intros [= <-]|].
    destruct options; cbn; [done|]. intros [= <-]. left.
  - destruct options; cbn; [done|]. intros [= <-]. left.
Qed.

Lemma previous_files_xlsx st f : f ∈ previous_files st -> f ≠ "".
Proof.
  unfold previous_files. rewrite list_elem_of_In, filter_In.
  intros [_ Hf]. by apply ends_with_xlsx_nonempty.
Qed.

Lemma last_attempted_snoc l p t : last_attempted (l ++ [(p, t)]) = t.
Proof. unfold last_attempted. rewrite map_app. cbn. apply last_last. Qed.

Lemma default_step_spec `{Platform} st :
  tables (fst (default_step st)) = last_attempted (loads (fst (default_step st)))
  /\ map fst (loads (fst (default_step st)))
     = match data_xlsx (fs st) with Some _ => [DataFile] | None => [] end
  /\ fs (snd (default_step st)) = fs st
  /\ can_write (snd (default_step st)) = can_write st.
Proof.
  unfold default_step. destruct (data_xlsx (fs st)); [|done].
  pose proof (load_excel_fs DataFile st) as Hfs.
  pose proof (load_excel_can_write DataFile st) as Hcw.
  destruct (load_excel DataFile st) as [[t msgs] st']. done.
Qed.

Lemma previous_step_spec `{Platform} w v st :
  tables v = last_attempted (loads v) ->
  tables (fst (previous_step w v st))
  = last_attempted (loads (fst (previous_step w v st)))
  /\ map fst (loads (fst (previous_step w v st)))
     = map fst (loads v)
       ++ match selectbox (previous_files st) (selection w) with
          | Some f => [UploadedFile f]
          | None => []
          end
  /\ fs (snd (previous_step w v st)) = fs st
  /\ can_write (snd (previous_step w v st)) = can_write st.
Proof.
  intros Hv. unfold previous_step.
  destruct (previous_files st) as [|f0 fs0] eqn:Ep.
  - assert (selectbox [] (selection w) = None) as ->.
    { unfold selectbox. destruct (selection w); [|done].
      case_bool_decide as Hk; [by apply elem_of_nil in Hk | done]. }
    by rewrite app_nil_r.
  - destruct (selectbox (f0 :: fs0) (selection w)) as [f|] eqn:Es.
    + assert (Hf : f ≠ "").
      { apply (previous_files_xlsx st). rewrite Ep. by eapply selectbox_elem. }
      apply String.eqb_neq in Hf. rewrite Hf.
      pose proof (load_excel_fs (UploadedFile f) st) as Hfs.
      pose proof (load_excel_can_write (UploadedFile f) st) as Hcw.
      destruct (load_excel (UploadedFile f) st) as [[t msgs] st'].
      cbn [fst snd tables loads] in *.
      rewrite last_attempted_snoc, map_app. done.
    + by rewrite app_nil_r.
Qed.

Lemma read_at_write (fs : filesystem) (l : location) (f : file) :
  read_at (write_at fs l f) l = Some f.
Proof. destruct l; cbn; [done | apply lookup_insert_eq | apply lookup_insert_eq]. Qed.

Lemma read_at_keep (fs : filesystem) (l l' : location) (f : file) :
  is_Some (read_at fs l') -> is_Some (read_at (write_at fs l f) l').
Proof.
  destruct l as [|n|s], l' as [|n'|s']; cbn; eauto;
    intros Hs; apply lookup_insert_is_Some'; by right.
Qed.

Lemma uploaded_files_keep (fs : filesystem) (l : location) (f : file) (n : string) :
  is_Some (uploaded_files fs !! n) ->
  is_Some (uploaded_files (write_at fs l f) !! n).
Proof. apply (read_at_keep fs l (AtUpload n)). Qed.

Lemma uploaded_files_write_inv (fs : filesystem) (l : location) (f : file)
    (n : string) :
  is_Some (uploaded_files (write_at fs l f) !! n) ->
  l = AtUpload n \/ is_Some (uploaded_files fs !! n).
Proof.
  destruct l as [|n'|s]; cbn; eauto.
  destruct (decide (n' = n)) as [->|Hne]; [by left|].
  rewrite lookup_insert_ne by done. eauto.
Qed.

Lemma resolve_write (fs : filesystem) (l : location) (f : file) :
  resolve (write_at fs l f) = resolve fs.
Proof. by destruct l. Qed.

Lemma locate_plain (fs : filesystem) (n : string) :
  plain_name n = true -> locate fs (UploadedFile n) = AtUpload n.
Proof. intros Hn. cbn. by rewrite Hn. Qed.

(** Writing where a path leads does not change where it leads. *)
Lemma locate_write (fs : filesystem) (p : path) (f : file) :
  locate (write_at fs (locate fs p) f) p = locate fs p.
Proof.
  destruct p as [|n]; [done|]. cbn [locate].
  destruct (plain_name n); [done|]. cbn [orb].
  destruct (decide (is_Some (uploaded_files fs !! n))) as [Hold|Hold].
  - rewrite (bool_decide_eq_true_2 _ Hold).
    rewrite bool_decide_eq_true_2; [done|]. by apply uploaded_files_keep.
  - rewrite (bool_decide_eq_false_2 _ Hold). case_bool_decide as Hnew.
    + apply uploaded_files_write_inv in Hnew as [->|Hnew]; done.
    + by rewrite resolve_write.
Qed.

Lemma read_path_write (fs : filesystem) (p : path) (f : file) :
  read_path (write_at fs (locate fs p) f) p = Some f.
Proof. unfold read_path. rewrite locate_write. apply read_at_write. Qed.

(** A write removes no file. *)
Lemma read_path_keep (fs : filesystem) (l : location) (f : file) (q : path) :
  is_Some (read_path fs q) -> is_Some (read_path (write_at fs l f) q).
Proof.
  unfold read_path. destruct q as [|n]; [apply read_at_keep|]. cbn [locate].
  destruct (plain_name n); cbn [orb]; [apply read_at_keep|].
  destruct (decide (is_Some (uploaded_files fs !! n))) as [Hold|Hold].
  - rewrite (bool_decide_eq_true_2 _ Hold). intros _.
    rewrite bool_decide_eq_true_2 by by apply uploaded_files_keep.
    cbn. by apply uploaded_files_keep.
  - rewrite (bool_decide_eq_false_2 _ Hold). case_bool_decide as Hnew.
    + intros _. done.
    + rewrite resolve_write. apply read_at_keep.
Qed.

Lemma upload_step_spec `{Platform} w v st :
  tables v = last_attempted (loads v) ->
  tables (fst (upload_step w v st))
  = last_attempted (loads (fst (upload_step w v st)))
  /\ map fst (loads (fst (upload_step w v st)))
     = map fst (loads v)
       ++ match uploaded_file w with
          | Some u => if can_write st (up_name u)
                      then [UploadedFile (up_name u)] else []
          | None => []
          end
  /\ match uploaded_file w with
     | Some u => if can_write st (up_name u)
                 then read_path (fs (snd (upload_step w v st)))
                                (UploadedFile (up_name u))
                      = Some (up_content u)
                 else True
     | None => True
     end.
Proof.
  intros Hv. unfold upload_step. destruct (uploaded_file w) as [u|].
  - unfold save_uploaded_file. destruct (can_write st (up_name u)).
    + match goal with |- context [load_excel ?p ?s] =>
        pose proof (load_excel_fs p s) as Hfs;
        destruct (load_excel p s) as [[t msgs] st'] end.
      cbn [fst snd tables loads fs] in *.
      rewrite last_attempted_snoc, map_app, Hfs.
      split; [done|]. split; [done|]. apply read_path_write.
    + cbn. by rewrite app_nil_r.
  - by rewrite app_nil_r.
Qed.

(** The calls of [load_excel] each step makes: the path, the state the call
    is made in, and what the call returned. *)
Lemma default_step_calls `{Platform} st :
  loads (fst (default_step st))
  = match data_xlsx (fs st) with
    | Some _ => [(DataFile, fst (fst (load_excel DataFile st)))]
    | None => []
    end
  /\ snd (default_step st)
     = match data_xlsx (fs st) with
       | Some _ => snd (load_excel DataFile st)
       | None => st
       end.
Proof.
  unfold default_step. destruct (data_xlsx (fs st)); [|done].
  by destruct (load_excel DataFile st) as [[t msgs] st'].
Qed.

Lemma previous_step_calls `{Platform} w v st :
  loads (fst (previous_step w v st))
  = loads v
    ++ match selectbox (previous_files st) (selection w) with
       | Some f => [(UploadedFile f, fst (fst (load_excel (UploadedFile f) st)))]
       | None => []
       end
  /\ snd (previous_step w v st)
     = match selectbox (previous_files st) (selection w) with
       | Some f => snd (load_excel (UploadedFile f) st)
       | None => st
       end.
Proof.
  unfold previous_step.
  destruct (previous_files st) as [|f0 fs0] eqn:Ep.
  - assert (selectbox [] (selection w) = None) as ->.
    { unfold selectbox. destruct (selection w); [|done].
      case_bool_decide as Hk; [by apply elem_of_nil in Hk | done]. }
    by rewrite app_nil_r.
  - destruct (selectbox (f0 :: fs0) (selection w)) as [f|] eqn:Es.
    + assert (Hf : f ≠ "").
      { apply (previous_files_xlsx st). rewrite Ep. by eapply selectbox_elem. }
      apply String.eqb_neq in Hf. rewrite Hf.
      by destruct (load_excel (UploadedFile f) st) as [[t msgs] st'].
    + by rewrite app_nil_r.
Qed.

Lemma upload_step_calls `{Platform} w v st :
  loads (fst (upload_step w v st))
  = loads v
    ++ match uploaded_file w with
       | Some u =>
           if can_write st (up_name u)
           then [(UploadedFile (up_name u),
                  fst (fst (load_excel (UploadedFile (up_name u))
                              (snd (save_uploaded_file u st)))))]
           else []
       | None => []
       end
  /\ snd (upload_step w v st)
     = match uploaded_file w with
       | Some u =>
           if can_write st (up_name u)
           then snd (load_excel (UploadedFile (up_name u))
                       (snd (save_uploaded_file u st)))
           else st
       | None => st
       end.
Proof.
  unfold upload_step. destruct (uploaded_file w) as [u|]; [|by rewrite app_nil_r].
  unfold save_uploaded_file. destruct (can_write st (up_name u)); cbn [snd].
  - by match goal with |- context [load_excel ?p ?s] =>
      destruct (load_excel p s) as [[t msgs] st'] end.
  - cbn. by rewrite app_nil_r.
Qed.

Lemma save_uploaded_file_state `{Platform} u st :
  can_write st (up_name u) = true ->
  snd (save_uploaded_file u st)
  = mkState (write_at (fs st) (locate (fs st) (UploadedFile (up_name u)))
                      (up_content u))
            (can_write st) (cache st).
Proof. intros Hw. unfold save_uploaded_file. by rewrite Hw. Qed.

Lemma main_analysis `{Platform} (w : widgets) (st : state) :
  main w st = analysis w (fst (resolve_sources w st)) (snd (resolve_sources w st)).
Proof. unfold main. by destruct (resolve_sources w st). Qed.

(** C10, amended.  The sources are tried in a fixed order: the default file
    when it exists, then the file the select box gives among the files
    uploaded earlier when there is one, then the file uploaded in this run,
    which is first written where its path leads.  [called] is one call of
    the loader: the path with the tables [load_excel] returned for it in
    the state the call was made in, and the state the call left.  The calls
    of a run are these three, each made in the state the one before left;
    every one of them assigns the three variables, so the tables of the run
    are those the last call returned: None when that call failed, whatever
    an earlier call returned. *)
Theorem sources_last_attempt `{Platform} (w : widgets) (st : state) :
  let called (c : option path) (s : state) : list (path * loaded) * state :=
    match c with
    | Some p => ([(p, fst (fst (load_excel p s)))], snd (load_excel p s))
    | None => ([], s)
    end in
  let c0 :=
    called (match data_xlsx (fs st) with Some _ => Some DataFile | None => None end)
           st in
  let c1 :=
    called (UploadedFile <$> selectbox (previous_files st) (selection w)) (snd c0) in
  let saved (u : upload) : state :=
    mkState (write_at (fs (snd c1)) (locate (fs (snd c1)) (UploadedFile (up_name u)))
                      (up_content u))
            (can_write (snd c1)) (cache (snd c1)) in
  let c2 :=
    match uploaded_file w with
    | Some u =>
        if can_write st (up_name u)
        then called (Some (UploadedFile (up_name u))) (saved u)
        else ([], snd c1)
    | None => ([], snd c1)
    end in
  loads (fst (resolve_sources w st)) = fst c0 ++ fst c1 ++ fst c2
  /\ snd (resolve_sources w st) = snd c2
  /\ tables (fst (resolve_sources w st)) = last_attempted (fst c0 ++ fst c1 ++ fst c2)
  /\ (forall u e,
        uploaded_file w = Some u ->
        can_write st (up_name u) = true ->
        cache (saved u) !! UploadedFile (up_name u) = None ->
        load_excel_try (fs (saved u)) (UploadedFile (up_name u)) = Err e ->
        tables (fst (resolve_sources w st)) = no_tables)
  /\ (forall f e,
        match uploaded_file w with
        | Some u => can_write st (up_name u) = false
        | None => True
        end ->
        selectbox (previous_files st) (selection w) = Some f ->
        cache (snd c0) !! UploadedFile f = None ->
        load_excel_try (fs st) (UploadedFile f) = Err e ->
        tables (fst (resolve_sources w st)) = no_tables)
  /\ tables (fst (resolve_sources w st))
     = last_attempted (loads (fst (resolve_sources w st)))
  /\ map fst (loads (fst (resolve_sources w st)))
     = match data_xlsx (fs st) with Some _ => [DataFile] | None => [] end
       ++ match selectbox (previous_files st) (selection w) with
          | Some f => [UploadedFile f]
          | None => []
          end
       ++ match uploaded_file w with
          | Some u => if can_write st (up_name u)
                      then [UploadedFile (up_name u)] else []
          | None => []
          end
  /\ match uploaded_file w with
     | Some u => if can_write st (up_name u)
                 then read_path (fs (snd (resolve_sources w st)))
                                (UploadedFile (up_name u))
                      = Some (up_content u)
                 else True
     | None => True
     end
  /\ main w st = analysis w (fst (resolve_sources w st)) (snd (resolve_sources w st)).
Proof.
  intros called c0 c1 saved c2.
  assert (Hcalls : loads (fst (resolve_sources w st)) = fst c0 ++ fst c1 ++ fst c2
                   /\ snd (resolve_sources w st) = snd c2
                   /\ fs (snd c0) = fs st).
  { unfold resolve_sources.
    destruct (default_step_spec st) as (H0 & _ & F0 & W0).
    destruct (default_step_calls st) as [L0 S0].
    destruct (default_step st) as [v0 st0]. cbn [fst snd] in *.
    destruct (previous_step_spec w v0 st0 H0) as (_ & _ & F1 & W1).
    destruct (previous_step_calls w v0 st0) as [L1 S1].
    destruct (previous_step w v0 st0) as [v1 st1]. cbn [fst snd] in *.
    destruct (upload_step_calls w v1 st1) as [L2 S2].
    destruct (upload_step w v1 st1) as [v2 st2]. cbn [fst snd] in *.
    assert (E0 : st0 = snd c0).
    { rewrite S0. unfold c0, called. by destruct (data_xlsx (fs st)). }
    assert (Ep : previous_files st0 = previous_files st).
    { unfold previous_files. by rewrite F0. }
    rewrite Ep in L1, S1.
    assert (E1 : st1 = snd c1).
    { rewrite S1. unfold c1, called. rewrite <- E0.
      by destruct (selectbox (previous_files st) (selection w)). }
    rewrite W1, W0 in L2, S2.
    split; [|split].
    - rewrite L2, L1, L0, <- app_assoc. f_equal.
      { unfold c0, called. by destruct (data_xlsx (fs st)). }
      f_equal.
      { unfold c1, called. rewrite <- E0.
        by destruct (selectbox (previous_files st) (selection w)). }
      unfold c2. destruct (uploaded_file w) as [u|]; [|done].
      destruct (can_write st (up_name u)) eqn:Hw; [|done].
      rewrite save_uploaded_file_state by by rewrite W1, W0.
      unfold called, saved. cbn [fst]. by rewrite E1.
    - rewrite S2. unfold c2. destruct (uploaded_file w) as [u|]; [|done].
      destruct (can_write st (up_name u)) eqn:Hw; [|done].
      rewrite save_uploaded_file_state by by rewrite W1, W0.
      unfold called, saved. cbn [snd]. by rewrite E1.
    - by rewrite <- E0. }
  destruct Hcalls as (Hloads & Hstate & Hfs0).
  assert (Hspec : tables (fst (resolve_sources w st))
                  = last_attempted (loads (fst (resolve_sources w st)))
                  /\ map fst (loads (fst (resolve_sources w st)))
                     = match data_xlsx (fs st) with Some _ => [DataFile] | None => [] end
                       ++ match selectbox (previous_files st) (selection w) with
                          | Some f => [UploadedFile f]
                          | None => []
                          end
                       ++ match uploaded_file w with
                          | Some u => if can_write st (up_name u)
                                      then [UploadedFile (up_name u)] else []
                          | None => []
                          end
                  /\ match uploaded_file w with
                     | Some u => if can_write st (up_name u)
                                 then read_path (fs (snd (resolve_sources w st)))
                                                (UploadedFile (up_name u))
                                      = Some (up_content u)
                                 else True
                     | None => True
                     end).
  { unfold resolve_sources.
    destruct (default_step_spec st) as (H0 & L0 & F0 & W0).
    destruct (default_step st) as [v0 st0]. cbn [fst snd] in *.
    destruct (previous_step_spec w v0 st0 H0) as (H1 & L1 & F1 & W1).
    destruct (previous_step w v0 st0) as [v1 st1]. cbn [fst snd] in *.
    destruct (upload_step_spec w v1 st1 H1) as (H2 & L2 & S2).
    destruct (upload_step w v1 st1) as [v2 st2]. cbn [fst snd] in *.
    split; [done|]. split.
    - rewrite L2, L1, L0, W1, W0. unfold previous_files. rewrite F0.
      by rewrite <- app_assoc.
    - by rewrite W1, W0 in S2. }
  destruct Hspec as (Hlast & Hpaths & Hsaved).
  assert (Htables : tables (fst (resolve_sources w st))
                    = last_attempted (fst c0 ++ fst c1 ++ fst c2))
    by by rewrite Hlast, Hloads.
  split; [done|]. split; [done|]. split; [done|]. split; [|split].
  - intros u e Hu Hw Hmiss He. rewrite Htables. unfold c2. rewrite Hu, Hw.
    unfold called. cbn [fst]. rewrite !app_assoc, last_attempted_snoc.
    rewrite load_excel_miss by done. by rewrite (load_excel_body_Err _ _ e).
  - intros f e Hu Hf Hmiss He. rewrite Htables.
    assert (fst c2 = []) as ->.
    { unfold c2. destruct (uploaded_file w) as [u|]; [|done]. by rewrite Hu. }
    unfold c1. rewrite Hf.
    cbn [fmap option_fmap option_map called fst]. rewrite app_nil_r.
    rewrite last_attempted_snoc, load_excel_miss by done.
    rewrite Hfs0. by rewrite (load_excel_body_Err _ _ e).
  - split; [done|]. split; [done|]. split; [done|]. apply main_analysis.
Qed.

Lemma sources_last_attempt_witness :
  tables (fst (@resolve_sources exact_platform idle_widgets broken_state)) = no_tables.
Proof.
  destruct (@sources_last_attempt exact_platform idle_widgets broken_state)
    as (_ & _ & _ & _ & Hfail & _).
  apply (Hfail "roto.xlsx" BadZipFile); [exact I | reflexivity ..].
Defined.

(** C10 as stated fails: with a sound default workbook and a broken
    workbook among the earlier uploads, the default is loaded, the broken
    file is loaded after it and fails, and the run is left without tables
    although the last successful load returned some. *)
Lemma failed_load_discards_default :
  let v := fst (@resolve_sources exact_platform idle_widgets broken_state) in
  map fst (loads v) = [DataFile; UploadedFile "roto.xlsx"]
  /\ is_loaded (fst (fst (@load_excel exact_platform DataFile broken_state))) = true
  /\ tables v = no_tables
  /\ is_loaded (last_successful (loads v)) = true
  /\ tables v <> last_successful (loads v).
Proof.
  vm_compute. repeat split; discriminate.
Qed.

(** ** Rounding *)





Lemma true_div_pos `{Platform} (v s : nat) :
  (0 < s)%nat ->
  true_div v s = Fin (fl (inject_Z (Z.of_nat v) / inject_Z (Z.of_nat s))).
Proof.
  intros Hs. unfold true_div. destruct (Nat.eqb_spec s 0); [lia | done].
Qed.


(** ** Group sizes *)

Lemma elem_of_sort_labels (l : list cell) x : x ∈ sort_labels l <-> x ∈ l.
Proof.
  unfold sort_labels. rewrite merge_sort_Permutation. apply elem_of_remove_dups.
Qed.

Lemma NoDup_sort_labels (l : list cell) : NoDup (sort_labels l).
Proof.
  unfold sort_labels. rewrite merge_sort_Permutation. apply NoDup_remove_dups.
Qed.

Lemma sum_nat_add {A} (f g : A -> nat) (l : list A) :
  sum_nat (map (fun c => f c + g c)%nat l)
  = (sum_nat (map f l) + sum_nat (map g l))%nat.
Proof. unfold sum_nat. induction l as [|x l IH]; cbn in *; lia. Qed.

Lemma sum_nat_zero {A} (f : A -> nat) (l : list A) :
  (forall x, x ∈ l -> f x = 0%nat) -> sum_nat (map f l) = 0%nat.
Proof.
  unfold sum_nat. induction l as [|x l IH]; intros Hf; cbn; [done|].
  rewrite (Hf x) by left. apply IH. intros y Hy. apply Hf. by right.
Qed.

Lemma sum_indicator (k : cell * cell) (r : cell) (columns : list cell) :
  NoDup columns -> snd k ∈ columns ->
  sum_nat (map (fun c => if decide (k = (r, c)) then 1 else 0)%nat columns)
  = if decide (fst k = r) then 1%nat else 0%nat.
Proof.
  destruct k as [a b]. cbn [fst snd].
  induction columns as [|c columns IH]; intros Hnd Hb;
    [by apply elem_of_nil in Hb|].
  apply NoDup_cons in Hnd as [Hc Hnd]. cbn [map sum_nat fold_right].
  fold (sum_nat (map (fun c => if decide ((a, b) = (r, c)) then 1 else 0)%nat columns)).
  destruct (decide (b = c)) as [->|Hbc].
  - rewrite sum_nat_zero.
    + destruct (decide (a = r)) as [->|Har].
      * by rewrite decide_True.
      * rewrite decide_False; [done | congruence].
    + intros x Hx. rewrite decide_False; [done|]. intros [= -> ->]. done.
  - rewrite (decide_False (P := (a, b) = (r, c))) by congruence.
    apply IH; [done|]. apply elem_of_cons in Hb as [?|?]; done.
Qed.

Lemma group_size_cons (k : cell * cell) keys r c :
  group_size (k :: keys) r c
  = ((if decide (k = (r, c)) then 1 else 0) + group_size keys r c)%nat.
Proof.
  unfold group_size. rewrite filter_cons. by destruct (decide (k = (r, c))).
Qed.

(** The counts of a pivot row add up to the number of grouped rows that
    carry its label. *)
Lemma sum_group_sizes (keys : list (cell * cell)) (r : cell) (columns : list cell) :
  NoDup columns -> (forall k, k ∈ keys -> snd k ∈ columns) ->
  sum_nat (map (group_size keys r) columns)
  = length (filter (fun k => fst k = r) keys).
Proof.
  intros Hnd. induction keys as [|k keys IH]; intros Hin.
  - apply sum_nat_zero. done.
  - rewrite (map_ext _ _ (group_size_cons k keys r)), sum_nat_add.
    rewrite sum_indicator by (done || apply Hin; left).
    rewrite IH by (intros k' Hk'; apply Hin; by right).
    rewrite filter_cons. by destruct (decide (fst k = r)).
Qed.

Lemma elem_of_group_keys n ka kb a b :
  (a, b) ∈ group_keys n ka kb <->
  exists i, (i < n)%nat /\ cell_at ka i = a /\ cell_at kb i = b
            /\ a ≠ Null /\ b ≠ Null.
Proof.
  unfold group_keys, group_rows. rewrite list_elem_of_fmap.
  setoid_rewrite list_elem_of_filter. setoid_rewrite elem_of_seq.
  split.
  - intros (i & [= -> ->] & Hna & Hi). exists i.
    apply andb_true_iff in Hna as [Ha Hb].
    repeat split; [lia| |]; intros E; rewrite E in *; discriminate.
  - intros (i & Hi & <- & <- & Ha & Hb). exists i. split; [done|].
    split; [|lia]. apply andb_true_iff.
    split; [destruct (cell_at ka i) | destruct (cell_at kb i)]; done.
Qed.

(** The rows of a proportion table: one per label that some grouped row
    carries, its values the counts over the positive number of those
    rows. *)
Lemma pivot_row_spec `{Platform} (keys : list (cell * cell)) r vals :
  (r, vals) ∈ pv_rows (div_row_sums (size_unstack keys)) ->
  r ∈ map fst keys
  /\ (0 < sum_nat (map (group_size keys r) (sort_labels (map snd keys))))%nat
  /\ vals = map (fun v => true_div v
                   (sum_nat (map (group_size keys r) (sort_labels (map snd keys)))))
                (map (group_size keys r) (sort_labels (map snd keys))).
Proof.
  unfold div_row_sums, size_unstack. cbn [pv_rows pv_columns].
  rewrite map_map. intros (r' & [= -> ->] & Hr)%list_elem_of_fmap.
  cbn [fst snd]. rewrite elem_of_sort_labels in Hr.
  split; [done|]. split; [|done].
  rewrite sum_group_sizes.
  - apply list_elem_of_fmap in Hr as (k & -> & Hk).
    destruct (filter (fun k0 => fst k0 = fst k) keys) eqn:E; [|cbn; lia].
    assert (Hin : k ∈ filter (fun k0 => fst k0 = fst k) keys)
      by by apply list_elem_of_filter.
    rewrite E in Hin. by apply elem_of_nil in Hin.
  - apply NoDup_sort_labels.
  - intros k Hk. apply elem_of_sort_labels, list_elem_of_fmap. eauto.
Qed.

Lemma pivot_labels `{Platform} (keys : list (cell * cell)) :
  map fst (pv_rows (div_row_sums (size_unstack keys))) = sort_labels (map fst keys).
Proof.
  unfold div_row_sums, size_unstack. cbn [pv_rows pv_columns].
  rewrite !map_map. cbn. apply map_id.
Qed.

(** ** The proportion charts *)

Lemma aggregate_proportions `{Platform} df m key ka kb :
  (m, key) ∈ proportion_modes ->
  getcol key df = Ok ka -> getcol "CALIDAD" df = Ok kb ->
  aggregate df m
  = Ok (BarProportions (div_row_sums (size_unstack (group_keys (nrows df) ka kb)))).
Proof.
  intros Hm Ha Hb. unfold proportion_modes in Hm.
  repeat (apply elem_of_cons in Hm as [[= -> ->]|Hm];
          [unfold aggregate, quality_proportions; by rewrite Ha, Hb|]).
  by apply elem_of_nil in Hm.
Qed.

Lemma elem_of_pivot_labels `{Platform} n ka kb r :
  r ∈ map fst (pv_rows (div_row_sums (size_unstack (group_keys n ka kb)))) <->
  r ≠ Null /\ exists i, (i < n)%nat /\ cell_at ka i = r /\ cell_at kb i ≠ Null.
Proof.
  rewrite pivot_labels, elem_of_sort_labels, list_elem_of_fmap. split.
  - intros ([a b] & -> & (i & Hi & Ha & Hb & Hna & Hnb)%elem_of_group_keys).
    cbn. split; [done|]. exists i. by rewrite Hb.
  - intros (Hr & i & Hi & Ha & Hb). exists (r, cell_at kb i). split; [done|].
    apply elem_of_group_keys. by exists i.
Qed.

Lemma sum_nat_pos (l : list nat) :
  (0 < sum_nat l)%nat -> exists v, v ∈ l /\ (0 < v)%nat.
Proof.
  unfold sum_nat. induction l as [|x l IH]; cbn; [lia|].
  intros Hs. destruct (decide (0 < x)%nat) as [Hx|Hx].
  - exists x. split; [left | done].
  - destruct IH as (v & Hv & Hp); [lia|]. exists v. split; [by right | done].
Qed.

Lemma fl_pos `{Platform} (x : Q) : (0 < x)%Q -> (0 < fl x)%Q.
Proof.
  intros Hx. pose proof (fl_error x) as He.
  rewrite (Qabs_pos x) in He by lra.
  assert (Hlow : (x - fl x <= eps * x)%Q).
  { eapply Qle_trans; [|exact He].
    assert (E : (x - fl x == - (fl x - x))%Q) by ring.
    rewrite E, <- Qabs_opp. apply Qle_Qabs. }
  assert (Heps : (eps * x <= (1 # 2) * x)%Q).
  { apply Qmult_le_compat_r; [|lra]. unfold eps, Qle. cbn. lia. }
  lra.
Qed.



(** C8.  In each of the three proportion modes the chart is computed
    without an exception, its rows have distinct labels, and a label has a
    row exactly when it is not missing and some row of the joined table
    carries it together with a CALIDAD: a key whose rows all lack CALIDAD,
    or that no row carries, gets no row.  No row is a row of zeros: each
    holds a positive value. *)
Theorem empty_groups_are_left_out `{Platform} (df : DataFrame) (m : mode)
    (key : string) (ka kb : list cell) :
  (m, key) ∈ proportion_modes ->
  getcol key df = Ok ka ->
  getcol "CALIDAD" df = Ok kb ->
  exists pv : pivot fval,
    aggregate df m = Ok (BarProportions pv)
    /\ NoDup (map fst (pv_rows pv))
    /\ (forall r, r ∈ map fst (pv_rows pv) <->
          r ≠ Null
          /\ exists i, (i < nrows df)%nat /\ cell_at ka i = r /\ cell_at kb i ≠ Null)
    /\ (forall r vals, (r, vals) ∈ pv_rows pv ->
          exists q : Q, Fin q ∈ vals /\ (0 < q)%Q).
Proof.
  intros Hm Ha Hb. eexists. split; [by eapply aggregate_proportions|].
  split; [rewrite pivot_labels; apply NoDup_sort_labels|].
  split; [apply elem_of_pivot_labels|].
  intros r vals (_ & Hpos & ->)%pivot_row_spec.
  destruct (sum_nat_pos _ Hpos) as (v & Hv & Hvpos).
  eexists. split.
  - apply list_elem_of_fmap. exists v. split; [|exact Hv].
    symmetry. by apply true_div_pos.
  - apply fl_pos. apply Qlt_shift_div_l.
    + change 0%Q with (inject_Z 0). rewrite <- Zlt_Qlt. lia.
    + rewrite Qmult_0_l. change 0%Q with (inject_Z 0). rewrite <- Zlt_Qlt. lia.
Qed.

Lemma empty_groups_are_left_out_witness :
  exists pv : pivot fval,
    @aggregate exact_platform example_merged QualityByMonth = Ok (BarProportions pv)
    /\ map fst (pv_rows pv) = [Str "2024-01"].
Proof.
  destruct (@empty_groups_are_left_out exact_platform example_merged
              QualityByMonth "mes"
              [Str "2024-01"; Str "2024-01"; Str "2024-03"]
              [Str "Alta"; Str "Baja"; Null])
    as (pv & Hpv & _).
  - left.
  - reflexivity.
  - reflexivity.
  - exists pv. split; [exact Hpv|].
    vm_compute in Hpv. injection Hpv as <-. reflexivity.
Defined.

(** ** Value by month *)

Lemma mapM_Ok_map {A B} (f : A -> result B) (g : A -> B) (l : list A) :
  (forall x, x ∈ l -> f x = Ok (g x)) -> mapM f l = Ok (map g l).
Proof.
  induction l as [|x l IH]; intros Hf; cbn; [done|].
  rewrite (Hf x) by left. cbn. rewrite IH; [done|].
  intros y Hy. apply Hf. by right.
Qed.

Lemma flat_map_filter {A B} (P : A -> Prop) `{!forall x, Decision (P x)}
    (g : A -> list B) (l : list A) :
  flat_map g (filter P l) = flat_map (fun x => if decide (P x) then g x else []) l.
Proof.
  induction l as [|x l IH]; [done|]. rewrite filter_cons. cbn [flat_map].
  destruct (decide (P x)); cbn [flat_map app]; by rewrite IH.
Qed.

Lemma filter_filter_strong {A} (P Q : A -> Prop) `{!forall x, Decision (P x)}
    `{!forall x, Decision (Q x)} (l : list A) :
  (forall x, P x -> Q x) -> filter P (filter Q l) = filter P l.
Proof.
  intros HPQ. induction l as [|x l IH]; [done|]. rewrite !filter_cons.
  destruct (decide (Q x)) as [HQ|HQ].
  - rewrite filter_cons. destruct (decide (P x)); by rewrite IH.
  - rewrite decide_False by (intros HP; by apply HQ, HPQ). done.
Qed.

Lemma numeric_values_Ok (v : list cell) (rows : list nat) :
  (forall i, i ∈ rows -> cell_at v i = Null \/ exists q, cell_at v i = Num q) ->
  numeric_values v rows
  = Ok (flat_map (fun i => match cell_at v i with Num q => [q] | _ => [] end) rows).
Proof.
  intros Hnum. unfold numeric_values.
  rewrite (mapM_Ok_map _
             (fun i => match cell_at v i with Num q => [q] | _ => [] end)).
  - cbn. f_equal. induction rows as [|i rows IH]; [done|]. cbn.
    f_equal. apply IH. intros j Hj. apply Hnum. by right.
  - intros i Hi. destruct (Hnum i Hi) as [->|[q ->]]; done.
Qed.

Lemma month_rows_values (n : nat) (km v : list cell) (m : cell) :
  m ≠ Null ->
  flat_map (fun i => match cell_at v i with Num q => [q] | _ => [] end)
           (filter (fun i => cell_at km i = m) (group_rows1 n km))
  = month_values n km v m.
Proof.
  intros Hm. unfold group_rows1, month_values.
  rewrite filter_filter_strong.
  - apply flat_map_filter.
  - intros i <-. by destruct (cell_at km i).
Qed.

Lemma elem_of_group_rows1 n k i :
  i ∈ group_rows1 n k <-> (i < n)%nat /\ cell_at k i ≠ Null.
Proof.
  unfold group_rows1. rewrite list_elem_of_filter, elem_of_seq.
  destruct (cell_at k i); cbn; intuition (lia || congruence).
Qed.

Lemma elem_of_month_labels n km m :
  m ∈ sort_labels (map (cell_at km) (group_rows1 n km)) <->
  m ≠ Null /\ exists i, (i < n)%nat /\ cell_at km i = m.
Proof.
  rewrite elem_of_sort_labels, list_elem_of_fmap. split.
  - intros (i & -> & [Hi Hk]%elem_of_group_rows1). eauto.
  - intros (Hm & i & Hi & <-). exists i. split; [done|].
    by apply elem_of_group_rows1.
Qed.

Lemma value_by_month_spec `{Platform} (df : DataFrame) (km v : list cell) :
  getcol "mes" df = Ok km ->
  getcol "valor" df = Ok v ->
  (forall i, (i < nrows df)%nat -> cell_at km i ≠ Null ->
             cell_at v i = Null \/ exists q, cell_at v i = Num q) ->
  value_by_month df
  = Ok (map (fun m => (m, group_mean (column_dtype v) (month_values (nrows df) km v m),
                       group_sum (column_dtype v) (month_values (nrows df) km v m)))
            (sort_labels (map (cell_at km) (group_rows1 (nrows df) km)))).
Proof.
  intros Hkm Hv Hnum. unfold value_by_month. rewrite Hkm, Hv. cbn.
  apply mapM_Ok_map. intros m [Hm _]%elem_of_month_labels.
  rewrite numeric_values_Ok.
  - cbn. by rewrite month_rows_values.
  - intros i [_ [Hi Hk]%elem_of_group_rows1]%list_elem_of_filter. by apply Hnum.
Qed.

Lemma month_values_row n km v m :
  month_values n km v m ≠ [] -> exists i, (i < n)%nat /\ cell_at km i = m.
Proof.
  intros Hne. destruct (month_values n km v m) as [|q qs] eqn:E; [done|].
  assert (Hq : In q (month_values n km v m)) by (rewrite E; left; done).
  unfold month_values in Hq. apply in_flat_map in Hq as (i & Hi & Hq).
  apply in_seq in Hi. exists i. split; [lia|].
  by destruct (decide (cell_at km i = m)).
Qed.

(** ** The arithmetic of valor *)

Lemma pow_2_53 : 2 ^ 53 = 9007199254740992.
Proof. reflexivity. Qed.

Lemma integral_value (q : Qc) :
  integral q = true -> (this q == inject_Z (Qnum (this q)))%Q.
Proof.
  unfold integral. intros E%Pos.eqb_eq. destruct (this q) as [a b].
  cbn in *. subst b. reflexivity.
Qed.

Lemma Zsum_abs_nonneg (l : list Z) : 0 <= Zsum (map Z.abs l).
Proof. induction l as [|z l IH]; cbn; [done|]. fold (Zsum (map Z.abs l)). lia. Qed.

Lemma Zsum_abs_bound (l : list Z) : Z.abs (Zsum l) <= Zsum (map Z.abs l).
Proof.
  induction l as [|z l IH]; cbn; [done|].
  fold (Zsum l) (Zsum (map Z.abs l)). lia.
Qed.

Lemma wrap64_small (z : Z) : - 2 ^ 63 <= z < 2 ^ 63 -> wrap64 z = z.
Proof.
  intros Hz. unfold wrap64. change (2 ^ 63) with 9223372036854775808 in *.
  change (2 ^ 64) with 18446744073709551616. rewrite Z.mod_small; lia.
Qed.

(** Whole numbers of small size are summed exactly in [int64]. *)
Lemma int64_sum_exact (vs : list Qc) :
  Zsum (map Z.abs (numerators vs)) <= 2 ^ 53 ->
  int64_sum vs = Zsum (numerators vs).
Proof.
  unfold int64_sum. rewrite pow_2_53.
  assert (Hgen : forall acc,
            Z.abs acc + Zsum (map Z.abs (numerators vs)) <= 9007199254740992 ->
            fold_left (fun acc q => wrap64 (acc + Qnum (this q))) vs acc
            = acc + Zsum (numerators vs)).
  { induction vs as [|q vs IH]; intros acc Hb; cbn; [lia|].
    cbn in Hb. fold (numerators vs) (Zsum (map Z.abs (numerators vs))) in Hb.
    fold (numerators vs) (Zsum (numerators vs)).
    pose proof (Zsum_abs_nonneg (numerators vs)) as Hnn.
    rewrite wrap64_small
      by (change (2 ^ 63) with 9223372036854775808; lia).
    rewrite IH by lia. lia. }
  intros Hb. rewrite Hgen; lia.
Qed.

(** And in binary64: every partial sum is a whole number binary64 holds,
    so no step of the compensated summation rounds. *)
Lemma kahan_fold_exact `{Platform} (zs : list Z) :
  exact_on_integers ->
  forall (vals : list Q) (s c : Q) (S : Z),
    Forall2 (fun v z => (v == inject_Z z)%Q) vals zs ->
    (s == inject_Z S)%Q -> (c == 0)%Q ->
    Z.abs S + Zsum (map Z.abs zs) <= 2 ^ 53 ->
    (fst (fold_left kahan_step vals (s, c)) == inject_Z (S + Zsum zs))%Q.
Proof.
  intros Hfl. rewrite pow_2_53.
  induction zs as [|z zs IH]; intros vals s c S Hvals Hs Hc Hb.
  - inversion Hvals; subst. cbn. by rewrite Hs, Z.add_0_r.
  - inversion Hvals as [|v z' vals' zs' Hv Hrest]; subst. cbn [fold_left].
    cbn [map Zsum fold_right] in Hb. fold (Zsum (map Z.abs zs)) in Hb.
    cbn [Zsum fold_right]. fold (Zsum zs).
    pose proof (Zsum_abs_nonneg zs) as Hnn.
    unfold kahan_step at 2. cbn [fst snd].
    set (y := fl (v - c)). set (t := fl (s + y)).
    assert (Hy : (y == inject_Z z)%Q).
    { apply Hfl; [rewrite Hv, Hc; ring | rewrite pow_2_53; lia]. }
    assert (Ht : (t == inject_Z (S + z))%Q).
    { apply Hfl; [by rewrite Hs, Hy, inject_Z_plus | rewrite pow_2_53; lia]. }
    assert (Hd : (fl (t - s) == inject_Z z)%Q).
    { apply Hfl; [rewrite Ht, Hs, inject_Z_plus; ring | rewrite pow_2_53; lia]. }
    assert (Hc' : (fl (fl (t - s) - y) == 0)%Q).
    { change 0%Q with (inject_Z 0). apply Hfl; [|done].
      rewrite Hd, Hy. change (inject_Z 0) with 0%Q. ring. }
    rewrite Z.add_assoc. apply IH; [done | done | done | lia].
Qed.

Lemma Zsum_abs_elem (l : list Z) (z : Z) :
  z ∈ l -> Z.abs z <= Zsum (map Z.abs l).
Proof.
  induction l as [|x l IH]; [by intros ?%elem_of_nil|].
  cbn. fold (Zsum (map Z.abs l)). pose proof (Zsum_abs_nonneg l).
  intros [->|Hz%IH]%elem_of_cons; lia.
Qed.

Lemma float_values_exact `{Platform} (dt : dtype) (vs : list Qc) :
  exact_on_integers -> small_integers vs ->
  Forall2 (fun v z => (v == inject_Z z)%Q) (map (float_value dt) vs) (numerators vs).
Proof.
  intros Hfl [Hint Hb].
  assert (Hall : forall q, q ∈ vs ->
            (float_value dt q == inject_Z (Qnum (this q)))%Q).
  { intros q Hq.
    assert (Hi : integral q = true).
    { rewrite forallb_forall in Hint. by apply Hint, list_elem_of_In. }
    destruct dt; cbn [float_value]; try by apply integral_value.
    apply Hfl; [by apply integral_value|].
    etrans; [|exact Hb]. apply Zsum_abs_elem.
    unfold numerators. apply list_elem_of_fmap. by exists q. }
  clear Hint Hb. induction vs as [|q vs IH]; cbn; [constructor|].
  constructor.
  - apply Hall. left.
  - apply IH. intros q' Hq'. apply Hall. by right.
Qed.

Lemma kahan_sum_exact `{Platform} (dt : dtype) (vs : list Qc) :
  exact_on_integers -> small_integers vs ->
  (kahan_sum (map (float_value dt) vs) == inject_Z (Zsum (numerators vs)))%Q.
Proof.
  intros Hfl Hvs. unfold kahan_sum.
  rewrite (kahan_fold_exact (numerators vs) Hfl _ 0%Q 0%Q 0);
    [done | by apply float_values_exact | done | done | by destruct Hvs].
Qed.

Lemma Q2Qc_eq (x y : Q) : (x == y)%Q -> Q2Qc x = Q2Qc y.
Proof. intros E. apply Qc_is_canon. cbn [this Q2Qc]. by rewrite !Qred_correct. Qed.

(** On whole numbers of small size the sum of a group is their sum. *)
Lemma group_sum_exact `{Platform} (dt : dtype) (vs : list Qc) :
  dt ≠ Object -> exact_on_integers -> small_integers vs ->
  group_sum dt vs = qc (Zsum (numerators vs)).
Proof.
  intros Hdt Hfl Hvs. unfold qc.
  assert (Hf : Q2Qc (kahan_sum (map this vs)) = Q2Qc (inject_Z (Zsum (numerators vs)))).
  { apply Q2Qc_eq. apply (kahan_sum_exact Float64 vs Hfl Hvs). }
  destruct dt; cbn [group_sum]; [|exact Hf|exact Hf|done].
  destruct Hvs as [_ Hb]. by rewrite int64_sum_exact.
Qed.

(** And their mean is that sum over their count, rounded once. *)
Lemma group_mean_exact `{Platform} (dt : dtype) (vs : list Qc) :
  dt ≠ Object -> exact_on_integers -> small_integers vs -> vs ≠ [] ->
  exists x : Q,
    group_mean dt vs = Fin (fl x)
    /\ (x == inject_Z (Zsum (numerators vs)) / inject_Z (Z.of_nat (length vs)))%Q.
Proof.
  intros Hdt Hfl Hvs Hne. destruct vs as [|q vs]; [done|].
  exists (kahan_sum (map (float_value dt) (q :: vs))
          / inject_Z (Z.of_nat (length (q :: vs))))%Q.
  split; [by destruct dt|].
  by rewrite (kahan_sum_exact dt (q :: vs) Hfl Hvs).
Qed.

Lemma mean_of_exact_sum `{Platform} (x : Q) (total : Z) (n : nat) :
  exact_on_integers -> n ≠ 0%nat -> Z.abs total <= 2 ^ 53 ->
  (x == inject_Z total / inject_Z (Z.of_nat n))%Q ->
  (Qabs (fl x - inject_Z total / inject_Z (Z.of_nat n))
   <= eps * Qabs (inject_Z total / inject_Z (Z.of_nat n)))%Q
  /\ forall z, total = z * Z.of_nat n -> (fl x == inject_Z z)%Q.
Proof.
  intros Hfl Hn Hb Hx. split.
  - pose proof (fl_error x) as He. set (y := fl x) in *. by rewrite Hx in He.
  - intros z Hz. apply Hfl.
    + rewrite Hx, Hz, inject_Z_mult. field.
      change 0%Q with (inject_Z 0). rewrite inject_Z_injective. lia.
    + etrans; [|exact Hb]. subst total. rewrite Z.abs_mul. nia.
Qed.

(** C7.  Value by month groups the rows by mes and gives, for every month
    some row carries and for no other, the sum and the mean of the valor
    numbers of its rows; the chart holds both series.  The two are taken
    in the arithmetic of the column: the sum in [int64] with wrap-around
    or in binary64, the mean in binary64, NaN when the month has no valor
    at all.  When valor is a column of numbers and the values of a month
    are whole numbers whose sizes add up to 2^53 at most, nothing wraps
    and no addition rounds: the sum is their sum, and the mean is their
    sum over their count, rounded once, which is that quotient itself
    when it is a whole number.  A month whose rows hold the values 100
    and 200 gets mean 150 and sum 300. *)
Theorem value_by_month_mean_and_sum `{Platform} (df : DataFrame) (km v : list cell) :
  getcol "mes" df = Ok km ->
  getcol "valor" df = Ok v ->
  (forall i, (i < nrows df)%nat -> cell_at km i ≠ Null ->
             cell_at v i = Null \/ exists q, cell_at v i = Num q) ->
  exists rows : list (cell * fval * Qc),
    aggregate df ValueByMonth = Ok (LineAndBars rows)
    /\ NoDup (map (fun r => fst (fst r)) rows)
    /\ (forall m, m ∈ map (fun r => fst (fst r)) rows <->
          m ≠ Null /\ exists i, (i < nrows df)%nat /\ cell_at km i = m)
    /\ (forall m mean total, (m, mean, total) ∈ rows ->
          let vs := month_values (nrows df) km v m in
          let exact_sum := Zsum (numerators vs) in
          let exact_mean := (inject_Z exact_sum / inject_Z (Z.of_nat (length vs)))%Q in
          total = group_sum (column_dtype v) vs
          /\ mean = group_mean (column_dtype v) vs
          /\ (vs = [] -> mean = NaN /\ total = qc 0)
          /\ (column_dtype v ≠ Object -> exact_on_integers -> small_integers vs ->
              total = qc exact_sum
              /\ (vs ≠ [] ->
                  exists q : Q,
                    mean = Fin q
                    /\ (Qabs (q - exact_mean) <= eps * Qabs exact_mean)%Q
                    /\ forall z : Z, exact_sum = z * Z.of_nat (length vs) ->
                                     (q == inject_Z z)%Q)))
    /\ (forall m, m ≠ Null -> column_dtype v ≠ Object -> exact_on_integers ->
          month_values (nrows df) km v m = [qc 100; qc 200] ->
          exists q : Q, (m, Fin q, qc 300) ∈ rows /\ (q == 150)%Q).
Proof.
  intros Hkm Hv Hnum. eexists. split.
  { unfold aggregate. rewrite (value_by_month_spec df km v) by done. reflexivity. }
  split; [|split; [|split]].
  - rewrite map_map. cbn. rewrite map_id. apply NoDup_sort_labels.
  - intros m. rewrite map_map. cbn. rewrite map_id. apply elem_of_month_labels.
  - intros m mean total (m' & [= -> -> ->] & _)%list_elem_of_fmap.
    intros vs exact_sum exact_mean.
    split; [done|]. split; [done|]. split.
    { intros E. unfold vs in E. rewrite E. split; [done|].
      by destruct (column_dtype v). }
    intros Hdt Hfl Hvs. split; [by apply group_sum_exact|].
    intros Hne.
    destruct (group_mean_exact (column_dtype v) vs Hdt Hfl Hvs Hne)
      as (x & Hmean & Hx).
    exists (fl x). split; [done|].
    apply mean_of_exact_sum; [done | | | done].
    + by destruct vs.
    + etrans; [apply Zsum_abs_bound | by destruct Hvs].
  - intros m Hm Hdt Hfl Hvals.
    assert (Hvs : small_integers [qc 100; qc 200]) by (split; [done | by vm_compute]).
    destruct (group_mean_exact (column_dtype v) [qc 100; qc 200] Hdt Hfl Hvs)
      as (x & Hmean & Hx); [done|].
    exists (fl x). split.
    + apply list_elem_of_fmap. exists m. split.
      * rewrite Hvals, Hmean. do 2 f_equal.
        by rewrite (group_sum_exact _ _ Hdt Hfl Hvs).
      * apply elem_of_month_labels. split; [done|].
        apply (month_values_row _ _ v). by rewrite Hvals.
    + change 150%Q with (inject_Z 150).
      apply (mean_of_exact_sum x 300 2); [done | done | by vm_compute | done | done].
Qed.

Lemma value_by_month_mean_and_sum_witness :
  exists (rows : list (cell * fval * Qc)) (q : Q),
    @aggregate exact_platform example_merged ValueByMonth = Ok (LineAndBars rows)
    /\ (Str "2024-01", Fin q, qc 300) ∈ rows
    /\ (q == 150)%Q.
Proof.
  destruct (@value_by_month_mean_and_sum exact_platform example_merged
              [Str "2024-01"; Str "2024-01"; Str "2024-03"]
              [Num (qc 100); Num (qc 200); Num (qc 50)])
    as (rows & Hrows & _ & _ & _ & Hex).
  - reflexivity.
  - reflexivity.
  - intros i Hi _. assert (Hn : nrows example_merged = 3%nat) by reflexivity.
    rewrite Hn in Hi. right.
    destruct i as [|[|[|i]]]; [by eexists | by eexists | by eexists | lia].
  - destruct (Hex (Str "2024-01")) as (q & Hin & Hq).
    + discriminate.
    + discriminate.
    + intros x z Hx _. exact Hx.
    + reflexivity.
    + exists rows, q. split; [exact Hrows|]. split; [exact Hin | exact Hq].
Defined.

(** ** A missing column *)

Lemma getcol_missing name df :
  lookup_col name (cols df) = None -> getcol name df = Err (KeyError name).
Proof. intros E. unfold getcol. by rewrite E. Qed.

Lemma getcol_total name df :
  (exists c, getcol name df = Ok c) \/ getcol name df = Err (KeyError name).
Proof. unfold getcol. destruct (lookup_col name (cols df)); eauto. Qed.

Lemma aggregate_missing_column `{Platform} (df : DataFrame) (m : mode) (c : string) :
  c ∈ required_columns m ->
  lookup_col c (cols df) = None ->
  exists c', c' ∈ required_columns m
    /\ (aggregate df m = Err (KeyError c')
        \/ aggregate df m = Err (PlotValueError c')).
Proof.
  intros Hc Hmiss. apply getcol_missing in Hmiss as Hg.
  destruct m; cbn [required_columns] in *;
    unfold aggregate, quality_proportions, value_by_month, avg_value, box_data.
  all: repeat (apply elem_of_cons in Hc as [->|Hc]);
    try (by apply elem_of_nil in Hc).
  all: try rewrite Hmiss; try rewrite Hg.
  all: try (eexists; split; [|left; reflexivity]; set_solver).
  all: try (eexists; split; [|right; reflexivity]; set_solver).
  all: repeat match goal with
       | |- context [getcol ?n ?d] =>
           destruct (getcol_total n d) as [[? ->]| ->]; cbn [mbind result_bind]
       | |- context [lookup_col ?n (cols ?d)] =>
           destruct (lookup_col n (cols d))
       end.
  all: try rewrite Hg; cbn [mbind result_bind].
  all: try (eexists; split; [|left; reflexivity]; set_solver).
  all: try (eexists; split; [|right; reflexivity]; set_solver).
Qed.

(** C5, amended.  When the joined table, with its month and year columns
    added, lacks a column the selected mode reads, the aggregation raises:
    a KeyError from pandas, or plotly's ValueError in the box plot.  The
    script has no handler around the charts, so the exception ends the
    run: what is on the page is what was shown before the charts, no
    chart and no download button follow, and the script itself shows no
    error message. *)
Theorem missing_column_ends_the_run `{Platform} (w : widgets) (v : vars) (st : state)
    (entradas_df familias_df merged_df df : DataFrame) (c : string) :
  tables v = (Some entradas_df, Some familias_df, Some merged_df) ->
  add_month_year merged_df = Ok df ->
  c ∈ required_columns (plot_type w) ->
  lookup_col c (cols df) = None ->
  exists (c' : string) (e : exn),
    c' ∈ required_columns (plot_type w)
    /\ (e = KeyError c' \/ e = PlotValueError c')
    /\ aggregate df (plot_type w) = Err e
    /\ analysis w v st
       = mkRun (map Shown (shown v) ++ previews entradas_df familias_df merged_df)
               (Some e) st.
Proof.
  intros Ht Hmy Hc Hmiss.
  destruct (aggregate_missing_column df (plot_type w) c Hc Hmiss)
    as (c' & Hc' & Hagg).
  assert (He : exists e, (e = KeyError c' \/ e = PlotValueError c')
                         /\ aggregate df (plot_type w) = Err e).
  { destruct Hagg as [Hagg|Hagg]; eauto. }
  destruct He as (e & He & Hagg').
  exists c', e. split; [done|]. split; [done|]. split; [done|].
  unfold analysis. by rewrite Ht, Hmy, Hagg'.
Qed.

Lemma missing_column_ends_the_run_witness :
  exists (e : exn) (pg : list output),
    @main exact_platform idle_widgets plain_state
    = mkRun pg (Some e) (snd (@resolve_sources exact_platform idle_widgets plain_state)).
Proof.
  edestruct (fun e f m df =>
               @missing_column_ends_the_run exact_platform idle_widgets
                 (fst (@resolve_sources exact_platform idle_widgets plain_state))
                 (snd (@resolve_sources exact_platform idle_widgets plain_state))
                 e f m df "CALIDAD")
    as (c' & e & _ & _ & _ & Hrun).
  - vm_compute. reflexivity.
  - vm_compute. reflexivity.
  - right. left.
  - vm_compute. reflexivity.
  - exists e. eexists. rewrite main_analysis. exact Hrun.
Defined.

(** C5 as stated fails: with a Familias sheet that has no CALIDAD column
    the load succeeds, the first chart mode raises KeyError 'CALIDAD', the
    run ends with that exception and the script shows no error message. *)
Lemma missing_quality_escapes :
  raised (@main exact_platform idle_widgets plain_state) = Some (KeyError "CALIDAD")
  /\ List.filter is_st_error (page (@main exact_platform idle_widgets plain_state)) = [].
Proof. vm_compute. split; reflexivity. Qed.

(** ** The row without a family *)

Lemma joined_left_col (L R : DataFrame) idx n c :
  lookup_col n (cols L) = Some c ->
  lookup_col n (map (fun p => (fst p, take_left idx (snd p))) (cols L)
                ++ map (fun p => (fst p, take_right idx (snd p))) (cols R))
  = Some (take_left idx c).
Proof.
  intros Hc. rewrite lookup_col_app.
  rewrite (lookup_col_map_fresh (fun m => m)) by done. by rewrite Hc.
Qed.

Lemma joined_right_col (L R : DataFrame) idx n c :
  (forall n, n ∈ names L -> n ∉ names R) ->
  lookup_col n (cols R) = Some c ->
  lookup_col n (map (fun p => (fst p, take_left idx (snd p))) (cols L)
                ++ map (fun p => (fst p, take_right idx (snd p))) (cols R))
  = Some (take_right idx c).
Proof.
  intros Hd Hc. rewrite lookup_col_app.
  rewrite (lookup_col_map_fresh (fun m => m)) by done.
  rewrite lookup_col_None_name.
  - cbn. rewrite (lookup_col_map_fresh (fun m => m)) by done. by rewrite Hc.
  - intros Hn. eapply Hd; [exact Hn|]. by eapply lookup_col_Some_name.
Qed.

Lemma add_month_year_spec (df df' : DataFrame) :
  add_month_year df = Ok df' ->
  nrows df' = nrows df
  /\ forall n, n ≠ "mes" -> n ≠ "año" ->
               lookup_col n (cols df') = lookup_col n (cols df).
Proof.
  unfold add_month_year.
  destruct (getcol "fecha_entrada_caja" df) as [c|]; cbn [mbind result_bind]; [|done].
  destruct (mapM dt_strftime_cell c) as [mes|]; cbn [mbind result_bind]; [|done].
  destruct (getcol "fecha_entrada_caja" (setcol "mes" mes df)) as [c2|];
    cbn [mbind result_bind]; [|done].
  destruct (mapM dt_year_cell c2) as [anio|]; cbn [mbind result_bind]; [|done].
  intros [= <-]. split; [done|]. intros n Hm Ha. cbn [cols setcol].
  by rewrite !lookup_assign_col_ne.
Qed.

Lemma to_csv_row `{Platform} (df : DataFrame) (p : nat) :
  (p < nrows df)%nat -> to_csv df !! S p = Some (csv_row df p).
Proof.
  intros Hp. unfold to_csv.
  change ((csv_row df <$> seq 0 (nrows df)) !! p = Some (csv_row df p)).
  by rewrite list_lookup_fmap, lookup_seq_lt.
Qed.

Lemma to_csv_length `{Platform} (df : DataFrame) :
  length (to_csv df) = S (nrows df).
Proof. unfold to_csv. cbn. by rewrite length_map, length_seq. Qed.

Lemma not_elem_of_group_rows n ka kb p :
  cell_at kb p = Null -> p ∉ group_rows n ka kb.
Proof.
  intros Hnull [Hna _]%list_elem_of_filter. rewrite Hnull in Hna.
  by rewrite andb_false_r in Hna.
Qed.

Lemma lookup_col_position (n : string) (cs : list (string * list cell)) c :
  lookup_col n cs = Some c -> exists k, cs !! k = Some (n, c).
Proof.
  induction cs as [|[m c'] cs IH]; cbn; [done|].
  destruct (String.eqb_spec m n) as [->|_].
  - intros [= ->]. by exists 0%nat.
  - intros [k Hk]%IH. by exists (S k).
Qed.

Lemma two_columns (n1 n2 : string) (cs : list (string * list cell)) c1 c2 :
  lookup_col n1 cs = Some c1 -> lookup_col n2 cs = Some c2 -> n1 ≠ n2 ->
  (2 <= length cs)%nat.
Proof.
  destruct cs as [|[m c] [|x cs]]; cbn; [done| |lia].
  destruct (String.eqb_spec m n1) as [->|_]; [|done].
  destruct (String.eqb_spec n1 n2) as [->|_]; done.
Qed.

Lemma csv_line_concat (fields : list string) :
  (2 <= length fields)%nat -> csv_line fields = String.concat "," fields.
Proof. destruct fields as [|f [|g fields]]; cbn [length]; [lia | lia | done]. Qed.

Lemma csv_fields_lookup `{Platform} (df : DataFrame) (p k : nat) n c :
  cols df !! k = Some (n, c) ->
  csv_fields df p !! k = Some (csv_field (column_dtype c) (cell_at c p)).
Proof. intros Hk. unfold csv_fields. by rewrite list_lookup_fmap, Hk. Qed.

Lemma csv_fields_length `{Platform} (df : DataFrame) (p : nat) :
  length (csv_fields df p) = length (cols df).
Proof. unfold csv_fields. apply length_map. Qed.

(** C6.  An entry row whose code matches no CODIGO gets one row of the
    joined table, and in that row every Familias column is missing,
    CALIDAD among them.  The three proportion charts are computed from the
    rows [group_rows] keeps, and that row is not one of them, whatever the
    grouping column holds.  The export still has a line for it, the line
    after the header and the rows before it: the fields of the row joined
    by commas, one field per column of the table in the order of the
    columns, each the text of the cell of that row; the field of codigo
    holds the code of the entry (the text itself when it needs no quoting)
    and the field of every Familias column is empty. *)
Theorem unmatched_row_exported_not_grouped `{Platform} (L R J J' : DataFrame)
    (lk rk cal : list cell) (i : nat) :
  getcol "codigo" L = Ok lk ->
  getcol "CODIGO" R = Ok rk ->
  mergeable lk rk = true ->
  (forall n, n ∈ names L -> n ∉ names R) ->
  lookup_col "CALIDAD" (cols R) = Some cal ->
  (i < nrows L)%nat ->
  (forall j, (j < nrows R)%nat -> cell_at rk j ≠ cell_at lk i) ->
  merge_left L R "codigo" "CODIGO" = Ok J ->
  add_month_year J = Ok J' ->
  exists (p : nat) (q : list cell) (fields : list string),
    (p < nrows J')%nat
    /\ (exists c, lookup_col "codigo" (cols J') = Some c /\ cell_at c p = cell_at lk i)
    /\ (forall n c, lookup_col n (cols R) = Some c -> n ≠ "mes" -> n ≠ "año" ->
          exists c', lookup_col n (cols J') = Some c' /\ cell_at c' p = Null)
    /\ getcol "CALIDAD" J' = Ok q
    /\ cell_at q p = Null
    /\ (forall m key ka, (m, key) ∈ proportion_modes -> getcol key J' = Ok ka ->
          aggregate J' m
          = Ok (BarProportions
                  (div_row_sums
                     (size_unstack
                        (map (fun r => (cell_at ka r, cell_at q r))
                             (group_rows (nrows J') ka q)))))
          /\ p ∉ group_rows (nrows J') ka q)
    /\ to_csv J' !! S p = Some (csv_row J' p)
    /\ length (to_csv J') = S (nrows J')
    /\ to_csv J' !! S p = Some (String.concat "," fields)
    /\ length fields = length (cols J')
    /\ (forall k n c, cols J' !! k = Some (n, c) ->
          fields !! k = Some (csv_field (column_dtype c) (cell_at c p)))
    /\ (exists k c,
          cols J' !! k = Some ("codigo", c)
          /\ cell_at c p = cell_at lk i
          /\ forall s, cell_at lk i = Str s -> contains_special s = false ->
                       fields !! k = Some s)
    /\ (forall n c, lookup_col n (cols R) = Some c -> n ≠ "mes" -> n ≠ "año" ->
          exists k c', cols J' !! k = Some (n, c') /\ fields !! k = Some "").
Proof.
  intros HL HR Hm Hd Hcal Hi Hno HJ HJ'.
  rewrite (merge_left_disjoint L R _ _ lk rk) in HJ by done.
  injection HJ as <-.
  set (idx := join_indexers lk (nrows L) rk (nrows R)) in *.
  assert (Hin : (i, None) ∈ idx) by by apply elem_of_join_indexers.
  apply list_elem_of_lookup in Hin as [p Hp].
  apply add_month_year_spec in HJ' as [Hn Hcols]. cbn [nrows cols] in Hn, Hcols.
  assert (Hq : lookup_col "CALIDAD" (cols J') = Some (take_right idx cal)).
  { rewrite Hcols by done. by apply joined_right_col. }
  assert (Hcode : lookup_col "codigo" (cols J') = Some (take_left idx lk)).
  { rewrite Hcols by done. apply joined_left_col. by apply getcol_Ok. }
  assert (Hcell : cell_at (take_left idx lk) p = cell_at lk i)
    by by rewrite (lookup_take_left idx lk p i None Hp).
  assert (Hlt : (p < nrows J')%nat) by (rewrite Hn; by eapply lookup_lt_Some).
  assert (Hright : forall n c, lookup_col n (cols R) = Some c ->
            n ≠ "mes" -> n ≠ "año" ->
            lookup_col n (cols J') = Some (take_right idx c)
            /\ cell_at (take_right idx c) p = Null).
  { intros n c Hc Hn1 Hn2. split.
    - rewrite Hcols by done. by apply joined_right_col.
    - by rewrite (lookup_take_right idx c p i None Hp). }
  exists p, (take_right idx cal), (csv_fields J' p).
  split; [done|].
  split; [by exists (take_left idx lk)|].
  split.
  { intros n c Hc Hn1 Hn2. exists (take_right idx c). by apply Hright. }
  split; [by apply getcol_Ok|].
  assert (Hnull : cell_at (take_right idx cal) p = Null)
    by by rewrite (lookup_take_right idx cal p i None Hp).
  split; [done|]. split.
  { intros m key ka Hmode Hka. split.
    - apply (aggregate_proportions J' m key ka (take_right idx cal));
        [done | done | by apply getcol_Ok].
    - by apply not_elem_of_group_rows. }
  split; [by apply to_csv_row|].
  split; [apply to_csv_length|].
  split.
  { rewrite to_csv_row by done. unfold csv_row. f_equal. apply csv_line_concat.
    rewrite csv_fields_length. by eapply (two_columns "codigo" "CALIDAD"). }
  split; [apply csv_fields_length|].
  split; [intros k n c Hk; by apply (csv_fields_lookup J' p k n c)|].
  split.
  - destruct (lookup_col_position _ _ _ Hcode) as [k Hk].
    exists k, (take_left idx lk). split; [done|]. split; [done|].
    intros s Hs Hplain. rewrite (csv_fields_lookup J' p k _ _ Hk), Hcell, Hs.
    cbn [csv_field]. unfold csv_quote. by rewrite Hplain.
  - intros n c Hc Hn1 Hn2. destruct (Hright n c Hc Hn1 Hn2) as [Hlook Hnone].
    destruct (lookup_col_position _ _ _ Hlook) as [k Hk].
    exists k, (take_right idx c). split; [done|].
    by rewrite (csv_fields_lookup J' p k _ _ Hk), Hnone.
Qed.

Lemma unmatched_row_exported_not_grouped_witness :
  exists (p : nat) (q : list cell),
    (p < nrows example_merged)%nat
    /\ getcol "CALIDAD" example_merged = Ok q
    /\ cell_at q p = Null
    /\ @to_csv exact_platform example_merged !! S p = Some "Z9,2024-03-05,,50,,,,,2024-03,2024".
Proof.
  edestruct (fun J =>
               @unmatched_row_exported_not_grouped exact_platform
                 example_dated example_familias J example_merged
                 [Str "A1"; Str "A2"; Str "Z9"] [Str "A1"; Str "A2"]
                 [Str "Alta"; Str "Baja"] 2)
    as (p & q & fields & Hp & _ & _ & Hq & Hnull & _ & Hcsv & _).
  - reflexivity.
  - reflexivity.
  - reflexivity.
  - disjoint_names.
  - reflexivity.
  - vm_compute. lia.
  - intros j Hj. cbn in Hj.
    destruct j as [|[|j]]; [cbn; discriminate | cbn; discriminate | lia].
  - vm_compute. reflexivity.
  - vm_compute. reflexivity.
  - exists p, q. split; [exact Hp|]. split; [exact Hq|]. split; [exact Hnull|].
    assert (Hp2 : p = 2%nat).
    { assert (Hq' : q = [Str "Alta"; Str "Baja"; Null]).
      { vm_compute in Hq. by injection Hq as <-. }
      subst q. assert (Hn : nrows example_merged = 3%nat) by reflexivity.
      rewrite Hn in Hp. destruct p as [|[|[|p]]]; [done | done | done | lia]. }
    subst p. reflexivity.
Defined.

(** * More of the script *)

(** ** The shape of the join *)

Lemma merge_left_Ok_inv `{Platform} (L R J : DataFrame) (left_on right_on : string) :
  merge_left L R left_on right_on = Ok J ->
  exists lk rk,
    getcol left_on L = Ok lk /\ getcol right_on R = Ok rk
    /\ mergeable lk rk = true
    /\ J = mkDF (length (join_indexers lk (nrows L) rk (nrows R)))
             (map (fun p => (rename_overlap "_x" (names R) (fst p),
                             take_left (join_indexers lk (nrows L) rk (nrows R)) (snd p)))
                  (cols L)
              ++ map (fun p => (rename_overlap "_y" (names L) (fst p),
                                take_right (join_indexers lk (nrows L) rk (nrows R)) (snd p)))
                     (cols R)).
Proof.
  unfold merge_left.
  destruct (getcol right_on R) as [rk|] eqn:HR; cbn [mbind result_bind]; [|done].
  destruct (getcol left_on L) as [lk|] eqn:HL; cbn [mbind result_bind]; [|done].
  destruct (mergeable lk rk) eqn:Hm; cbn [negb]; [|done].
  match goal with |- context [if ?b then _ else _] => destruct b end; [done|].
  intros [= <-]. by exists lk, rk.
Qed.

Lemma join_indexers_length_ge lk nL rk nR :
  (nL <= length (join_indexers lk nL rk nR))%nat.
Proof.
  unfold join_indexers. generalize 0%nat.
  induction nL as [|n IH]; intros s; cbn [seq flat_map]; [lia|].
  rewrite length_app, expand_left_length. specialize (IH (S s)). lia.
Qed.

(** X1.  Whenever the merge succeeds the joined frame has at least as many
    rows as the left frame, the columns of both frames side by side, and
    every column as long as the frame: the join never loses an entry and
    never returns a ragged table. *)
Theorem merge_left_shape `{Platform} (L R J : DataFrame) (left_on right_on : string) :
  merge_left L R left_on right_on = Ok J ->
  (nrows L <= nrows J)%nat
  /\ length (cols J) = (length (cols L) + length (cols R))%nat
  /\ forall n c, (n, c) ∈ cols J -> length c = nrows J.
Proof.
  intros (lk & rk & _ & _ & _ & ->)%merge_left_Ok_inv. cbn [nrows cols].
  split; [apply join_indexers_length_ge|].
  split; [by rewrite length_app, !length_map|].
  intros n c [Hin|Hin]%elem_of_app;
    apply list_elem_of_fmap in Hin as ([n' c'] & [= -> ->] & _);
    unfold take_left, take_right; by rewrite length_map.
Qed.

Lemma merge_left_shape_witness :
  exists J, @merge_left exact_platform example_dated example_familias "codigo" "CODIGO" = Ok J
    /\ (nrows example_dated <= nrows J)%nat.
Proof.
  edestruct (fun J => @merge_left_shape exact_platform example_dated example_familias
                        J "codigo" "CODIGO") as (Hrows & _).
  - vm_compute. reflexivity.
  - eexists. split; [reflexivity | exact Hrows].
Defined.

Lemma flat_map_singletons {A B} (f : A -> list B) (g : A -> B) (l : list A) :
  (forall x, x ∈ l -> f x = [g x]) -> flat_map f l = map g l.
Proof.
  induction l as [|x l IH]; intros Hf; cbn; [done|].
  rewrite (Hf x) by left. cbn. f_equal. apply IH. intros y Hy. apply Hf. by right.
Qed.

Lemma key_matches_unique rk nR k :
  (forall j1 j2, (j1 < nR)%nat -> (j2 < nR)%nat ->
                 cell_at rk j1 = cell_at rk j2 -> j1 = j2) ->
  key_matches rk nR k = [] \/ exists j, key_matches rk nR k = [j].
Proof.
  intros Huniq. pose proof (NoDup_key_matches rk nR k) as Hnd.
  destruct (key_matches rk nR k) as [|j [|j' js]] eqn:E; [by left | eauto |].
  exfalso.
  assert (Hj : j ∈ key_matches rk nR k) by (rewrite E; left).
  assert (Hj' : j' ∈ key_matches rk nR k) by (rewrite E; right; left).
  apply elem_of_key_matches in Hj as [Hj Hk], Hj' as [Hj' Hk'].
  assert (j = j') as -> by (apply Huniq; congruence).
  apply NoDup_cons in Hnd as [Hnd _]. apply Hnd. left.
Qed.

Lemma join_indexers_unique lk nL rk nR :
  (forall j1 j2, (j1 < nR)%nat -> (j2 < nR)%nat ->
                 cell_at rk j1 = cell_at rk j2 -> j1 = j2) ->
  join_indexers lk nL rk nR
  = map (fun i => (i, head (key_matches rk nR (cell_at lk i)))) (seq 0 nL).
Proof.
  intros Huniq. unfold join_indexers. apply flat_map_singletons.
  intros i _. unfold expand_left.
  destruct (key_matches_unique rk nR (cell_at lk i) Huniq) as [->|[j ->]]; done.
Qed.

(** X2.  When no two rows of Familias share a CODIGO, the joined table has
    exactly the rows of Entradas, in place: row [p] of every Entradas
    column is row [p] of the joined column, and a Familias column holds at
    row [p] the cell of the one Familias row with the code of entry [p], or
    a missing value when there is none. *)
Theorem merge_unique_codes `{Platform} (L R : DataFrame) (lk rk : list cell) :
  getcol "codigo" L = Ok lk ->
  getcol "CODIGO" R = Ok rk ->
  mergeable lk rk = true ->
  (forall n, n ∈ names L -> n ∉ names R) ->
  (forall j1 j2, (j1 < nrows R)%nat -> (j2 < nrows R)%nat ->
                 cell_at rk j1 = cell_at rk j2 -> j1 = j2) ->
  exists J : DataFrame,
    merge_left L R "codigo" "CODIGO" = Ok J
    /\ nrows J = nrows L
    /\ (forall n c, lookup_col n (cols L) = Some c ->
        exists c', lookup_col n (cols J) = Some c'
          /\ forall p, (p < nrows L)%nat -> cell_at c' p = cell_at c p)
    /\ (forall n c, lookup_col n (cols R) = Some c ->
        exists c', lookup_col n (cols J) = Some c'
          /\ forall p, (p < nrows L)%nat ->
               (forall j, (j < nrows R)%nat -> cell_at rk j = cell_at lk p ->
                          cell_at c' p = cell_at c j)
               /\ ((forall j, (j < nrows R)%nat -> cell_at rk j ≠ cell_at lk p) ->
                   cell_at c' p = Null)).
Proof.
  intros HL HR Hm Hd Huniq.
  eexists. split; [by apply merge_left_disjoint|].
  set (idx := join_indexers lk (nrows L) rk (nrows R)).
  assert (Hidx : forall p, (p < nrows L)%nat ->
            idx !! p = Some (p, head (key_matches rk (nrows R) (cell_at lk p)))).
  { intros p Hp. unfold idx. rewrite join_indexers_unique by done.
    change (map ?f ?l) with (f <$> l).
    by rewrite list_lookup_fmap, lookup_seq_lt. }
  cbn [nrows cols]. split.
  { unfold idx. rewrite join_indexers_unique by done.
    by rewrite length_map, length_seq. }
  split.
  - intros n c Hc. exists (take_left idx c).
    split; [by apply joined_left_col|].
    intros p Hp. by rewrite (lookup_take_left idx c p _ _ (Hidx p Hp)).
  - intros n c Hc. exists (take_right idx c).
    split; [by apply joined_right_col|].
    intros p Hp. rewrite (lookup_take_right idx c p _ _ (Hidx p Hp)). split.
    + intros j Hj Hk.
      assert (Hin : j ∈ key_matches rk (nrows R) (cell_at lk p))
        by by apply elem_of_key_matches.
      destruct (key_matches_unique rk (nrows R) (cell_at lk p) Huniq)
        as [E|[j' E]]; rewrite E in Hin |- *.
      * by apply elem_of_nil in Hin.
      * apply list_elem_of_singleton in Hin as ->. done.
    + intros Hno. apply key_matches_nil in Hno. by rewrite Hno.
Qed.

Lemma merge_unique_codes_witness :
  exists J : DataFrame,
    @merge_left exact_platform example_dated example_familias "codigo" "CODIGO" = Ok J
    /\ nrows J = nrows example_dated.
Proof.
  destruct (@merge_unique_codes exact_platform example_dated example_familias
              [Str "A1"; Str "A2"; Str "Z9"] [Str "A1"; Str "A2"])
    as (J & HJ & Hn & _).
  - reflexivity.
  - reflexivity.
  - reflexivity.
  - disjoint_names.
  - intros j1 j2 Hj1 Hj2. cbn in Hj1, Hj2.
    destruct j1 as [|[|j1]], j2 as [|[|j2]]; cbn; try discriminate; try lia; done.
  - exists J. split; [exact HJ | exact Hn].
Defined.

(** ** What the loader returns *)

Lemma names_assign_col (m : string) (v : list cell) cs c :
  lookup_col m cs = Some c -> map fst (assign_col m v cs) = map fst cs.
Proof.
  induction cs as [|[k c0] cs IH]; cbn; [done|].
  destruct (String.eqb k m) eqn:E; cbn; [done|].
  intros Hc. f_equal. by apply IH.
Qed.

Lemma to_datetime_cells `{Platform} (c c' : list cell) :
  to_datetime c = Ok c' ->
  length c' = length c
  /\ forall i, to_datetime_cell (cell_at c i) = Ok (cell_at c' i).
Proof.
  intros Hc. pose proof (mapM_length _ _ _ Hc) as Hlen. split; [done|].
  intros i. unfold cell_at. rewrite !nth_lookup.
  destruct (c !! i) as [x|] eqn:Ex.
  - destruct (mapM_lookup _ _ _ _ _ Hc Ex) as (y & -> & Hy). done.
  - apply lookup_ge_None in Ex. rewrite (proj2 (lookup_ge_None c' i)) by lia. done.
Qed.

Lemma to_datetime_cell_kind `{Platform} (x y : cell) :
  to_datetime_cell x = Ok y -> y = Null \/ exists d, y = Date d.
Proof.
  destruct x as [|s|q|d]; cbn; [by intros [= <-]; left| | done | intros [= <-]; eauto].
  destruct (is_nat_string s); [by intros [= <-]; left|].
  destruct (strptime s); [intros [= <-]; eauto | done].
Qed.

Lemma convert_dates_spec `{Platform} (cs : list string) (df df' : DataFrame) :
  NoDup cs ->
  convert_dates cs df = Ok df' ->
  nrows df' = nrows df
  /\ names df' = names df
  /\ forall col, col ∈ cs ->
       exists c c', lookup_col col (cols df) = Some c
                    /\ lookup_col col (cols df') = Some c'
                    /\ to_datetime c = Ok c'.
Proof.
  intros Hnd. revert df. induction Hnd as [|x cs Hx Hnd IH]; intros df.
  - unfold convert_dates. intros [= <-]. split; [done|]. split; [done|].
    intros col Hcol. by apply elem_of_nil in Hcol.
  - unfold convert_dates; fold convert_dates.
    destruct (getcol x df) as [c|] eqn:Ec; cbn [mbind result_bind]; [|done].
    destruct (to_datetime c) as [c'|] eqn:Et; cbn [mbind result_bind]; [|done].
    intros Hrest. apply getcol_Ok in Ec.
    destruct (IH _ Hrest) as (Hrows & Hnames & Hcols).
    split; [done|]. split.
    { rewrite Hnames. unfold names. cbn [cols setcol]. by eapply names_assign_col. }
    intros col [->|Hcol]%elem_of_cons.
    + exists c, c'. split; [done|]. split; [|done].
      rewrite (convert_dates_lookup_other _ _ _ _ Hrest Hx). cbn [cols setcol].
      apply lookup_assign_col_eq.
    + destruct (Hcols col Hcol) as (d & d' & Hd & Hd' & Hconv).
      exists d, d'. split; [|done].
      cbn [cols setcol] in Hd. rewrite lookup_assign_col_ne in Hd; [done|].
      intros ->. done.
Qed.

Lemma NoDup_date_columns : NoDup date_columns.
Proof.
  unfold date_columns. apply NoDup_cons. split.
  - intros [E|E]%elem_of_cons; [discriminate | by apply elem_of_nil in E].
  - apply NoDup_singleton.
Qed.

Lemma load_excel_try_Ok_inv `{Platform} fs p e f m :
  load_excel_try fs p = Ok (e, f, m) ->
  exists sheets E,
    read_path fs p = Some (Workbook sheets)
    /\ find_sheet "Entradas" sheets = Some E
    /\ find_sheet "Familias" sheets = Some f
    /\ convert_dates date_columns E = Ok e
    /\ merge_left e f "codigo" "CODIGO" = Ok m.
Proof.
  unfold load_excel_try, read_excel.
  destruct (read_path fs p) as [[|sheets]|]; cbn [mbind result_bind]; [done| |done].
  destruct (find_sheet "Entradas" sheets) as [E|] eqn:HE; cbn [mbind result_bind]; [|done].
  destruct (find_sheet "Familias" sheets) as [F|] eqn:HF; cbn [mbind result_bind]; [|done].
  destruct (convert_dates date_columns E) as [e'|] eqn:Hc;
    cbn [mbind result_bind]; [|done].
  destruct (merge_left e' F "codigo" "CODIGO") as [m'|] eqn:Hm;
    cbn [mbind result_bind]; [|done].
  intros [= <- <- <-]. by exists sheets, E.
Qed.

(** X3.  When the loader returns tables, the file is a workbook with both
    sheets; the Familias table is the sheet as read; the Entradas table
    has the rows and the column names of its sheet, its columns other than
    the two date columns are untouched, and each cell of a date column is
    the conversion of the cell of the sheet at the same row, so it holds a
    timestamp or a missing value and never text; and the joined table has
    at least the rows of Entradas. *)
Theorem load_excel_returns `{Platform} (fs : filesystem) (p : path)
    (e f m : DataFrame) :
  load_excel_try fs p = Ok (e, f, m) ->
  exists (sheets : list (string * DataFrame)) (E : DataFrame),
    read_path fs p = Some (Workbook sheets)
    /\ find_sheet "Entradas" sheets = Some E
    /\ find_sheet "Familias" sheets = Some f
    /\ nrows e = nrows E
    /\ names e = names E
    /\ (forall n, n ∉ date_columns -> lookup_col n (cols e) = lookup_col n (cols E))
    /\ (forall col, col ∈ date_columns ->
        exists c c', lookup_col col (cols E) = Some c
          /\ lookup_col col (cols e) = Some c'
          /\ length c' = length c
          /\ forall i, to_datetime_cell (cell_at c i) = Ok (cell_at c' i)
                       /\ (cell_at c' i = Null \/ exists d, cell_at c' i = Date d))
    /\ (nrows e <= nrows m)%nat.
Proof.
  intros (sheets & E & Hr & HE & HF & Hconv & Hmerge)%load_excel_try_Ok_inv.
  exists sheets, E. split; [done|]. split; [done|]. split; [done|].
  destruct (convert_dates_spec _ _ _ NoDup_date_columns Hconv) as (Hrows & Hnames & Hcols).
  split; [done|]. split; [done|]. split.
  { intros n Hn. by eapply convert_dates_lookup_other. }
  split.
  - intros col Hcol. destruct (Hcols col Hcol) as (c & c' & Hc & Hc' & Ht).
    exists c, c'. split; [done|]. split; [done|].
    destruct (to_datetime_cells c c' Ht) as [Hlen Hcell].
    split; [done|]. intros i. split; [done|].
    by eapply to_datetime_cell_kind.
  - apply merge_left_Ok_inv in Hmerge as (lk & rk & _ & _ & _ & ->).
    apply join_indexers_length_ge.
Qed.

Lemma load_excel_returns_witness :
  exists e f m,
    @load_excel_try exact_platform example_fs DataFile = Ok (e, f, m)
    /\ (nrows e <= nrows m)%nat.
Proof.
  edestruct (fun e f m => @load_excel_returns exact_platform example_fs DataFile e f m)
    as (sheets & E & _ & _ & _ & _ & _ & _ & _ & Hge).
  - vm_compute. reflexivity.
  - eexists _, _, _. split; [reflexivity | exact Hge].
Defined.

(** ** The month and the year *)

Lemma ends_with_app (suffix n : string) : ends_with suffix (n +:+ suffix) = true.
Proof.
  induction n as [|a n IH].
  - change ("" +:+ suffix) with suffix.
    destruct suffix; cbn [ends_with]; by rewrite String.eqb_refl.
  - change (String a n +:+ suffix) with (String a (n +:+ suffix)).
    cbn [ends_with]. rewrite IH. apply orb_true_r.
Qed.

Lemma lookup_col_renamed (suffix : string) (other : list string)
    (g : list cell -> list cell) (cs : list (string * list cell)) (t : string) :
  ends_with suffix t = false ->
  lookup_col t (map (fun p => (rename_overlap suffix other (fst p), g (snd p))) cs)
  = if bool_decide (t ∈ other) then None else g <$> lookup_col t cs.
Proof.
  intros Ht. induction cs as [|[n c] cs IH]; cbn [map lookup_col fst snd].
  - by case_bool_decide.
  - unfold rename_overlap at 1. destruct (bool_decide (n ∈ other)) eqn:En.
    + apply bool_decide_eq_true in En.
      destruct (String.eqb_spec (n +:+ suffix) t) as [E|_].
      { rewrite <- E, ends_with_app in Ht. done. }
      rewrite IH. case_bool_decide as Hin; [done|].
      destruct (String.eqb_spec n t) as [->|_]; done.
    + apply bool_decide_eq_false in En.
      destruct (String.eqb_spec n t) as [->|_]; [|done].
      by rewrite bool_decide_eq_false_2.
Qed.

Lemma take_left_kind idx (c : list cell) :
  (forall i, cell_at c i = Null \/ exists d, cell_at c i = Date d) ->
  forall x, x ∈ take_left idx c -> x = Null \/ exists d, x = Date d.
Proof.
  intros Hc x (p & -> & _)%list_elem_of_fmap. apply Hc.
Qed.

Lemma add_month_year_dates (df : DataFrame) (dates : list cell) :
  lookup_col "fecha_entrada_caja" (cols df) = Some dates ->
  (forall x, x ∈ dates -> x = Null \/ exists d, x = Date d) ->
  add_month_year df
  = Ok (setcol "año"
          (map (fun x => match x with
                         | Date d => Num (Q2Qc (inject_Z (d_year d)))
                         | _ => Null
                         end) dates)
          (setcol "mes"
             (map (fun x => match x with
                            | Date d => Str (strftime_ym d)
                            | _ => Null
                            end) dates)
             df)).
Proof.
  intros Hd Hkind. unfold add_month_year.
  rewrite (proj2 (getcol_Ok _ _ _) Hd). cbn [mbind result_bind].
  rewrite (mapM_Ok_map dt_strftime_cell
             (fun x => match x with Date d => Str (strftime_ym d) | _ => Null end)).
  2: { intros x Hx. destruct (Hkind x Hx) as [->|[d ->]]; done. }
  cbn [mbind result_bind].
  assert (Hd' : getcol "fecha_entrada_caja"
                  (setcol "mes"
                     (map (fun x => match x with
                                    | Date d => Str (strftime_ym d)
                                    | _ => Null
                                    end) dates) df) = Ok dates).
  { apply getcol_Ok. cbn [cols setcol]. by rewrite lookup_assign_col_ne. }
  rewrite Hd'. cbn [mbind result_bind].
  rewrite (mapM_Ok_map dt_year_cell
             (fun x => match x with
                       | Date d => Num (Q2Qc (inject_Z (d_year d)))
                       | _ => Null
                       end)).
  2: { intros x Hx. destruct (Hkind x Hx) as [->|[d ->]]; done. }
  done.
Qed.

(** X4.  After a load that returned tables, the two lines that add the
    month and the year raise exactly when the Familias sheet has a column
    named fecha_entrada_caja of its own: the join then renames the date
    column of Entradas and the script finds none of that name, a KeyError.
    Otherwise they succeed, keep the rows and every other column, and give
    each row the month and the year of its entry date, or missing values
    when the date is missing. *)
Theorem month_year_after_load `{Platform} (fs : filesystem) (p : path)
    (e f m : DataFrame) :
  load_excel_try fs p = Ok (e, f, m) ->
  ("fecha_entrada_caja" ∈ names f ->
   add_month_year m = Err (KeyError "fecha_entrada_caja"))
  /\ ("fecha_entrada_caja" ∉ names f ->
      exists (m' : DataFrame) (dates mes anio : list cell),
        add_month_year m = Ok m'
        /\ nrows m' = nrows m
        /\ (forall n, n ≠ "mes" -> n ≠ "año" ->
                      lookup_col n (cols m') = lookup_col n (cols m))
        /\ lookup_col "fecha_entrada_caja" (cols m) = Some dates
        /\ lookup_col "mes" (cols m') = Some mes
        /\ lookup_col "año" (cols m') = Some anio
        /\ forall i,
             match cell_at dates i with
             | Date d => cell_at mes i = Str (strftime_ym d)
                         /\ cell_at anio i = Num (Q2Qc (inject_Z (d_year d)))
             | _ => cell_at mes i = Null /\ cell_at anio i = Null
             end).
Proof.
  intros (sheets & E & _ & _ & _ & Hconv & Hmerge)%load_excel_try_Ok_inv.
  destruct (convert_dates_spec _ _ _ NoDup_date_columns Hconv) as (_ & _ & Hcols).
  destruct (Hcols "fecha_entrada_caja") as (c & c' & _ & Hc' & Ht); [left|].
  destruct (to_datetime_cells c c' Ht) as [_ Hcell].
  assert (Hkind : forall i, cell_at c' i = Null \/ exists d, cell_at c' i = Date d).
  { intros i. eapply to_datetime_cell_kind, Hcell. }
  apply merge_left_Ok_inv in Hmerge as (lk & rk & _ & _ & _ & ->).
  set (idx := join_indexers lk (nrows e) rk (nrows f)).
  assert (Hlook : lookup_col "fecha_entrada_caja"
            (map (fun p => (rename_overlap "_x" (names f) (fst p),
                            take_left idx (snd p))) (cols e)
             ++ map (fun p => (rename_overlap "_y" (names e) (fst p),
                               take_right idx (snd p))) (cols f))
          = if bool_decide ("fecha_entrada_caja" ∈ names f) then None
            else Some (take_left idx c')).
  { rewrite lookup_col_app, !lookup_col_renamed by reflexivity. rewrite Hc'.
    case_bool_decide; [|done].
    rewrite bool_decide_eq_true_2; [done|]. by eapply lookup_col_Some_name. }
  split.
  - intros Hin. rewrite bool_decide_eq_true_2 in Hlook by done.
    unfold add_month_year.
    by rewrite (getcol_missing "fecha_entrada_caja" (mkDF (length idx) _) Hlook).
  - intros Hnot. rewrite bool_decide_eq_false_2 in Hlook by done.
    pose proof (take_left_kind idx c' Hkind) as Hk.
    eexists _, (take_left idx c'), _, _.
    split; [by apply add_month_year_dates|].
    cbn [nrows cols setcol]. split; [done|]. split.
    { intros n Hn1 Hn2. by rewrite !lookup_assign_col_ne. }
    split; [done|]. split.
    { rewrite lookup_assign_col_ne by done. apply lookup_assign_col_eq. }
    split; [apply lookup_assign_col_eq|].
    intros i. unfold cell_at. rewrite !nth_lookup, !list_lookup_fmap.
    destruct (take_left idx c' !! i) as [x|] eqn:Ex; cbn; [|done].
    destruct (Hk x) as [->|[d ->]]; [by eapply list_elem_of_lookup_2 | done | done].
Qed.

Lemma month_year_after_load_witness :
  exists m m',
    snd <$> (match @load_excel_try exact_platform example_fs DataFile with
             | Ok r => Some r | Err _ => None end) = Some m
    /\ add_month_year m = Ok m'
    /\ nrows m' = nrows m.
Proof.
  edestruct (fun e f m => @month_year_after_load exact_platform example_fs DataFile e f m)
    as [_ Hok].
  - vm_compute. reflexivity.
  - destruct Hok as (m' & dates & mes & anio & Hm' & Hn & _).
    + vm_compute. intros Hin.
      repeat (apply elem_of_cons in Hin as [Hin|Hin]; [discriminate|]).
      by apply elem_of_nil in Hin.
    + eexists _, m'. split; [reflexivity|]. split; [exact Hm' | exact Hn].
Defined.

(** ** The uploaded files *)

Lemma ends_with_inv (suffix s : string) :
  ends_with suffix s = true -> exists stem, s = stem +:+ suffix.
Proof.
  induction s as [|a s IH]; cbn [ends_with].
  - rewrite orb_false_r. intros ->%String.eqb_eq. by exists "".
  - intros [->%String.eqb_eq|Hs]%orb_true_iff; [by exists ""|].
    destruct (IH Hs) as [stem ->]. by exists (String a stem).
Qed.

Lemma List_filter_NoDup {A} (f : A -> bool) (l : list A) :
  NoDup l -> NoDup (List.filter f l).
Proof. rewrite !NoDup_ListNoDup. apply List.NoDup_filter. Qed.

Lemma elem_of_previous_files (st : state) (f : string) :
  f ∈ previous_files st <->
  (exists stem, f = stem +:+ ".xlsx") /\ is_Some (uploaded_files (fs st) !! f).
Proof.
  unfold previous_files. rewrite list_elem_of_In, filter_In, <- list_elem_of_In.
  change (map fst ?l) with (fst <$> l). rewrite list_elem_of_fmap. split.
  - intros [([f' x] & -> & Hx%elem_of_map_to_list) Hs]. cbn in *.
    split; [by apply ends_with_inv | eauto].
  - intros [[stem ->] [x Hx]]. split.
    + exists (stem +:+ ".xlsx", x). split; [done|]. by apply elem_of_map_to_list.
    + apply ends_with_app.
Qed.

(** X5.  The files offered in the sidebar are exactly the files of the
    upload directory whose name ends in .xlsx, each offered once. *)
Theorem previous_files_listing (st : state) :
  NoDup (previous_files st)
  /\ forall f, f ∈ previous_files st <->
       (exists stem, f = stem +:+ ".xlsx")
       /\ is_Some (uploaded_files (fs st) !! f).
Proof.
  split; [|apply elem_of_previous_files].
  unfold previous_files. apply List_filter_NoDup.
  change (map fst ?l) with (fst <$> l). apply NoDup_fst_map_to_list.
Qed.

Lemma load_excel_cache_mono `{Platform} p st q r :
  cache st !! q = Some r -> cache (snd (load_excel p st)) !! q = Some r.
Proof.
  intros Hq. unfold load_excel. destruct (cache st !! p) eqn:Ep; cbn [snd cache]; [done|].
  rewrite lookup_insert_ne; [done|]. intros ->. congruence.
Qed.

Lemma upload_step_state `{Platform} w v st :
  can_write (snd (upload_step w v st)) = can_write st
  /\ fs (snd (upload_step w v st))
     = match uploaded_file w with
       | Some u =>
           if can_write st (up_name u)
           then write_at (fs st) (locate (fs st) (UploadedFile (up_name u)))
                         (up_content u)
           else fs st
       | None => fs st
       end
  /\ forall q r, cache st !! q = Some r ->
                 cache (snd (upload_step w v st)) !! q = Some r.
Proof.
  unfold upload_step. destruct (uploaded_file w) as [u|]; [|done].
  unfold save_uploaded_file. destruct (can_write st (up_name u)); [|done].
  match goal with |- context [load_excel ?p ?s] =>
    pose proof (load_excel_fs p s) as Hfs;
    pose proof (load_excel_can_write p s) as Hcw;
    pose proof (load_excel_cache_mono p s) as Hmono;
    destruct (load_excel p s) as [[t msgs] st'] end.
  cbn [fst snd fs can_write cache] in *. split; [done|]. split; [done|].
  intros q r Hq. by apply Hmono.
Qed.

Lemma previous_step_cache `{Platform} w v st q r :
  cache st !! q = Some r -> cache (snd (previous_step w v st)) !! q = Some r.
Proof.
  intros Hq. unfold previous_step. destruct (previous_files st); [done|].
  destruct (selectbox _ _) as [f|]; [|done].
  destruct (String.eqb f ""); [done|].
  pose proof (load_excel_cache_mono (UploadedFile f) st q r Hq) as Hm.
  by destruct (load_excel (UploadedFile f) st) as [[t msgs] st'].
Qed.

Lemma default_step_cache `{Platform} st q r :
  cache st !! q = Some r -> cache (snd (default_step st)) !! q = Some r.
Proof.
  intros Hq. unfold default_step. destruct (data_xlsx (fs st)); [|done].
  pose proof (load_excel_cache_mono DataFile st q r Hq) as Hm.
  by destruct (load_excel DataFile st) as [[t msgs] st'].
Qed.

Lemma analysis_final `{Platform} w v st : final (analysis w v st) = st.
Proof.
  unfold analysis. destruct (tables v) as [[[e|] [f|]] [m|]]; try done.
  destruct (add_month_year m); [|done]. by destruct (aggregate _ _).
Qed.

Lemma resolve_sources_state `{Platform} (w : widgets) (st : state) :
  fs (snd (resolve_sources w st))
  = match uploaded_file w with
    | Some u =>
        if can_write st (up_name u)
        then write_at (fs st) (locate (fs st) (UploadedFile (up_name u)))
                      (up_content u)
        else fs st
    | None => fs st
    end
  /\ forall q r, cache st !! q = Some r ->
                 cache (snd (resolve_sources w st)) !! q = Some r.
Proof.
  unfold resolve_sources.
  destruct (default_step_spec st) as (H0 & _ & F0 & W0).
  pose proof (default_step_cache st) as C0.
  destruct (default_step st) as [v0 st0]. cbn [fst snd] in *.
  destruct (previous_step_spec w v0 st0 H0) as (_ & _ & F1 & W1).
  pose proof (previous_step_cache w v0 st0) as C1.
  destruct (previous_step w v0 st0) as [v1 st1]. cbn [fst snd] in *.
  destruct (upload_step_state w v1 st1) as (_ & F2 & C2).
  destruct (upload_step w v1 st1) as [v2 st2]. cbn [fst snd] in *.
  split.
  - rewrite F2, W1, W0, F1, F0. done.
  - intros q r Hq. by apply C2, C1, C0.
Qed.

Lemma write_at_plain (fs : filesystem) (n : string) (f : file) :
  plain_name n = true ->
  write_at fs (locate fs (UploadedFile n)) f
  = mkFS (data_xlsx fs) (<[n := f]> (uploaded_files fs)) (other_files fs) (resolve fs).
Proof. intros Hn. by rewrite locate_plain. Qed.

(** X6.  What a run changes.  On the disk it writes the upload, when there
    is one and it can be written, at the place the path
    [UPLOAD_DIR / name] leads to, and nothing else: with a plain file name
    that is the file of that name in the upload directory, and the default
    file and every other file stay as they were; a name that leaves the
    directory can lead to the default file, which the run then
    overwrites.  The cache keeps every entry it had, so a result once
    cached is never replaced or dropped by a run. *)
Theorem run_effects `{Platform} (w : widgets) (st : state) :
  fs (final (main w st))
  = match uploaded_file w with
    | Some u =>
        if can_write st (up_name u)
        then write_at (fs st) (locate (fs st) (UploadedFile (up_name u)))
                      (up_content u)
        else fs st
    | None => fs st
    end
  /\ (forall u, uploaded_file w = Some u -> plain_name (up_name u) = true ->
        data_xlsx (fs (final (main w st))) = data_xlsx (fs st)
        /\ other_files (fs (final (main w st))) = other_files (fs st)
        /\ uploaded_files (fs (final (main w st)))
           = if can_write st (up_name u)
             then <[up_name u := up_content u]> (uploaded_files (fs st))
             else uploaded_files (fs st))
  /\ (forall u, uploaded_file w = Some u -> can_write st (up_name u) = true ->
        locate (fs st) (UploadedFile (up_name u)) = AtData ->
        data_xlsx (fs (final (main w st))) = Some (up_content u))
  /\ (forall p, match cache st !! p with
                | Some r => cache (final (main w st)) !! p = Some r
                | None => True
                end).
Proof.
  rewrite main_analysis, analysis_final.
  destruct (resolve_sources_state w st) as [Hfs Hcache]. rewrite Hfs.
  split; [done|]. split; [|split].
  - intros u -> Hn. destruct (can_write st (up_name u)); [|done].
    by rewrite write_at_plain.
  - intros u -> -> ->. done.
  - intros p. destruct (cache st !! p) as [r|] eqn:Ep; [|done]. by apply Hcache.
Qed.

Lemma run_effects_witness :
  data_xlsx
    (fs (final (@main exact_platform
                  (mkWidgets (Some (mkUpload "../data/data.xlsx" Malformed)) None
                             QualityByMonth false)
                  (mkState (mkFS (Some example_file) ∅ ∅ (fun _ => AtData))
                           (fun _ => true) ∅))))
  = Some Malformed.
Proof.
  destruct (@run_effects exact_platform
              (mkWidgets (Some (mkUpload "../data/data.xlsx" Malformed)) None
                         QualityByMonth false)
              (mkState (mkFS (Some example_file) ∅ ∅ (fun _ => AtData))
                       (fun _ => true) ∅))
    as (_ & _ & Hdata & _).
  apply (Hdata (mkUpload "../data/data.xlsx" Malformed)); reflexivity.
Defined.

(** X7.  An upload that can be written is on disk when the run ends, with
    the content that was uploaded, at the place its path leads to; when its
    name is a plain file name it is a file of the upload directory, and
    from then on the sidebar offers it exactly when the name ends in .xlsx
    in lower case.  An upload that cannot be written leaves the files as
    they were. *)
Theorem upload_is_saved `{Platform} (w : widgets) (st : state) (u : upload) :
  uploaded_file w = Some u ->
  (can_write st (up_name u) = true ->
   read_path (fs (final (main w st))) (UploadedFile (up_name u)) = Some (up_content u)
   /\ (plain_name (up_name u) = true ->
       uploaded_files (fs (final (main w st))) !! up_name u = Some (up_content u)
       /\ (up_name u ∈ previous_files (final (main w st)) <->
           exists stem, up_name u = stem +:+ ".xlsx")))
  /\ (can_write st (up_name u) = false -> fs (final (main w st)) = fs st).
Proof.
  intros Hu. rewrite main_analysis, analysis_final.
  destruct (resolve_sources_state w st) as [Hfs _]. rewrite Hu in Hfs.
  split; intros Hw; rewrite Hw in Hfs; [|done].
  split; [rewrite Hfs; apply read_path_write|].
  intros Hn. rewrite write_at_plain in Hfs by done.
  assert (Hread : uploaded_files (fs (snd (resolve_sources w st))) !! up_name u
                  = Some (up_content u)).
  { rewrite Hfs. apply lookup_insert_eq. }
  split; [done|]. rewrite elem_of_previous_files, Hread.
  split; [by intros [Hs _] | intros Hs; split; [done | eauto]].
Qed.

Lemma upload_is_saved_witness :
  read_path
    (fs (final (@main exact_platform
                  (mkWidgets (Some (mkUpload "nuevo.xlsx" Malformed)) None
                             QualityByMonth false) example_state)))
    (UploadedFile "nuevo.xlsx") = Some Malformed.
Proof.
  edestruct (@upload_is_saved exact_platform
               (mkWidgets (Some (mkUpload "nuevo.xlsx" Malformed)) None
                          QualityByMonth false) example_state)
    as [Hok _]; [reflexivity|].
  destruct Hok as [Hread _]; [reflexivity | exact Hread].
Defined.

(** X8.  An upload whose path was loaded before is answered from the
    cache: the new file is written to disk, where its path leads (in the
    upload directory under its name, when the name is a plain file name),
    but the tables of the run are those cached for that path, whatever
    the uploaded file contains. *)
Theorem upload_answered_from_cache `{Platform} (w : widgets) (st : state)
    (u : upload) (r : loaded * list ui) :
  uploaded_file w = Some u ->
  can_write st (up_name u) = true ->
  cache st !! UploadedFile (up_name u) = Some r ->
  tables (fst (resolve_sources w st)) = fst r
  /\ read_path (fs (snd (resolve_sources w st))) (UploadedFile (up_name u))
     = Some (up_content u)
  /\ (plain_name (up_name u) = true ->
      uploaded_files (fs (snd (resolve_sources w st))) !! up_name u
      = Some (up_content u)).
Proof.
  intros Hu Hw Hc. destruct r as [t msgs].
  destruct (resolve_sources_state w st) as [Hfs _]. rewrite Hu, Hw in Hfs.
  split; [|split].
  2: { rewrite Hfs. apply read_path_write. }
  2: { intros Hn. rewrite Hfs, write_at_plain by done. apply lookup_insert_eq. }
  unfold resolve_sources.
  destruct (default_step_spec st) as (H0 & _ & F0 & W0).
  pose proof (default_step_cache st _ _ Hc) as C0.
  destruct (default_step st) as [v0 st0]. cbn [fst snd] in *.
  destruct (previous_step_spec w v0 st0 H0) as (_ & _ & F1 & W1).
  pose proof (previous_step_cache w v0 st0 _ _ C0) as C1.
  destruct (previous_step w v0 st0) as [v1 st1]. cbn [fst snd] in *.
  unfold upload_step, save_uploaded_file. rewrite Hu, W1, W0, Hw.
  unfold load_excel. cbn [cache]. rewrite C1. done.
Qed.

Lemma upload_answered_from_cache_witness :
  let st := mkState (disk None {[ "a.xlsx" := Malformed ]}) (fun _ => true)
                    {[ UploadedFile "a.xlsx" := (no_tables, []) ]} in
  let w := mkWidgets (Some (mkUpload "a.xlsx" example_file)) None
                     QualityByMonth false in
  tables (fst (@resolve_sources exact_platform w st)) = no_tables.
Proof.
  intros st w.
  destruct (@upload_answered_from_cache exact_platform w st
              (mkUpload "a.xlsx" example_file) (no_tables, []))
    as [Ht _]; [reflexivity | reflexivity | reflexivity | exact Ht].
Defined.

Lemma resolve_sources_paths `{Platform} (w : widgets) (st : state) :
  map fst (loads (fst (resolve_sources w st)))
  = match data_xlsx (fs st) with Some _ => [DataFile] | None => [] end
    ++ match selectbox (previous_files st) (selection w) with
       | Some f => [UploadedFile f]
       | None => []
       end
    ++ match uploaded_file w with
       | Some u => if can_write st (up_name u)
                   then [UploadedFile (up_name u)] else []
       | None => []
       end.
Proof.
  unfold resolve_sources.
  destruct (default_step_spec st) as (H0 & L0 & F0 & W0).
  destruct (default_step st) as [v0 st0]. cbn [fst snd] in *.
  destruct (previous_step_spec w v0 st0 H0) as (H1 & L1 & F1 & W1).
  destruct (previous_step w v0 st0) as [v1 st1]. cbn [fst snd] in *.
  destruct (upload_step_spec w v1 st1 H1) as (_ & L2 & _).
  destruct (upload_step w v1 st1) as [v2 st2]. cbn [fst snd] in *.
  rewrite L2, L1, L0, W1, W0. unfold previous_files. rewrite F0.
  by rewrite <- app_assoc.
Qed.

Lemma read_path_listed (fs : filesystem) (f : string) :
  is_Some (uploaded_files fs !! f) -> is_Some (read_path fs (UploadedFile f)).
Proof.
  intros Hf. unfold read_path. cbn [locate].
  rewrite (bool_decide_eq_true_2 _ Hf), orb_true_r. done.
Qed.

(** X9.  Every path the run hands to the loader is a file that exists
    when the run ends: the default file is loaded only when it is there,
    the select box only offers files of the upload directory, and an upload
    is loaded only after it was written.  The loader of a run never meets a
    missing file. *)
Theorem loaded_paths_exist `{Platform} (w : widgets) (st : state) (p : path) :
  p ∈ map fst (loads (fst (resolve_sources w st))) ->
  is_Some (read_path (fs (snd (resolve_sources w st))) p).
Proof.
  rewrite resolve_sources_paths.
  destruct (resolve_sources_state w st) as [Hfs _].
  assert (Hkeep : forall q, is_Some (read_path (fs st) q) ->
                            is_Some (read_path (fs (snd (resolve_sources w st))) q)).
  { intros q Hq. rewrite Hfs. destruct (uploaded_file w) as [u|]; [|done].
    destruct (can_write st (up_name u)); [|done]. by apply read_path_keep. }
  intros [Hp|[Hp|Hp]%elem_of_app]%elem_of_app.
  - destruct (data_xlsx (fs st)) eqn:Ed; [|by apply elem_of_nil in Hp].
    apply list_elem_of_singleton in Hp as ->. apply Hkeep.
    unfold read_path. cbn. by rewrite Ed.
  - destruct (selectbox _ _) as [f|] eqn:Es; [|by apply elem_of_nil in Hp].
    apply list_elem_of_singleton in Hp as ->. apply Hkeep.
    apply selectbox_elem, elem_of_previous_files in Es as [_ Hf].
    by apply read_path_listed.
  - destruct (uploaded_file w) as [u|]; [|by apply elem_of_nil in Hp].
    destruct (can_write st (up_name u)); [|by apply elem_of_nil in Hp].
    apply list_elem_of_singleton in Hp as ->. rewrite Hfs.
    rewrite read_path_write. eauto.
Qed.

Lemma loaded_paths_exist_witness :
  is_Some (read_path (fs (snd (@resolve_sources exact_platform idle_widgets broken_state)))
                     (UploadedFile "roto.xlsx")).
Proof.
  apply (@loaded_paths_exist exact_platform idle_widgets broken_state).
  vm_compute. right. left.
Defined.

(** X10.  With no default file, no .xlsx file uploaded earlier and no
    upload, the run loads nothing: it shows the warning of the sidebar and
    the invitation to upload a file, draws no chart, raises nothing and
    leaves the state as it was. *)
Theorem run_without_sources `{Platform} (w : widgets) (st : state) :
  data_xlsx (fs st) = None ->
  previous_files st = [] ->
  uploaded_file w = None ->
  main w st
  = mkRun [Shown (SidebarWarning "No se encontró el archivo por defecto en la carpeta data");
           Shown (StInfo "Por favor, suba un archivo Excel para comenzar el análisis.")]
          None st.
Proof.
  intros Hd Hp Hu.
  unfold main, resolve_sources, default_step, previous_step, upload_step.
  by rewrite Hd, Hp, Hu.
Qed.

Lemma run_without_sources_witness :
  raised (@main exact_platform idle_widgets (mkState (disk None ∅) (fun _ => true) ∅))
  = None.
Proof.
  rewrite (@run_without_sources exact_platform idle_widgets
             (mkState (disk None ∅) (fun _ => true) ∅));
    reflexivity.
Defined.

(** ** The dates the format can give *)

Lemma ascii_digit_range x v : ascii_digit x = Some v -> 0 <= v <= 9.
Proof.
  unfold ascii_digit.
  destruct (_ && _) eqn:E; [|done]. intros [= <-].
  apply andb_true_iff in E as [E1 E2]. lia.
Qed.

Lemma digit_of_range `{Platform} x v : digit_of x = Some v -> 0 <= v <= 9.
Proof.
  unfold digit_of. destruct (x <? 128); [apply ascii_digit_range|].
  destruct (unicode_decimal x) as [u|]; [|done].
  destruct (_ && _) eqn:E; [|done]. intros [= <-].
  apply andb_true_iff in E as [E1 E2]. lia.
Qed.

Lemma match_d_range `{Platform} s d : match_d s = Some d -> 1 <= d <= 31.
Proof.
  unfold match_d. destruct (code_points s) as [|a [|b [|? ?]]]; [done| | |done].
  - destruct (ascii_digit a) as [x|] eqn:Ea; [|done].
    apply ascii_digit_range in Ea. destruct (1 <=? x) eqn:E; [|done].
    intros [= <-]. lia.
  - destruct (ascii_digit b) as [y|] eqn:Eb; [apply ascii_digit_range in Eb|];
      (destruct (digit_of b) as [z|] eqn:Ez; [apply digit_of_range in Ez|]);
      destruct (ascii_digit a) as [[|[[|[]|]|[|[]|]|]|]|];
      try done; try (intros [= <-]; lia).
    all: match goal with
         | |- (if ?c then _ else _) = _ -> _ => destruct c eqn:E; [|done]
         end.
    all: intros [= <-]; try apply andb_true_iff in E as [_ E]; lia.
Qed.

Lemma match_m_range s m : match_m s = Some m -> 1 <= m <= 12.
Proof.
  unfold match_m. destruct (code_points s) as [|a [|b [|? ?]]]; [done| | |done].
  - destruct (ascii_digit a) as [x|] eqn:Ea; [|done].
    apply ascii_digit_range in Ea. destruct (1 <=? x) eqn:E; [|done].
    intros [= <-]. lia.
  - destruct (ascii_digit a) as [x|] eqn:Ea, (ascii_digit b) as [y|] eqn:Eb; try done.
    apply ascii_digit_range in Ea, Eb.
    match goal with |- context [if ?c then _ else _] => destruct c eqn:E end; [|done].
    intros [= <-].
    apply orb_true_iff in E as [E|E]; apply andb_true_iff in E as [E1 E2]; lia.
Qed.

Lemma match_y_range `{Platform} s y : match_y s = Some y -> 1969 <= y <= 2068.
Proof.
  unfold match_y. destruct (code_points s) as [|a [|b [|? ?]]]; try done.
  destruct (digit_of a) as [x|] eqn:Ea, (digit_of b) as [z|] eqn:Eb; try done.
  apply digit_of_range in Ea, Eb. intros [= <-].
  destruct (10 * x + z <=? 68) eqn:E; lia.
Qed.

(** X11.  A date read with the format is a day of the calendar between
    1969 and 2068, whatever the script of its digits: the month is 1 to 12,
    the day is 1 to the length of that month, and a two-digit year never
    leaves that century span. *)
Theorem strptime_calendar `{Platform} (s : string) (d : date) :
  strptime s = Some d ->
  1969 <= d_year d <= 2068
  /\ 1 <= d_month d <= 12
  /\ 1 <= d_day d <= days_in_month (d_year d) (d_month d)
  /\ d_day d <= 31.
Proof.
  unfold strptime.
  destruct (split_slash s) as [|ds [|ms [|ys [|? ?]]]]; try done.
  destruct (match_d ds) as [dd|] eqn:Ed; [|done].
  destruct (match_m ms) as [mm|] eqn:Em; [|done].
  destruct (match_y ys) as [yy|] eqn:Ey; [|done].
  destruct (dd <=? days_in_month yy mm) eqn:E; [|done].
  intros [= <-]. cbn [d_year d_month d_day].
  apply match_d_range in Ed. apply match_m_range in Em. apply match_y_range in Ey.
  lia.
Qed.

Lemma strptime_calendar_witness :
  1969 <= 2024 <= 2068 /\ 1 <= 3 <= 12 /\ 1 <= 15 <= days_in_month 2024 3 /\ 15 <= 31.
Proof.
  exact (@strptime_calendar exact_platform "1٥/03/2٤" (mkDate 2024 3 15) eq_refl).
Defined.

(** ** The charts *)

(** X12.  The three proportion charts and the box plot are computed exactly
    when the joined table has the columns the mode reads; with one of them
    missing the mode raises, and with all of them present it cannot. *)
Theorem counting_modes_need_columns `{Platform} (df : DataFrame) (m : mode) :
  m ∈ counting_modes ->
  (exists fig, aggregate df m = Ok fig) <->
  (forall n, n ∈ required_columns m -> is_Some (lookup_col n (cols df))).
Proof.
  intros Hm. split.
  - intros [fig Hfig] n Hn.
    destruct (lookup_col n (cols df)) eqn:E; [eauto|].
    destruct (aggregate_missing_column df m n Hn E) as (c' & _ & [He|He]); congruence.
  - intros Hall. unfold counting_modes in Hm.
    repeat (apply elem_of_cons in Hm as [->|Hm]);
      [ | | | | by apply elem_of_nil in Hm]; cbn [required_columns] in Hall.
    all: unfold aggregate, quality_proportions, box_data, getcol.
    all: repeat match goal with
         | |- context [lookup_col ?n (cols ?d)] =>
             let Hc := fresh "Hc" in
             destruct (Hall n) as [? Hc]; [set_solver|]; rewrite Hc
         end.
    all: cbn [mbind result_bind]; eauto.
Qed.

Lemma counting_modes_need_columns_witness :
  exists fig, @aggregate exact_platform example_merged ValuesByQuality = Ok fig.
Proof.
  apply (@counting_modes_need_columns exact_platform example_merged ValuesByQuality).
  - right. right. left.
  - intros n Hn. cbn [required_columns] in Hn.
    repeat (apply elem_of_cons in Hn as [->|Hn]); [| | by apply elem_of_nil in Hn];
      vm_compute; eauto.
Defined.

Lemma fl_zero `{Platform} (x : Q) : (x == 0)%Q -> (fl x == 0)%Q.
Proof.
  intros Hx. pose proof (fl_error x) as He.
  assert (E : (Qabs x == 0)%Q) by (rewrite Hx; reflexivity).
  rewrite E, Qmult_0_r in He.
  apply Qabs_Qle_condition in He as [H1 H2]. lra.
Qed.

Lemma fl_unit_range `{Platform} (x : Q) :
  (0 <= x <= 1)%Q -> (0 <= fl x <= 1 + eps)%Q.
Proof.
  intros [H0 H1]. pose proof (fl_error x) as He.
  rewrite (Qabs_pos x) in He by done.
  apply Qabs_Qle_condition in He as [Hlo Hhi].
  assert (Heps : (0 <= eps)%Q) by discriminate.
  assert (Hx : (eps * x <= eps)%Q).
  { rewrite <- (Qmult_1_r eps) at 2. apply Qmult_le_l with (z := eps) in H1 as H1';
      [exact H1' | reflexivity]. }
  assert (Hx' : (eps * x <= x)%Q).
  { rewrite <- (Qmult_1_l x) at 2. apply Qmult_le_compat_r; [|done].
    unfold eps, Qle. cbn. lia. }
  split; lra.
Qed.

Lemma group_size_pos (keys : list (cell * cell)) r c :
  (0 < group_size keys r c)%nat <-> (r, c) ∈ keys.
Proof.
  unfold group_size. split.
  - intros Hpos. destruct (filter (fun k => k = (r, c)) keys) as [|k ks] eqn:E;
      [cbn in Hpos; lia|].
    assert (Hk : k ∈ filter (fun k => k = (r, c)) keys) by (rewrite E; left).
    apply list_elem_of_filter in Hk as [-> Hk]. done.
  - intros Hin.
    assert (Hk : (r, c) ∈ filter (fun k => k = (r, c)) keys)
      by by apply list_elem_of_filter.
    destruct (filter (fun k => k = (r, c)) keys); [by apply elem_of_nil in Hk|].
    cbn. lia.
Qed.

Lemma group_size_le (keys : list (cell * cell)) r c :
  (group_size keys r c <= length (filter (fun k => fst k = r) keys))%nat.
Proof.
  unfold group_size. induction keys as [|k keys IH]; [done|].
  rewrite !filter_cons. destruct (decide (k = (r, c))) as [->|Hne].
  - rewrite decide_True by done. cbn. lia.
  - destruct (decide (fst k = r)); cbn; lia.
Qed.

Lemma pivot_columns `{Platform} (keys : list (cell * cell)) :
  pv_columns (div_row_sums (size_unstack keys)) = sort_labels (map snd keys).
Proof. reflexivity. Qed.

(** X13.  In a proportion chart the columns are the CALIDAD values that
    occur in a grouped row, each once.  Every cell is a finite number
    between 0 and 1 (up to the rounding of the division), and it is above 0
    exactly when some row of the joined table has that key together with
    that CALIDAD: the zeros are the pairs that never occur. *)
Theorem proportion_cells `{Platform} (df : DataFrame) (m : mode)
    (key : string) (ka kb : list cell) :
  (m, key) ∈ proportion_modes ->
  getcol key df = Ok ka ->
  getcol "CALIDAD" df = Ok kb ->
  exists pv : pivot fval,
    aggregate df m = Ok (BarProportions pv)
    /\ NoDup (pv_columns pv)
    /\ (forall c, c ∈ pv_columns pv <->
          c ≠ Null
          /\ exists i, (i < nrows df)%nat /\ cell_at ka i ≠ Null /\ cell_at kb i = c)
    /\ (forall r vals, (r, vals) ∈ pv_rows pv ->
        forall k c, pv_columns pv !! k = Some c ->
          exists q : Q,
            vals !! k = Some (Fin q)
            /\ (0 <= q <= 1 + eps)%Q
            /\ ((0 < q)%Q <->
                exists i, (i < nrows df)%nat /\ cell_at ka i = r /\ cell_at kb i = c)).
Proof.
  intros Hm Ha Hb. eexists. split; [by eapply aggregate_proportions|].
  set (keys := group_keys (nrows df) ka kb).
  rewrite pivot_columns.
  split; [apply NoDup_sort_labels|]. split.
  { intros c. rewrite elem_of_sort_labels, list_elem_of_fmap. split.
    - intros ([a b] & -> & (i & Hi & Ha' & Hb' & Hna & Hnb)%elem_of_group_keys).
      cbn. split; [done|]. exists i. by rewrite Ha'.
    - intros (Hc & i & Hi & Hka & Hkb). exists (cell_at ka i, c). split; [done|].
      apply elem_of_group_keys. by exists i. }
  intros r vals Hrow k c Hk.
  assert (Hr : r ≠ Null).
  { assert (Hlab : r ∈ map fst (pv_rows (div_row_sums (size_unstack keys))))
      by (apply list_elem_of_fmap; by exists (r, vals)).
    by apply elem_of_pivot_labels in Hlab as [Hr _]. }
  assert (Hc : c ≠ Null).
  { apply list_elem_of_lookup_2, elem_of_sort_labels, list_elem_of_fmap in Hk
      as ([a b] & -> & (i & _ & _ & _ & _ & Hnb)%elem_of_group_keys). done. }
  apply pivot_row_spec in Hrow as (_ & Hpos & ->).
  set (s := sum_nat (map (group_size keys r) (sort_labels (map snd keys)))) in *.
  set (g := group_size keys r c).
  exists (fl (inject_Z (Z.of_nat g) / inject_Z (Z.of_nat s))). split.
  { change (map ?f ?l) with (f <$> l).
    rewrite !list_lookup_fmap, Hk. cbn. f_equal. by apply true_div_pos. }
  assert (Hs : (0 < inject_Z (Z.of_nat s))%Q).
  { change 0%Q with (inject_Z 0). rewrite <- Zlt_Qlt. lia. }
  assert (Hgs : (g <= s)%nat).
  { unfold g, s. rewrite sum_group_sizes.
    - apply group_size_le.
    - apply NoDup_sort_labels.
    - intros k' Hk'. apply elem_of_sort_labels, list_elem_of_fmap. eauto. }
  assert (Hpair : (0 < g)%nat <->
            exists i, (i < nrows df)%nat /\ cell_at ka i = r /\ cell_at kb i = c).
  { unfold g. rewrite group_size_pos. unfold keys. rewrite elem_of_group_keys.
    split; [intros (i & ? & ? & ? & _); eauto | intros (i & ? & ? & ?); eauto 10]. }
  split.
  - apply fl_unit_range. split.
    + apply Qle_shift_div_l; [done|]. rewrite Qmult_0_l.
      change 0%Q with (inject_Z 0). rewrite <- Zle_Qle. lia.
    + apply Qle_shift_div_r; [done|]. rewrite Qmult_1_l, <- Zle_Qle. lia.
  - rewrite <- Hpair. split.
    + intros Hq. destruct (decide (g = 0)%nat) as [E|]; [|lia].
      rewrite E in Hq. change (inject_Z (Z.of_nat 0)) with 0%Q in Hq.
      rewrite fl_zero in Hq by (unfold Qdiv; ring). by apply Qlt_irrefl in Hq.
    + intros Hg. apply fl_pos, Qlt_shift_div_l; [done|]. rewrite Qmult_0_l.
      change 0%Q with (inject_Z 0). rewrite <- Zlt_Qlt. lia.
Qed.

Lemma proportion_cells_witness :
  exists pv : pivot fval,
    @aggregate exact_platform example_merged QualityByOrigin = Ok (BarProportions pv)
    /\ NoDup (pv_columns pv).
Proof.
  destruct (@proportion_cells exact_platform example_merged QualityByOrigin "ORIGEN"
              [Str "Norte"; Str "Sur"; Null] [Str "Alta"; Str "Baja"; Null])
    as (pv & Hpv & Hnd & _).
  - right. left.
  - reflexivity.
  - reflexivity.
  - exists pv. split; [exact Hpv | exact Hnd].
Defined.

(** ** The order of the rows *)

Lemma cell_leb_total (a b : cell) : cell_leb a b = true \/ cell_leb b a = true.
Proof.
  destruct a as [|s|p|d], b as [|t|q|e]; cbn; try (by left); try (by right).
  - apply String.leb_total.
  - rewrite !Qle_bool_iff. destruct (Qlt_le_dec (this p) (this q)) as [Hlt|Hle].
    + left. by apply Qlt_le_weak.
    + by right.
  - unfold date_leb. destruct d as [y m dd], e as [y' m' dd']. cbn.
    destruct (Z.ltb_spec y y'), (Z.ltb_spec y' y), (Z.eqb_spec y y'),
      (Z.eqb_spec y' y), (Z.ltb_spec m m'), (Z.ltb_spec m' m),
      (Z.eqb_spec m m'), (Z.eqb_spec m' m), (Z.leb_spec dd dd'),
      (Z.leb_spec dd' dd); cbn; auto; lia.
Qed.

Lemma cell_leb_Total : Total (fun a b : cell => cell_leb a b).
Proof.
  intros a b. destruct (cell_leb_total a b) as [E|E]; rewrite E; [by left | by right].
Qed.

Lemma Sorted_sort_labels (l : list cell) :
  Sorted (fun a b : cell => cell_leb a b) (sort_labels l).
Proof.
  unfold sort_labels. apply (@Sorted_merge_sort _ _ _ cell_leb_Total).
Qed.

Lemma month_order_agrees_true : month_order_agrees = true.
Proof. vm_compute. reflexivity. Qed.

Lemma elem_of_format_months (y m : Z) :
  1969 <= y <= 2068 -> 1 <= m <= 12 -> (y, m) ∈ format_months.
Proof.
  intros Hy Hm. unfold format_months. apply list_elem_of_In, in_flat_map.
  exists y. split.
  - apply list_elem_of_In, elem_of_seqZ. lia.
  - apply list_elem_of_In, list_elem_of_fmap. exists m. split; [done|].
    apply elem_of_seqZ. lia.
Qed.

Lemma month_labels_ordered (a b : Z * Z) :
  a ∈ format_months -> b ∈ format_months ->
  String.leb (month_label a) (month_label b) = month_leb a b.
Proof.
  intros Ha Hb. pose proof month_order_agrees_true as Hall.
  unfold month_order_agrees in Hall. cbv zeta in Hall.
  rewrite forallb_forall in Hall.
  assert (Hin : forall c, c ∈ format_months ->
            In (c, month_label c) (map (fun a => (a, month_label a)) format_months)).
  { intros c Hc. apply in_map_iff. exists c. split; [done|]. by apply list_elem_of_In. }
  specialize (Hall (a, month_label a) (Hin a Ha)).
  rewrite forallb_forall in Hall.
  specialize (Hall (b, month_label b) (Hin b Hb)). cbn [fst snd] in Hall.
  by apply Bool.eqb_prop.
Qed.

(** X14.  The rows of Value by month come sorted by their month label, and
    for the months a date of the format can fall in, January 1969 to
    December 2068, the order of the labels is the order of the months: the
    two series run in chronological order. *)
Theorem months_in_order `{Platform} (df : DataFrame) (km v : list cell) :
  getcol "mes" df = Ok km ->
  getcol "valor" df = Ok v ->
  (forall i, (i < nrows df)%nat -> cell_at km i ≠ Null ->
             cell_at v i = Null \/ exists q, cell_at v i = Num q) ->
  exists rows : list (cell * fval * Qc),
    aggregate df ValueByMonth = Ok (LineAndBars rows)
    /\ Sorted (fun a b : cell => cell_leb a b) (map (fun r => fst (fst r)) rows)
    /\ forall y1 m1 y2 m2 : Z,
         1969 <= y1 <= 2068 -> 1 <= m1 <= 12 ->
         1969 <= y2 <= 2068 -> 1 <= m2 <= 12 ->
         (cell_leb (Str (strftime_ym (mkDate y1 m1 1)))
                   (Str (strftime_ym (mkDate y2 m2 1))) = true
          <-> y1 < y2 \/ (y1 = y2 /\ m1 <= m2)).
Proof.
  intros Hkm Hv Hnum. eexists. split.
  { unfold aggregate. rewrite (value_by_month_spec df km v) by done. reflexivity. }
  split.
  - rewrite map_map. cbn. rewrite map_id. apply Sorted_sort_labels.
  - intros y1 m1 y2 m2 Hy1 Hm1 Hy2 Hm2. cbn [cell_leb].
    change (strftime_ym (mkDate y1 m1 1)) with (month_label (y1, m1)).
    change (strftime_ym (mkDate y2 m2 1)) with (month_label (y2, m2)).
    rewrite month_labels_ordered by by apply elem_of_format_months.
    unfold month_leb. cbn [fst snd].
    rewrite orb_true_iff, andb_true_iff, Z.ltb_lt, Z.eqb_eq, Z.leb_le. done.
Qed.

Lemma months_in_order_witness :
  exists rows : list (cell * fval * Qc),
    @aggregate exact_platform example_merged ValueByMonth = Ok (LineAndBars rows)
    /\ Sorted (fun a b : cell => cell_leb a b) (map (fun r => fst (fst r)) rows).
Proof.
  destruct (@months_in_order exact_platform example_merged
              [Str "2024-01"; Str "2024-01"; Str "2024-03"]
              [Num (qc 100); Num (qc 200); Num (qc 50)])
    as (rows & Hrows & Hsorted & _).
  - reflexivity.
  - reflexivity.
  - intros i Hi _. assert (Hn : nrows example_merged = 3%nat) by reflexivity.
    rewrite Hn in Hi. right.
    destruct i as [|[|[|i]]]; [by eexists | by eexists | by eexists | lia].
  - exists rows. split; [exact Hrows | exact Hsorted].
Defined.

(** ** The average by origin and quality *)

Lemma elem_of_sort_pairs (l : list (cell * cell)) x : x ∈ sort_pairs l <-> x ∈ l.
Proof.
  unfold sort_pairs. rewrite merge_sort_Permutation. apply elem_of_remove_dups.
Qed.

Lemma NoDup_sort_pairs (l : list (cell * cell)) : NoDup (sort_pairs l).
Proof.
  unfold sort_pairs. rewrite merge_sort_Permutation. apply NoDup_remove_dups.
Qed.

Lemma elem_of_group_rows n ka kb i :
  i ∈ group_rows n ka kb <->
  (i < n)%nat /\ cell_at ka i ≠ Null /\ cell_at kb i ≠ Null.
Proof.
  unfold group_rows. rewrite list_elem_of_filter, elem_of_seq, andb_true_iff.
  destruct (cell_at ka i), (cell_at kb i); cbn; intuition (lia || congruence).
Qed.

Lemma pair_rows_values (n : nat) (ka kb v : list cell) (k : cell * cell) :
  fst k ≠ Null -> snd k ≠ Null ->
  flat_map (fun i => match cell_at v i with Num q => [q] | _ => [] end)
           (filter (fun i => (cell_at ka i, cell_at kb i) = k) (group_rows n ka kb))
  = pair_values n ka kb v k.
Proof.
  intros Ha Hb. unfold group_rows, pair_values.
  rewrite filter_filter_strong.
  - apply flat_map_filter.
  - intros i <-. cbn in Ha, Hb. apply andb_true_iff.
    split; [destruct (cell_at ka i) | destruct (cell_at kb i)]; done.
Qed.

Lemma avg_value_spec `{Platform} (df : DataFrame) (ka kb v : list cell) :
  getcol "ORIGEN" df = Ok ka ->
  getcol "CALIDAD" df = Ok kb ->
  getcol "valor" df = Ok v ->
  (forall i, (i < nrows df)%nat -> cell_at ka i ≠ Null -> cell_at kb i ≠ Null ->
             cell_at v i = Null \/ exists q, cell_at v i = Num q) ->
  avg_value df
  = Ok (map (fun k => (fst k, snd k,
                       group_mean (column_dtype v) (pair_values (nrows df) ka kb v k)))
            (sort_pairs (group_keys (nrows df) ka kb))).
Proof.
  intros Ha Hb Hv Hnum. unfold avg_value. rewrite Ha, Hb, Hv. cbn [mbind result_bind].
  apply mapM_Ok_map. intros [a b] Hk. rewrite elem_of_sort_pairs in Hk.
  apply elem_of_group_keys in Hk as (i0 & _ & _ & _ & Hna & Hnb).
  rewrite numeric_values_Ok.
  - cbn [mbind result_bind]. by rewrite pair_rows_values.
  - intros i [_ (Hi & Hka & Hkb)%elem_of_group_rows]%list_elem_of_filter.
    by apply Hnum.
Qed.

(** X15.  The average by origin and quality has one bar for every pair of
    ORIGEN and CALIDAD that some row carries, both present, and for no
    other pair; the bar is the mean of the valor numbers of the rows with
    that pair, taken in binary64, and NaN when none of them has a valor.
    When valor is a column of numbers and those values are whole numbers
    whose sizes add up to 2^53 at most, the mean is their sum over their
    count, rounded once: within one rounding of the quotient, and the
    quotient itself when it is a whole number. *)
Theorem average_by_origin_and_quality `{Platform} (df : DataFrame)
    (ka kb v : list cell) :
  getcol "ORIGEN" df = Ok ka ->
  getcol "CALIDAD" df = Ok kb ->
  getcol "valor" df = Ok v ->
  (forall i, (i < nrows df)%nat -> cell_at ka i ≠ Null -> cell_at kb i ≠ Null ->
             cell_at v i = Null \/ exists q, cell_at v i = Num q) ->
  exists rows : list (cell * cell * fval),
    aggregate df AvgValueByOriginQuality = Ok (BarMeans rows)
    /\ NoDup (map fst rows)
    /\ (forall a b, (a, b) ∈ map fst rows <->
          a ≠ Null /\ b ≠ Null
          /\ exists i, (i < nrows df)%nat /\ cell_at ka i = a /\ cell_at kb i = b)
    /\ (forall a b mean, (a, b, mean) ∈ rows ->
          let vs := pair_values (nrows df) ka kb v (a, b) in
          let exact_sum := Zsum (numerators vs) in
          let exact_mean := (inject_Z exact_sum / inject_Z (Z.of_nat (length vs)))%Q in
          mean = group_mean (column_dtype v) vs
          /\ (vs = [] -> mean = NaN)
          /\ (column_dtype v ≠ Object -> exact_on_integers ->
              small_integers vs -> vs ≠ [] ->
              exists q : Q,
                mean = Fin q
                /\ (Qabs (q - exact_mean) <= eps * Qabs exact_mean)%Q
                /\ forall z : Z, exact_sum = z * Z.of_nat (length vs) ->
                                 (q == inject_Z z)%Q)).
Proof.
  intros Ha Hb Hv Hnum. eexists. split.
  { unfold aggregate. rewrite (avg_value_spec df ka kb v) by done. reflexivity. }
  assert (Hfst : map fst
            (map (fun k : cell * cell =>
                    (fst k, snd k,
                     group_mean (column_dtype v) (pair_values (nrows df) ka kb v k)))
                 (sort_pairs (group_keys (nrows df) ka kb)))
          = sort_pairs (group_keys (nrows df) ka kb)).
  { rewrite map_map. cbn. erewrite map_ext; [apply map_id|]. by intros []. }
  rewrite Hfst. split; [apply NoDup_sort_pairs|]. split.
  - intros a b. rewrite elem_of_sort_pairs, elem_of_group_keys. split.
    + intros (i & Hi & Hka & Hkb & Hna & Hnb). eauto 10.
    + intros (Hna & Hnb & i & Hi & Hka & Hkb). eauto 10.
  - intros a b mean ([a' b'] & Heq & _)%list_elem_of_fmap.
    cbn [fst snd] in Heq. injection Heq as -> -> ->.
    intros vs exact_sum exact_mean. split; [done|]. split.
    { intros E. unfold vs in E. by rewrite E. }
    intros Hdt Hfl Hvs Hne.
    destruct (group_mean_exact (column_dtype v) vs Hdt Hfl Hvs Hne)
      as (x & Hmean & Hx).
    exists (fl x). split; [done|].
    apply mean_of_exact_sum; [done | | | done].
    + by destruct vs.
    + etrans; [apply Zsum_abs_bound | by destruct Hvs].
Qed.

Lemma average_by_origin_and_quality_witness :
  exists rows : list (cell * cell * fval),
    @aggregate exact_platform example_merged AvgValueByOriginQuality = Ok (BarMeans rows)
    /\ (Str "Norte", Str "Alta") ∈ map fst rows.
Proof.
  destruct (@average_by_origin_and_quality exact_platform example_merged
              [Str "Norte"; Str "Sur"; Null] [Str "Alta"; Str "Baja"; Null]
              [Num (qc 100); Num (qc 200); Num (qc 50)])
    as (rows & Hrows & _ & Hin & _).
  - reflexivity.
  - reflexivity.
  - reflexivity.
  - intros i Hi _ _. assert (Hn : nrows example_merged = 3%nat) by reflexivity.
    rewrite Hn in Hi. right.
    destruct i as [|[|[|i]]]; [by eexists | by eexists | by eexists | lia].
  - exists rows. split; [exact Hrows|]. apply Hin.
    split; [done|]. split; [done|]. exists 0%nat.
    split; [|done]. assert (Hn : nrows example_merged = 3%nat) by reflexivity.
    rewrite Hn. lia.
Defined.

(** ** The export and the tables of a run *)





Lemma load_excel_body_all_or_nothing `{Platform} fs' p :
  (exists e, load_excel_body fs' p = (no_tables, [load_error_message e]))
  \/ (exists e f m, load_excel_body fs' p = ((Some e, Some f, Some m), [])).
Proof.
  unfold load_excel_body. destruct (load_excel_try fs' p) as [[[e f] m]|e]; eauto 10.
Qed.

Lemma load_excel_cache_ok `{Platform} p st :
  cache_ok st ->
  cache_ok (snd (load_excel p st))
  /\ exists fs', fst (load_excel p st) = load_excel_body fs' p.
Proof.
  intros Hok. unfold load_excel. destruct (cache st !! p) as [r|] eqn:Ep.
  - split; [done|]. by apply Hok.
  - cbn [fst snd]. split; [|eauto].
    intros q r. cbn [cache]. destruct (decide (p = q)) as [->|Hne].
    + rewrite lookup_insert_eq. intros [= <-]. eauto.
    + rewrite lookup_insert_ne by done. apply Hok.
Qed.

Lemma load_excel_all_or_nothing `{Platform} p st :
  cache_ok st ->
  all_or_nothing (fst (fst (load_excel p st))) /\ cache_ok (snd (load_excel p st)).
Proof.
  intros Hok. destruct (load_excel_cache_ok p st Hok) as [Hok' [fs' ->]].
  split; [|done].
  destruct (load_excel_body_all_or_nothing fs' p) as [[e ->]|(e & f & m & ->)];
    [by left | right; eauto].
Qed.

(** X17.  In a process whose cache holds only results of the loader, the
    three tables of a run are all there or all None, after every source
    step, and the cache still holds only results of the loader when the
    run ends: the test of line 87 never meets some tables without the
    others. *)
Theorem tables_all_or_nothing `{Platform} (w : widgets) (st : state) :
  cache_ok st ->
  all_or_nothing (tables (fst (resolve_sources w st)))
  /\ cache_ok (final (main w st)).
Proof.
  intros Hok. rewrite main_analysis, analysis_final. unfold resolve_sources.
  assert (H0 : all_or_nothing (tables (fst (default_step st)))
               /\ cache_ok (snd (default_step st))).
  { unfold default_step. destruct (data_xlsx (fs st)); [|split; [by left | done]].
    pose proof (load_excel_all_or_nothing DataFile st Hok) as Hl.
    by destruct (load_excel DataFile st) as [[t msgs] st']. }
  destruct (default_step st) as [v0 st0]. cbn [fst snd] in *.
  destruct H0 as [T0 C0].
  assert (H1 : all_or_nothing (tables (fst (previous_step w v0 st0)))
               /\ cache_ok (snd (previous_step w v0 st0))).
  { unfold previous_step. destruct (previous_files st0); [done|].
    destruct (selectbox _ _) as [f|]; [|done].
    destruct (String.eqb f ""); [done|].
    pose proof (load_excel_all_or_nothing (UploadedFile f) st0 C0) as Hl.
    by destruct (load_excel (UploadedFile f) st0) as [[t msgs] st']. }
  destruct (previous_step w v0 st0) as [v1 st1]. cbn [fst snd] in *.
  destruct H1 as [T1 C1].
  unfold upload_step. destruct (uploaded_file w) as [u|]; [|done].
  unfold save_uploaded_file. destruct (can_write st1 (up_name u)); [|done].
  match goal with |- context [load_excel ?p ?s] =>
    pose proof (load_excel_all_or_nothing p s C1) as Hl;
    destruct (load_excel p s) as [[t msgs] st'] end.
  done.
Qed.

Lemma tables_all_or_nothing_witness :
  all_or_nothing (tables (fst (@resolve_sources exact_platform idle_widgets broken_state))).
Proof.
  apply (@tables_all_or_nothing exact_platform idle_widgets broken_state).
  intros p r Hp. cbn in Hp. by rewrite lookup_empty in Hp.
Defined.
